(** * Demand-planning pipeline: enrichment cascade, feature builder,
      hierarchical trainer and confidence classifier

    Shallow embedding of the Python scripts
    [scripts/STAGE2_5_ENRICH.py], [scripts/extract_sku_data_v2.py],
    [scripts/TRAIN_V4_MODELS.py], [scripts/TRAIN_V3_HYBRID.py] and of
    the metric and the SKU loop of [scripts/TRAIN_ALL_MODELS.py].

    Conventions.
    - A pandas numeric column is a [Q]; a cell that may be NaN is an
      [option Q] with [None] for NaN.  Floating-point rounding is not
      modelled: arithmetic is exact.
    - A data frame is the list of its rows, in index order.
    - A Python dict is a [gmap]. *)

From Stdlib Require Import QArith Qabs String List Permutation Sorted.
From stdpp Require Import base option list gmap strings sorting.

Set Default Proof Using "Type".

(** ** Rational helpers *)

Definition Qltb (x y : Q) : bool := negb (Qle_bool y x).

Definition Qsum (xs : list Q) : Q := foldr Qplus 0%Q xs.

(** [Series.mean()] of a non-empty column. *)
Definition Qmean (xs : list Q) : Q :=
  (Qsum xs / inject_Z (Z.of_nat (length xs)))%Q.

(** ** Enrichment cascade ([scripts/STAGE2_5_ENRICH.py]) *)

Module Enrich.

(** The values written to the [price_source] column. *)
Inductive PriceSource :=
| original
| inferred_from_sku_avg
| inferred_from_master
| has_total_no_unit_price
| missing_no_reference.

#[global] Instance PriceSource_eq_dec : EqDecision PriceSource.
Proof. solve_decision. Defined.

(** One line item of [sku0_fact_lineitem.csv] (the columns the cascade
    reads).  [customer_id = None] is a NaN cell. *)
Record LineItem := {
  sku : string;
  quantity : Q;
  unit_price : Q;
  line_total : Q;
  region_name : string;
  customer_id : option string
}.

(** One row of [dim_products.csv] after [load_data] added [sku_clean]. *)
Record Product := {
  sku_clean : string;
  price : Q
}.

(** A line item after [enrich_prices]: the ledger columns (with
    [unit_price] and [line_total] possibly rewritten) and the tracking
    columns added at lines 53-56. *)
Record Enriched := {
  item : LineItem;
  price_source : PriceSource;
  price_inferred : bool;
  original_unit_price : Q;
  original_line_total : Q
}.

(** Lines 72-76: [np.where(quantity > 0, line_total / quantity, unit_price)]. *)
Definition effective_price (r : LineItem) : Q :=
  if Qltb 0 (quantity r) then (line_total r / quantity r)%Q else unit_price r.

(** Lines 78-83: the per-SKU mean of the positive effective prices,
    left-merged onto the frame; [None] is the NaN of an SKU without any
    positive effective price. *)
Definition sku_avg_price (df : list LineItem) (s : string) : option Q :=
  let xs := effective_price <$>
            List.filter (fun r => String.eqb (sku r) s
                                  && Qltb 0 (effective_price r)) df in
  match xs with
  | [] => None
  | _ :: _ => Some (Qmean xs)
  end.

(** Line 97: [products[products['price'] > 0].set_index('sku_clean')['price'].to_dict()];
    a later row overwrites an earlier one with the same key. *)
Definition master_prices (products : list Product) : gmap string Q :=
  foldl (fun m p => <[sku_clean p := price p]> m) ∅
        (List.filter (fun p => Qltb 0 (price p)) products).

(** The body of [enrich_prices] for one row; [df] is the whole input
    frame (the per-SKU averages are taken over it before any update). *)
Definition enrich_row (df : list LineItem) (master : gmap string Q)
    (r : LineItem) : Enriched :=
  (* lines 53-56 *)
  let src := original in
  let inferred := false in
  let up := unit_price r in
  let lt := line_total r in
  (* line 59 *)
  let truly_missing_mask := Qeq_bool up 0 && Qeq_bool lt 0 in
  (* line 63 *)
  let has_total_but_no_price := Qeq_bool up 0 && Qltb 0 lt in
  (* lines 86-92: strategy 1 *)
  let '(up, lt, src, inferred) :=
    match sku_avg_price df (sku r) with
    | Some avg_price =>
        if truly_missing_mask
        then (avg_price, (quantity r * avg_price)%Q, inferred_from_sku_avg, true)
        else (up, lt, src, inferred)
    | None => (up, lt, src, inferred)
    end in
  (* lines 99-107: strategy 2 *)
  let still_missing_mask := Qeq_bool up 0 && Qeq_bool lt 0 in
  let '(up, lt, src, inferred) :=
    match master !! sku r with
    | Some p =>
        if still_missing_mask
        then (p, (quantity r * p)%Q, inferred_from_master, true)
        else (up, lt, src, inferred)
    | None => (up, lt, src, inferred)
    end in
  (* line 111 *)
  let src := if has_total_but_no_price then has_total_no_unit_price else src in
  (* lines 114-116 *)
  let backfill_mask := has_total_but_no_price && Qltb 0 (quantity r) in
  let up := if backfill_mask then (lt / quantity r)%Q else up in
  let inferred := if backfill_mask then true else inferred in
  (* line 123 *)
  let src := if Qeq_bool up 0 && Qeq_bool lt 0
             then missing_no_reference else src in
  {| item := {| sku := sku r; quantity := quantity r;
                unit_price := up; line_total := lt;
                region_name := region_name r;
                customer_id := customer_id r |};
     price_source := src;
     price_inferred := inferred;
     original_unit_price := unit_price r;
     original_line_total := line_total r |}.

Definition enrich_prices (df : list LineItem) (products : list Product)
    : list Enriched :=
  enrich_row df (master_prices products) <$> df.

(** The counters of the report returned next to the frame. *)
Definition truly_missing_count (df : list LineItem) : nat :=
  length (List.filter
            (fun r => Qeq_bool (unit_price r) 0 && Qeq_bool (line_total r) 0) df).

Definition final_zero_revenue (out : list Enriched) : nat :=
  truly_missing_count (item <$> out).

(** [df['line_total'].sum()] in [main], before and after. *)
Definition total_revenue (df : list LineItem) : Q :=
  Qsum (line_total <$> df).

(** Lines 185-193 of [add_data_quality_flags].  [enrich_regions] and
    [enrich_customers], which run in between, only add the
    [region_source] and [customer_source] columns. *)
Definition dq_score (e : Enriched) : Z :=
  let s := 100%Z in
  let s := if price_inferred e then (s - 10)%Z else s in
  let s := if Qeq_bool (unit_price (item e)) 0
              && Qeq_bool (line_total (item e)) 0
           then (s - 30)%Z else s in
  let s := if String.eqb (region_name (item e)) "Unknown"
           then (s - 20)%Z else s in
  let s := match customer_id (item e) with
           | None => (s - 10)%Z
           | Some c => if String.eqb c "" then (s - 10)%Z else s
           end in
  Z.max s 0.

(** The quality score as the specification words it: the ten points
    are taken off when the price was inferred by cascade steps 2-3
    (SKU average or product master), and the result is clamped to
    [0,100]. *)
Definition inferred_by_steps_2_3 (e : Enriched) : bool :=
  match price_source e with
  | inferred_from_sku_avg | inferred_from_master => true
  | _ => false
  end.

Definition unresolved (r : LineItem) : bool :=
  Qeq_bool (unit_price r) 0 && Qeq_bool (line_total r) 0.

Definition region_unknown (r : LineItem) : bool :=
  String.eqb (region_name r) "Unknown".

Definition customer_missing (r : LineItem) : bool :=
  match customer_id r with
  | None => true
  | Some c => String.eqb c ""
  end.

Definition penalty (b : bool) (n : Z) : Z := if b then n else 0%Z.

(** What the code takes the ten points off for: a price filled in by
    any of lines 89, 104 or 115, i.e. inferred by steps 2-3 or
    back-filled from an existing [line_total]. *)
Definition price_filled_in (e : Enriched) : bool :=
  inferred_by_steps_2_3 e
  || (bool_decide (price_source e = has_total_no_unit_price)
      && Qltb 0 (quantity (item e))).

Definition spec_dq_score (e : Enriched) : Z :=
  Z.min 100 (Z.max 0
    (100 - penalty (inferred_by_steps_2_3 e) 10
         - penalty (unresolved (item e)) 30
         - penalty (region_unknown (item e)) 20
         - penalty (customer_missing (item e)) 10)).

(** Feeding an enriched frame to another pass: lines 53-56 overwrite the
    tracking columns, so only the ledger columns are read. *)
Definition reload (out : list Enriched) : list LineItem := item <$> out.

(** The shape of a row that the cascade leaves as it found it. *)
Definition kept (r : LineItem) (src : PriceSource) : Enriched :=
  {| item := r; price_source := src; price_inferred := false;
     original_unit_price := unit_price r;
     original_line_total := line_total r |}.

(** The shape of a row whose price (and possibly revenue) was filled in. *)
Definition filled (r : LineItem) (up lt : Q) (src : PriceSource) : Enriched :=
  {| item := {| sku := sku r; quantity := quantity r;
                unit_price := up; line_total := lt;
                region_name := region_name r;
                customer_id := customer_id r |};
     price_source := src; price_inferred := true;
     original_unit_price := unit_price r;
     original_line_total := line_total r |}.


(** *** Sample ledgers *)

(** A row with revenue but no unit price. *)
Definition row_total_only : LineItem :=
  {| sku := "1001"; quantity := 10; unit_price := 0; line_total := 500;
     region_name := "Gauteng"; customer_id := Some "C001" |}.

(** A row with neither price nor revenue, alone for its SKU. *)
Definition row_missing : LineItem :=
  {| sku := "2002"; quantity := 5; unit_price := 0; line_total := 0;
     region_name := "Gauteng"; customer_id := Some "C002" |}.

(** A priced row and a truly missing row of the same SKU. *)
Definition ledger_same_sku : list LineItem :=
  [ {| sku := "3003"; quantity := 2; unit_price := 5; line_total := 10;
       region_name := "Gauteng"; customer_id := Some "C003" |};
    {| sku := "3003"; quantity := 3; unit_price := 0; line_total := 0;
       region_name := "Gauteng"; customer_id := Some "C004" |} ].

End Enrich.


(** ** The enrichment report, the quality tiers and the calendar
       columns ([scripts/STAGE2_5_ENRICH.py]) *)

Module EnrichReport.
Import Enrich.

(** Line 86, [truly_missing_mask & df['avg_price'].notna()]. *)
Definition can_infer_mask (df : list LineItem) (r : LineItem) : bool :=
  (Qeq_bool (unit_price r) 0 && Qeq_bool (line_total r) 0)
  && match sku_avg_price df (sku r) with Some _ => true | None => false end.

(** A row after lines 89-90 (strategy 1): its [unit_price] and
    [line_total]. *)
Definition after_sku_avg (df : list LineItem) (r : LineItem) : Q * Q :=
  match sku_avg_price df (sku r) with
  | Some avg_price =>
      if can_infer_mask df r
      then (avg_price, (quantity r * avg_price)%Q)
      else (unit_price r, line_total r)
  | None => (unit_price r, line_total r)
  end.

(** Lines 99-100, [still_missing_mask & df['sku'].isin(master_prices.keys())]. *)
Definition can_use_master (df : list LineItem) (master : gmap string Q)
    (r : LineItem) : bool :=
  let '(up, lt) := after_sku_avg df r in
  (Qeq_bool up 0 && Qeq_bool lt 0)
  && match master !! sku r with Some _ => true | None => false end.

(** The dict returned next to the frame, lines 128-136 (the rounded
    [enrichment_rate] is left out). *)
Record PriceStats := {
  original_zero_price : nat;
  truly_missing_revenue : nat;
  had_total_but_no_price : nat;
  inferred_from_sku : nat;
  inferred_from_master_count : nat;
  remaining_zero_revenue : nat
}.

Definition count {A} (P : A -> bool) (l : list A) : nat :=
  length (List.filter P l).

Definition price_stats (df : list LineItem) (products : list Product)
    : PriceStats :=
  let out := enrich_prices df products in
  {| original_zero_price :=
       count (fun e => Qeq_bool (original_unit_price e) 0) out;
     truly_missing_revenue :=
       count (fun r => Qeq_bool (unit_price r) 0 && Qeq_bool (line_total r) 0) df;
     had_total_but_no_price :=
       count (fun r => Qeq_bool (unit_price r) 0 && Qltb 0 (line_total r)) df;
     inferred_from_sku := count (can_infer_mask df) df;
     inferred_from_master_count :=
       count (can_use_master df (master_prices products)) df;
     remaining_zero_revenue :=
       count (fun e => Qeq_bool (unit_price (item e)) 0
                       && Qeq_bool (line_total (item e)) 0) out |}.

(** The number of output rows carrying a tag. *)
Definition tagged (src : PriceSource) (out : list Enriched) : nat :=
  count (fun e => bool_decide (price_source e = src)) out.

(** [main], lines 333 and 359: [(df['line_total'] == 0).sum()]. *)
Definition zero_revenue_count (df : list LineItem) : nat :=
  count (fun r => Qeq_bool (line_total r) 0) df.

(** Reading the ledger back from the tracking columns of lines 55-56. *)
Definition restore (e : Enriched) : LineItem :=
  {| sku := sku (item e); quantity := quantity (item e);
     unit_price := original_unit_price e;
     line_total := original_line_total e;
     region_name := region_name (item e);
     customer_id := customer_id (item e) |}.

(** Lines 195-197: [pd.cut(dq_score, bins=[-1, 50, 70, 90, 100], labels=...)],
    intervals closed on the right; [None] is the NaN of a score outside
    every bin. *)
Inductive Tier := poor | fair | good | excellent.

Definition dq_tier (score : Z) : option Tier :=
  if (score <=? -1)%Z then None
  else if (score <=? 50)%Z then Some poor
  else if (score <=? 70)%Z then Some fair
  else if (score <=? 90)%Z then Some good
  else if (score <=? 100)%Z then Some excellent
  else None.

(** Lines 238-240 of [regenerate_features]: the calendar columns read
    off the week number. *)
Definition clip (lo hi x : Z) : Z := Z.min hi (Z.max lo x).

Definition month (week_of_year : Z) : Z :=
  clip 1 12 ((week_of_year - 1) / 4 + 1).

Definition quarter (week_of_year : Z) : Z :=
  (month week_of_year - 1) / 3 + 1.

(** A ledger with one row of each kind for SKU 3003 and an unresolved
    row of SKU 4004. *)
Definition ledger_mixed : list LineItem :=
  ledger_same_sku ++
  [ {| sku := "3003"; quantity := 4; unit_price := 0; line_total := 28;
       region_name := "Unknown"; customer_id := None |};
    {| sku := "4004"; quantity := 1; unit_price := 0; line_total := 0;
       region_name := "Unknown"; customer_id := Some "C005" |} ].

End EnrichReport.

(** ** Feature builder ([scripts/extract_sku_data_v2.py], lines 562-573) *)

Module Features.

(** One row of [weekly_features] after the aggregation of lines 548-560:
    one row per (sku, year_week).  [avg_unit_price] is the mean of a
    column that may hold NaN only. *)
Record WeeklyRow := {
  sku : Z;
  year_week : string;
  weekly_quantity : Q;
  avg_unit_price : option Q
}.

(** The columns added by lines 564-573. *)
Record FeatureRow := {
  base : WeeklyRow;
  lag1_quantity : option Q;
  lag2_quantity : option Q;
  lag4_quantity : option Q;
  lag1_price : option Q;
  lag2_price : option Q;
  lag4_price : option Q;
  rolling_avg_4w : option Q;
  price_rolling_avg_4w : option Q
}.

(** [sort_values(['sku', 'year_week'])]: ISO week keys are fixed-width
    strings, compared as strings. *)
Definition row_leb (a b : WeeklyRow) : bool :=
  (sku a <? sku b)%Z
  || ((sku a =? sku b)%Z && String.leb (year_week a) (year_week b)).

Fixpoint insert_row (r : WeeklyRow) (l : list WeeklyRow) : list WeeklyRow :=
  match l with
  | [] => [r]
  | x :: l' => if row_leb r x then r :: x :: l' else x :: insert_row r l'
  end.

Definition sort_values (tbl : list WeeklyRow) : list WeeklyRow :=
  foldr insert_row [] tbl.

(** [Series.shift(k)]: the cell [k] positions up, NaN on the first [k]. *)
Definition shift (k : nat) (xs : list (option Q)) : list (option Q) :=
  take (length xs) (replicate k None ++ xs).

(** The cells a window of [n] ending at position [i] covers. *)
Definition window (n : nat) (xs : list (option Q)) (i : nat) : list (option Q) :=
  drop (S i - n) (take (S i) xs).

(** [Series.rolling(n, min_periods=1).agg()]: [agg] over the non-NaN
    cells of the window, NaN when the window has none. *)
Definition rolling (n : nat) (agg : list Q -> option Q)
    (xs : list (option Q)) : list (option Q) :=
  (fun i => match omap id (window n xs i) with
            | [] => None
            | v :: vs => agg (v :: vs)
            end) <$> seq 0 (length xs).

Definition mean (vs : list Q) : option Q := Some (Qmean vs).

(** [df.groupby('sku')[col]], as the cells of the rows of one SKU in
    frame order. *)
Definition group_column (col : WeeklyRow -> option Q) (df : list WeeklyRow)
    (s : Z) : list (option Q) :=
  col <$> List.filter (fun r => (sku r =? s)%Z) df.

(** [df.groupby('sku')[col].transform(f)] and [.shift(k)]: [f] runs on
    the column of each group and the result is aligned with the frame;
    the row at index [i] reads the cell at its position in its group. *)
Definition transform (col : WeeklyRow -> option Q)
    (f : list (option Q) -> list (option Q)) (df : list WeeklyRow)
    : list (option Q) :=
  imap (fun i r =>
          let pos := length (List.filter (fun x => (sku x =? sku r)%Z)
                               (take i df)) in
          mjoin (f (group_column col df (sku r)) !! pos)) df.

Definition quantity_cell (r : WeeklyRow) : option Q := Some (weekly_quantity r).

(** Lines 563-573. *)
Definition weekly_features (tbl : list WeeklyRow) : list FeatureRow :=
  let df := sort_values tbl in
  let column f col := transform col f df in
  let cell (c : list (option Q)) (i : nat) : option Q := mjoin (c !! i) in
  imap (fun i r =>
    {| base := r;
       lag1_quantity := cell (column (shift 1) quantity_cell) i;
       lag2_quantity := cell (column (shift 2) quantity_cell) i;
       lag4_quantity := cell (column (shift 4) quantity_cell) i;
       lag1_price := cell (column (shift 1) avg_unit_price) i;
       lag2_price := cell (column (shift 2) avg_unit_price) i;
       lag4_price := cell (column (shift 4) avg_unit_price) i;
       rolling_avg_4w := cell (column (rolling 4 mean) quantity_cell) i;
       price_rolling_avg_4w := cell (column (rolling 4 mean) avg_unit_price) i
    |}) df.

(** The feature row of one (sku, week). *)
Definition feature_row (tbl : list WeeklyRow) (s : Z) (w : string)
    : option FeatureRow :=
  head (List.filter (fun f => (sku (base f) =? s)%Z
                              && String.eqb (year_week (base f)) w)
          (weekly_features tbl)).

(** Two weekly tables that differ in one cell only: the quantity of
    SKU 7 in week 2025-W02. *)
Definition weeks_a : list WeeklyRow :=
  [ {| sku := 7; year_week := "2025-W01"; weekly_quantity := 10;
       avg_unit_price := Some 2%Q |};
    {| sku := 7; year_week := "2025-W02"; weekly_quantity := 30;
       avg_unit_price := Some 2%Q |} ].

Definition weeks_b : list WeeklyRow :=
  [ {| sku := 7; year_week := "2025-W01"; weekly_quantity := 10;
       avg_unit_price := Some 2%Q |};
    {| sku := 7; year_week := "2025-W02"; weekly_quantity := 50;
       avg_unit_price := Some 2%Q |} ].

(** The rows of an SKU strictly before a week. *)
Definition history (tbl : list WeeklyRow) (s : Z) (w : string) : list WeeklyRow :=
  List.filter (fun r => (sku r =? s)%Z && String.ltb (year_week r) w) tbl.

End Features.

(** ** Line-item extraction ([scripts/extract_sku_data_v2.py],
       [process_file], lines 233-337) *)

Module Extract.

(** A cell of an invoice sheet as pandas hands it over: NaN, a number,
    or anything else (text). *)
Inductive Cell :=
| Blank
| Number (q : Q)
| Text (s : string).

(** A row of an invoice sheet, under the columns [detect_columns]
    found: the SKU and quantity cells, and the price and total cells
    (read only when the sheet has such a column). *)
Record SheetRow := {
  stock_code : Cell;
  qty : Cell;
  price_val : Cell;
  total_val : Cell
}.

(** An invoice sheet that passed the checks of lines 236-255 (an
    invoice number as name, a SKU and a quantity column): its name
    and whether [col_map] has a price and a total column. *)
Record Sheet := {
  clean_name : string;
  has_price : bool;
  has_total : bool;
  rows : list SheetRow
}.

(** An entry of [line_items] (the invoice metadata copied onto every
    row - dates, customer, region, description - is left out). *)
Record LineItem := {
  invoice_id : string;
  sku : Z;
  quantity : Q;
  unit_price : Q;
  line_total : Q
}.

(** The whitespace [str.strip] removes, in ASCII. *)
Definition is_space (c : Ascii.ascii) : bool :=
  let n := Ascii.nat_of_ascii c in
  ((9 <=? n) && (n <=? 13)) || ((28 <=? n) && (n <=? 32)).

(** [str(x).strip() == ''] on a text cell. *)
Definition strip_is_empty (s : string) : bool :=
  forallb is_space (list_ascii_of_string s).

(** [int(x)] on a float: truncation towards zero. *)
Definition int_of (q : Q) : Z := Z.quot (Qnum q) (Zpos (Qden q)).

(** What one turn of the loop over the rows does. *)
Inductive Outcome :=
| Skipped                         (* a [continue] *)
| Raised                          (* an exception leaves the loop *)
| Appended (it : LineItem) (captured : nat).

Section Rows.
(** [float(s)] on a string: [None] when it raises (strings that read
    as [nan] or [inf] are outside the model). *)
Variable float_of_text : string -> option Q.

(** [float(x)] on a cell that is not NaN. *)
Definition float_of (c : Cell) : option Q :=
  match c with
  | Blank => None
  | Number q => Some q
  | Text s => float_of_text s
  end.

(** Lines 275-332, for one row of the sheet [sh]. *)
Definition process_row (sh : Sheet) (row : SheetRow) : Outcome :=
  (* lines 275-277 *)
  match stock_code row with
  | Blank => Skipped
  | code =>
    if (match code with Text s => strip_is_empty s | _ => false end)
    then Skipped
    else
      (* lines 279-281: a text cell cannot be compared with 0 *)
      match qty row with
      | Blank => Skipped
      | Text _ => Raised
      | Number q =>
        if Qle_bool q 0 then Skipped
        else
          (* lines 283-286 *)
          match float_of code with
          | None => Skipped
          | Some code_value =>
            (* lines 289-298 *)
            let unit_price :=
              if has_price sh
              then match price_val row with
                   | Blank => 0%Q
                   | c => match float_of c with
                          | Some p => p
                          | None => 0%Q
                          end
                   end
              else 0%Q in
            let captured := if Qltb 0 unit_price then 1 else 0 in
            (* lines 301-310 *)
            let line_total :=
              if has_total sh
              then match total_val row with
                   | Blank => 0%Q
                   | c => match float_of c with
                          | Some t => t
                          | None => (q * unit_price)%Q
                          end
                   end
              else (q * unit_price)%Q in
            (* lines 313-315 *)
            let backfill :=
              Qeq_bool unit_price 0 && Qltb 0 line_total && Qltb 0 q in
            let unit_price :=
              if backfill then (line_total / q)%Q else unit_price in
            let captured := if backfill then S captured else captured in
            Appended {| invoice_id := clean_name sh;
                        sku := int_of code_value;
                        quantity := q;
                        unit_price := unit_price;
                        line_total := line_total |} captured
          end
      end
  end.

(** The loop of line 274 over the rows of one sheet, on the running
    [line_items] and [prices_captured]; the [except] of line 336 drops
    the rest of the sheet and keeps what was appended. *)
Fixpoint process_rows (sh : Sheet) (rs : list SheetRow)
    (acc : list LineItem * nat) : list LineItem * nat :=
  match rs with
  | [] => acc
  | row :: rs' =>
      match process_row sh row with
      | Skipped => process_rows sh rs' acc
      | Raised => acc
      | Appended it c => process_rows sh rs' (acc.1 ++ [it], acc.2 + c)
      end
  end.

(** The loop of line 235 over the invoice sheets of a workbook:
    [(line_items, prices_captured)]. *)
Definition process_sheets (sheets : list Sheet) : list LineItem * nat :=
  foldl (fun acc sh => process_rows sh (rows sh) acc) ([], 0) sheets.

End Rows.

(** A line item that counts as a captured price. *)
Definition priced (it : LineItem) : bool := Qltb 0 (unit_price it).

(** [float] that reads nothing: every text cell is rejected. *)
Definition no_text : string -> option Q := fun _ => None.

(** A sheet with a total column and no price column: a priced row,
    a row without quantity, a returned item, a text quantity, and a row
    after it. *)
Definition sample_sheet : Sheet :=
  {| clean_name := "100234"; has_price := false; has_total := true;
     rows :=
       [ {| stock_code := Number 5501; qty := Number 4;
            price_val := Blank; total_val := Number 100 |};
         {| stock_code := Number 5502; qty := Blank;
            price_val := Blank; total_val := Number 30 |};
         {| stock_code := Number 5503; qty := Number (-2);
            price_val := Blank; total_val := Number (-50) |};
         {| stock_code := Number 5504; qty := Number 3;
            price_val := Blank; total_val := Blank |};
         {| stock_code := Number 5505; qty := Text "n/a";
            price_val := Blank; total_val := Number 10 |};
         {| stock_code := Number 5506; qty := Number 1;
            price_val := Blank; total_val := Number 10 |} ] |}.

(** A sheet with a price column and no total column. *)
Definition priced_sheet : Sheet :=
  {| clean_name := "100235"; has_price := true; has_total := false;
     rows :=
       [ {| stock_code := Number 5501; qty := Number 4;
            price_val := Number 25; total_val := Blank |};
         {| stock_code := Text "5507"; qty := Number 2;
            price_val := Blank; total_val := Blank |};
         {| stock_code := Number 5508; qty := Number 2;
            price_val := Text "tbc"; total_val := Blank |} ] |}.

End Extract.

(** ** Library functions the trainers call *)

Module Lib.

(** The keyword arguments of [GradientBoostingRegressor(...)];
    [random_state = None] is the library default (seed drawn from the
    global random generator). *)
Record Params := {
  n_estimators : Z;
  max_depth : Z;
  learning_rate : Q;
  min_samples_split : Z;
  min_samples_leaf : Z;
  random_state : option Z
}.

(** What the scripts use of scikit-learn and of the Python runtime.
    [World] is whatever a run does not control (the state of the global
    random generator); [gbr_fit] is construction followed by [.fit(X, y)],
    [None] when it raises; [predict] is [.predict] on one feature row;
    [round1] is [round(x, 1)]. *)
Class Library := {
  World : Type;
  Model : Type;
  gbr_fit : World -> Params -> list (list Q) -> list Q -> option Model;
  predict : Model -> list Q -> Q;
  round1 : Q -> Q
}.

(** [np.clip(x, 0, None)]. *)
Definition clip0 (x : Q) : Q := if Qltb x 0 then 0%Q else x.

(** [Series.unique()]: the distinct values in order of first appearance. *)
Fixpoint unique `{EqDecision A} (l : list A) : list A :=
  match l with
  | [] => []
  | x :: l' => x :: List.filter (fun y => negb (bool_decide (y = x))) (unique l')
  end.

(** [df[df[key] == k]]. *)
Definition rows_of {A K} (key : A -> K) (eqb : K -> K -> bool)
    (l : list A) (k : K) : list A :=
  List.filter (fun a => eqb (key a) k) l.

Definition notna (c : option Q) : bool :=
  match c with Some _ => true | None => false end.

(** [groupby(key).size().to_dict()]. *)
Definition group_sizes `{Countable K} {A} (key : A -> K) (df : list A)
    : gmap K nat :=
  foldl (fun m r => <[key r := S (default 0 (m !! key r))]> m) ∅ df.

(** A library whose fit ignores the seed it is given and reads the
    world only when no seed is given; its model is the mean of the
    targets. *)
Definition mean_library : Library :=
  {| World := Q;
     Model := Q;
     gbr_fit := fun w p X y =>
       match y with
       | [] => None
       | _ :: _ => Some (match random_state p with
                         | Some _ => Qmean y
                         | None => (Qmean y + w)%Q
                         end)
       end;
     predict := fun m x => m;
     round1 := fun x => x |}.

End Lib.

(** ** V4 trainer, SKU level ([scripts/TRAIN_V4_MODELS.py]) *)

Module TrainV4.
Import Lib.

Definition H1_END_WEEK : Z := 26.

(** Lines 48-51.  The two columns come from the same frame and have
    the same length. *)
Definition calculate_wmape (actual predicted : list Q) : Q :=
  if Qltb 0 (Qsum actual)
  then (100 * Qsum (zip_with (fun a p => Qabs (a - p)) actual predicted)
        / Qsum actual)%Q
  else 999%Q.

Inductive Confidence := High | Medium | Low.

(** Lines 53-60. *)
Definition get_confidence (wmape : Q) (h1_weeks : nat) : Confidence :=
  if Qltb wmape 40 && (15 <=? h1_weeks) then High
  else if Qltb wmape 60 && (10 <=? h1_weeks) then Medium
  else Low.

(** A row of [weekly] when [add_v4_features] reaches its line 100: the
    key columns, the target, the four core features ([v4_features[:4]])
    and the cells of the other columns of [v4_features], in order. *)
Record Row := {
  sku : Z;
  category : string;
  year_week : string;
  week_num : Z;
  weekly_quantity : Q;
  lag1_quantity : option Q;
  lag2_quantity : option Q;
  lag4_quantity : option Q;
  rolling_avg_4w : option Q;
  other_features : list (option Q)
}.

Definition fill0 (c : option Q) : option Q := Some (default 0%Q c).

(** Line 100, [df.fillna(0)], on the feature columns. *)
Definition fillna0 (r : Row) : Row :=
  {| sku := sku r; category := category r; year_week := year_week r;
     week_num := week_num r; weekly_quantity := weekly_quantity r;
     lag1_quantity := fill0 (lag1_quantity r);
     lag2_quantity := fill0 (lag2_quantity r);
     lag4_quantity := fill0 (lag4_quantity r);
     rolling_avg_4w := fill0 (rolling_avg_4w r);
     other_features := fill0 <$> other_features r |}.

Definition core (r : Row) : list (option Q) :=
  [lag1_quantity r; lag2_quantity r; lag4_quantity r; rolling_avg_4w r].

(** The rows [dropna(subset=v4_features[:4])] keeps. *)
Definition notna_core (r : Row) : bool := forallb notna (core r).

(** One row of [df[v4_features].fillna(0)]. *)
Definition features (r : Row) : list Q :=
  default 0%Q <$> (core r ++ other_features r).

Inductive ModelType :=
| SkuModel      (* 'sku' *)
| GlobalModel.  (* 'global' *)

(** One entry of [sku_results] (lines 227-236; the [description] column,
    a product name looked up by SKU, is left out). *)
Record Prediction := {
  p_sku : Z;
  p_category : string;
  p_year_week : string;
  actual : Q;
  predicted : Q;
  model_type : ModelType;
  h1_weeks : nat
}.

(** One row of [sku_df] after lines 241-248. *)
Record Scored := {
  prediction : Prediction;
  wmape : Q;
  confidence : Confidence
}.

Section Pipeline.
Context `{Library}.

(** Lines 106-117. *)
Definition train_model (w : World) (X : list (list Q)) (y : list Q)
    : option Model :=
  gbr_fit w {| n_estimators := 100; max_depth := 5; learning_rate := 1 # 10;
               min_samples_split := 5; min_samples_leaf := 2;
               random_state := Some 42%Z |} X y.

(** The rows of one SKU a model is fitted on (line 183). *)
Definition sku_train (train_sku : list Row) (s : Z) : list Row :=
  List.filter notna_core (List.filter (fun r => (sku r =? s)%Z) train_sku).

(** Lines 183-196, the body of the training loop for one SKU: [None]
    when the loop moves on without a model, either at the [continue] of
    line 186 or at the one of the [except] clause. *)
Definition fit_sku (w : World) (train_sku : list Row) (s : Z) : option Model :=
  let rows := sku_train train_sku s in
  if length rows <? 4 then None
  else train_model w (features <$> rows) (weekly_quantity <$> rows).

(** Lines 182-196: the loop that fills [sku_models]. *)
Definition train_sku_models (w : World) (train_sku : list Row)
    : gmap Z Model :=
  foldl (fun sku_models s =>
           match fit_sku w train_sku s with
           | Some model => <[s := model]> sku_models
           | None => sku_models
           end)
        ∅ (unique (sku <$> train_sku)).

(** Lines 209-236: the predictions for one SKU of the test frame. *)
Definition predict_sku (sku_models : gmap Z Model) (global_model : Model)
    (h1_weeks_per_sku : gmap Z nat) (test_all : list Row) (s : Z)
    : list Prediction :=
  let sku_test :=
    List.filter notna_core (List.filter (fun r => (sku r =? s)%Z) test_all) in
  if length sku_test =? 0 then []
  else
    let '(model, mtype) :=
      match sku_models !! s with
      | Some m => (m, SkuModel)
      | None => (global_model, GlobalModel)
      end in
    (fun row =>
       {| p_sku := s;
          p_category := category row;
          p_year_week := year_week row;
          actual := weekly_quantity row;
          predicted := round1 (clip0 (predict model (features row)));
          model_type := mtype;
          h1_weeks := default 0 (h1_weeks_per_sku !! s) |}) <$> sku_test.

(** The entry the loop appends for one row of the test frame. *)
Definition prediction_of (sku_models : gmap Z Model) (global_model : Model)
    (h1_weeks_per_sku : gmap Z nat) (row : Row) : Prediction :=
  let '(model, mtype) :=
    match sku_models !! sku row with
    | Some m => (m, SkuModel)
    | None => (global_model, GlobalModel)
    end in
  {| p_sku := sku row;
     p_category := category row;
     p_year_week := year_week row;
     actual := weekly_quantity row;
     predicted := round1 (clip0 (predict model (features row)));
     model_type := mtype;
     h1_weeks := default 0 (h1_weeks_per_sku !! sku row) |}.

(** Lines 208-236. *)
Definition predict_skus (sku_models : gmap Z Model) (global_model : Model)
    (h1_weeks_per_sku : gmap Z nat) (test_all : list Row) : list Prediction :=
  concat (predict_sku sku_models global_model h1_weeks_per_sku test_all
          <$> unique (sku <$> test_all)).

(** Lines 241-243: the per-SKU metric.  Every SKU of the frame is a key
    of the dict, so the [map] of line 245 never misses. *)
Definition sku_wmape (sku_df : list Prediction) (s : Z) : Q :=
  let x := List.filter (fun p => (p_sku p =? s)%Z) sku_df in
  calculate_wmape (actual <$> x) (predicted <$> x).

(** Lines 238-248.  An empty [sku_results] gives a frame without
    columns and [groupby('sku')] raises. *)
Definition score (sku_results : list Prediction) : option (list Scored) :=
  match sku_results with
  | [] => None
  | _ :: _ =>
      Some ((fun p =>
               let wm := sku_wmape sku_results (p_sku p) in
               {| prediction := p;
                  wmape := wm;
                  confidence := get_confidence wm (h1_weeks p) |})
            <$> sku_results)
  end.

(** The split of lines 158-159, on the frame [add_v4_features] returns. *)
Definition train_all (weekly : list Row) : list Row :=
  List.filter (fun r => (week_num r <=? H1_END_WEEK)%Z) (fillna0 <$> weekly).

Definition test_all (weekly : list Row) : list Row :=
  List.filter (fun r => negb (week_num r <=? H1_END_WEEK)%Z) (fillna0 <$> weekly).

(** Line 171. *)
Definition train_sku (weekly : list Row) : list Row :=
  List.filter (fun r => negb (String.eqb (category r) "Unknown"))
    (train_all weekly).

(** Part 1 of [main], lines 158-248; [weekly] is the frame of line 139
    before the [fillna] that ends [add_v4_features].  [None] is a run
    that raises. *)
Definition main_sku (w : World) (weekly : list Row) : option (list Scored) :=
  let h1_weeks_per_sku := group_sizes sku (train_all weekly) in
  let sku_models := train_sku_models w (train_sku weekly) in
  let train_valid := List.filter notna_core (train_sku weekly) in
  match train_model w (features <$> train_valid)
          (weekly_quantity <$> train_valid) with
  | None => None
  | Some global_model =>
      score (predict_skus sku_models global_model h1_weeks_per_sku
               (test_all weekly))
  end.

End Pipeline.

Definition week_row (s : Z) (cat : string) (yw : string) (wk : Z) (q : Q) : Row :=
  {| sku := s; category := cat; year_week := yw; week_num := wk;
     weekly_quantity := q;
     lag1_quantity := None; lag2_quantity := None; lag4_quantity := None;
     rolling_avg_4w := Some q; other_features := [] |}.

(** SKU 5 sold in four weeks of the first half and never after. *)
Definition weekly_train_only : list Row :=
  [ week_row 5 "Beverages" "2025-W01" 1 10;
    week_row 5 "Beverages" "2025-W02" 2 12;
    week_row 5 "Beverages" "2025-W03" 3 11;
    week_row 5 "Beverages" "2025-W04" 4 13 ].

(** SKU 6 sold in three weeks of the first half and once in the second;
    SKU 5 as above, with one week in the second half. *)
Definition weekly_three_weeks : list Row :=
  weekly_train_only ++
  [ week_row 5 "Beverages" "2025-W30" 30 9;
    week_row 6 "Snacks" "2025-W01" 1 4;
    week_row 6 "Snacks" "2025-W02" 2 6;
    week_row 6 "Snacks" "2025-W03" 3 5;
    week_row 6 "Snacks" "2025-W30" 30 7 ].

End TrainV4.

(** ** V3 hybrid trainer ([scripts/TRAIN_V3_HYBRID.py]) *)

Module TrainV3Hybrid.
Import Lib.

(** A row of [weekly] after line 61: the frame of
    [v2_features_weekly.csv] with the category and the week number
    added.  Nothing fills the NaN cells of the feature columns. *)
Record Row := {
  sku : Z;
  category : string;
  year_week : string;
  week_num : Z;
  weekly_quantity : Q;
  lag1_quantity : option Q;
  lag2_quantity : option Q;
  lag4_quantity : option Q;
  rolling_avg_4w : option Q;
  avg_unit_price : option Q
}.

(** Lines 67-68: the cells of [feature_cols]. *)
Definition feature_cols (r : Row) : list (option Q) :=
  [lag1_quantity r; lag2_quantity r; lag4_quantity r; rolling_avg_4w r;
   avg_unit_price r; Some (inject_Z (week_num r))].

(** The rows [dropna(subset=feature_cols)] keeps. *)
Definition notna_features (r : Row) : bool := forallb notna (feature_cols r).

Definition features (r : Row) : list Q := default 0%Q <$> feature_cols r.

Inductive ModelType :=
| CategoryModel  (* 'category' *)
| GlobalModel.   (* 'global' *)

(** One entry of [predictions], lines 134-141. *)
Record Prediction := {
  p_sku : Z;
  p_category : string;
  p_year_week : string;
  actual : Q;
  predicted : Q;
  model_type : ModelType
}.

Section Pipeline.
Context `{Library}.

(** Lines 83-84 and 104-105:
    [GradientBoostingRegressor(n_estimators=100, max_depth=5, random_state=42)],
    the other arguments at the library defaults. *)
Definition fit (w : World) (X : list (list Q)) (y : list Q) : option Model :=
  gbr_fit w {| n_estimators := 100; max_depth := 5; learning_rate := 1 # 10;
               min_samples_split := 2; min_samples_leaf := 1;
               random_state := Some 42%Z |} X y.

Definition train (weekly : list Row) : list Row :=
  List.filter (fun r => (week_num r <=? 26)%Z) weekly.

Definition test (weekly : list Row) : list Row :=
  List.filter (fun r => negb (week_num r <=? 26)%Z) weekly.

(** The rows of one category a model is fitted on (line 93). *)
Definition cat_train (weekly : list Row) (cat : string) : list Row :=
  List.filter notna_features
    (List.filter (fun r => String.eqb (category r) cat) (train weekly)).

(** Lines 92-109.  The dict maps a sparse category to Python [None];
    a fit that raises ends the run (outer [None]). *)
Definition train_category_models (w : World) (weekly : list Row)
    : option (gmap string (option Model)) :=
  foldl (fun acc cat =>
           match acc with
           | None => None
           | Some category_models =>
               let rows := cat_train weekly cat in
               if length rows <? 50
               then Some (<[cat := None]> category_models)
               else match fit w (features <$> rows)
                            (weekly_quantity <$> rows) with
                    | Some model => Some (<[cat := Some model]> category_models)
                    | None => None
                    end
           end)
        (Some ∅) (unique (category <$> weekly)).

(** Lines 116-141: the predictions for one category of the test frame. *)
Definition predict_category (category_models : gmap string (option Model))
    (global_model : Model) (test : list Row) (cat : string)
    : list Prediction :=
  let cat_test :=
    List.filter notna_features
      (List.filter (fun r => String.eqb (category r) cat) test) in
  if length cat_test =? 0 then []
  else
    let '(model, mtype) :=
      match category_models !! cat with
      | Some (Some m) => (m, CategoryModel)
      | _ => (global_model, GlobalModel)
      end in
    (fun row =>
       {| p_sku := sku row;
          p_category := cat;
          p_year_week := year_week row;
          actual := weekly_quantity row;
          predicted := clip0 (predict model (features row));
          model_type := mtype |}) <$> cat_test.

(** The entry the loop appends for one row of the test frame. *)
Definition prediction_of (category_models : gmap string (option Model))
    (global_model : Model) (row : Row) : Prediction :=
  let '(model, mtype) :=
    match category_models !! category row with
    | Some (Some m) => (m, CategoryModel)
    | _ => (global_model, GlobalModel)
    end in
  {| p_sku := sku row;
     p_category := category row;
     p_year_week := year_week row;
     actual := weekly_quantity row;
     predicted := clip0 (predict model (features row));
     model_type := mtype |}.

(** Lines 115-141. *)
Definition predict_categories (category_models : gmap string (option Model))
    (global_model : Model) (test : list Row) : list Prediction :=
  concat (predict_category category_models global_model test
          <$> unique (category <$> test)).

(** Lines 70-143; [None] is a run that raises. *)
Definition main (w : World) (weekly : list Row) : option (list Prediction) :=
  let train_valid := List.filter notna_features (train weekly) in
  match fit w (features <$> train_valid) (weekly_quantity <$> train_valid) with
  | None => None
  | Some global_model =>
      match train_category_models w weekly with
      | None => None
      | Some category_models =>
          Some (predict_categories category_models global_model (test weekly))
      end
  end.

End Pipeline.

(** A row without lag cells: an SKU first seen in week 30. *)
Definition new_sku_row : Row :=
  {| sku := 9; category := "Beverages"; year_week := "2025-W30";
     week_num := 30; weekly_quantity := 12;
     lag1_quantity := None; lag2_quantity := None; lag4_quantity := None;
     rolling_avg_4w := Some 12%Q; avg_unit_price := Some 3%Q |}.

(** A feature table with one complete training row of SKU 8 and the
    first row of SKU 9 in the test window. *)
Definition weekly_new_sku : list Row :=
  [ {| sku := 8; category := "Beverages"; year_week := "2025-W10";
       week_num := 10; weekly_quantity := 20;
       lag1_quantity := Some 18%Q; lag2_quantity := Some 22%Q;
       lag4_quantity := Some 19%Q; rolling_avg_4w := Some 20%Q;
       avg_unit_price := Some 3%Q |};
    new_sku_row ].

End TrainV3Hybrid.

(** ** The metric of the first trainer ([scripts/TRAIN_ALL_MODELS.py]) *)

Module TrainAllModels.

(** A numpy float: a finite value, an infinity or NaN. *)
Inductive npfloat :=
| Finite (q : Q)
| PosInf
| NegInf
| NaN.

(** numpy's [x / y] on finite floats (the warning is filtered). *)
Definition np_div (x y : Q) : npfloat :=
  if Qeq_bool y 0
  then (if Qeq_bool x 0 then NaN else if Qltb 0 x then PosInf else NegInf)
  else Finite (x / y).

(** Lines 40-42: no test on the sum.  The script applies it to whole
    prediction tables only (lines 168, 255, 351), never per entity. *)
Definition calculate_wmape (actual predicted : list Q) : npfloat :=
  np_div (100 * Qsum (zip_with (fun a p => Qabs (a - p)) actual predicted))
         (Qsum actual).

End TrainAllModels.

(** ** Further sample tables for the V4 trainer *)

Module TrainV4Samples.
Import TrainV4.

(** SKU 7 has no entry in the product table (category Unknown); it
    sold in five weeks of the first half and once in the second. *)
Definition weekly_unknown : list Row :=
  weekly_three_weeks ++
  [ week_row 7 "Unknown" "2025-W01" 1 3;
    week_row 7 "Unknown" "2025-W02" 2 4;
    week_row 7 "Unknown" "2025-W03" 3 3;
    week_row 7 "Unknown" "2025-W04" 4 5;
    week_row 7 "Unknown" "2025-W05" 5 4;
    week_row 7 "Unknown" "2025-W30" 30 6 ].

(** SKU 5 as in [weekly_three_weeks], with nothing sold in week 30. *)
Definition weekly_no_demand : list Row :=
  weekly_train_only ++
  [ week_row 5 "Beverages" "2025-W30" 30 0 ].

End TrainV4Samples.

(** ** A further sample table for the V3 hybrid trainer *)

Module TrainV3Samples.
Import TrainV3Hybrid.

Definition full_row (s : Z) (cat yw : string) (wk : Z) (q : Q) : Row :=
  {| sku := s; category := cat; year_week := yw; week_num := wk;
     weekly_quantity := q;
     lag1_quantity := Some q; lag2_quantity := Some q;
     lag4_quantity := Some q; rolling_avg_4w := Some q;
     avg_unit_price := Some 3%Q |}.

(** Fifty SKUs of category Beverages with a complete row in week 10,
    one SKU of category Snacks, and a complete row of each category in
    week 30. *)
Definition weekly_dense : list Row :=
  ((fun i => full_row (Z.of_nat i) "Beverages" "2025-W10" 10 20) <$> seq 1 50)
  ++ [ full_row 90 "Snacks" "2025-W10" 10 5;
       full_row 1 "Beverages" "2025-W30" 30 18;
       full_row 90 "Snacks" "2025-W30" 30 6 ].

End TrainV3Samples.

(** ** V4 trainer, category level ([scripts/TRAIN_V4_MODELS.py],
       part 2 of [main], lines 288-329) *)

Module TrainV4Category.
Import Lib.

(** A row of [cat_weekly] after line 286: one category in one week,
    with the lag cells computed over the category's weeks. *)
Record Row := {
  category : string;
  year_week : string;
  week_num : Z;
  weekly_quantity : Q;
  avg_unit_price : option Q;
  lag1 : option Q;
  lag2 : option Q;
  lag4 : option Q;
  rolling_avg : option Q
}.

(** The cells of [cat_features[:4]]. *)
Definition core (r : Row) : list (option Q) :=
  [lag1 r; lag2 r; lag4 r; rolling_avg r].

Definition notna_core (r : Row) : bool := forallb notna (core r).

(** One row of [df[cat_features].fillna(0)]. *)
Definition features (r : Row) : list Q :=
  default 0%Q
  <$> (core r ++ [avg_unit_price r; Some (inject_Z (week_num r))]).

(** Lines 290-291. *)
Definition cat_train (cat_weekly : list Row) : list Row :=
  List.filter (fun r => (week_num r <=? TrainV4.H1_END_WEEK)%Z) cat_weekly.

Definition cat_test (cat_weekly : list Row) : list Row :=
  List.filter (fun r => negb (week_num r <=? TrainV4.H1_END_WEEK)%Z) cat_weekly.

(** [frame[frame['category'] == cat].dropna(subset=cat_features[:4])],
    lines 297-298. *)
Definition usable (frame : list Row) (cat : string) : list Row :=
  List.filter notna_core
    (List.filter (fun r => String.eqb (category r) cat) frame).

(** One entry of [cat_results], lines 311-317. *)
Record Prediction := {
  p_category : string;
  p_year_week : string;
  actual : Q;
  predicted : Q;
  h1_weeks : nat
}.

(** One row of [cat_df] after lines 322-329. *)
Record Scored := {
  prediction : Prediction;
  wmape : Q;
  confidence : TrainV4.Confidence
}.

Section Pipeline.
Context `{Library}.

(** Lines 297-317, one turn of the loop: the entries it appends, or
    [None] when the fit raises (nothing guards it). *)
Definition predict_category (w : World) (cat_weekly : list Row)
    (h1_weeks_per_cat : gmap string nat) (cat : string)
    : option (list Prediction) :=
  let cat_tr := usable (cat_train cat_weekly) cat in
  let cat_te := usable (cat_test cat_weekly) cat in
  if (length cat_tr <? 4) || (length cat_te =? 0) then Some []
  else
    match TrainV4.train_model w (features <$> cat_tr)
            (weekly_quantity <$> cat_tr) with
    | None => None
    | Some model =>
        Some ((fun row =>
                 {| p_category := cat;
                    p_year_week := year_week row;
                    actual := weekly_quantity row;
                    predicted := round1 (clip0 (predict model (features row)));
                    h1_weeks := default 0 (h1_weeks_per_cat !! cat) |})
              <$> cat_te)
    end.

(** Lines 293-317: [cat_results] when the loop ends. *)
Definition cat_results (w : World) (cat_weekly : list Row)
    : option (list Prediction) :=
  match mapM (predict_category w cat_weekly
                (group_sizes category (cat_train cat_weekly)))
          (unique (category <$> cat_weekly)) with
  | Some turns => Some (concat turns)
  | None => None
  end.

(** Lines 322-324: the per-category metric. *)
Definition cat_wmape (cat_df : list Prediction) (cat : string) : Q :=
  let x := List.filter (fun p => String.eqb (p_category p) cat) cat_df in
  TrainV4.calculate_wmape (actual <$> x) (predicted <$> x).

(** Lines 319-329.  An empty [cat_results] gives a frame without
    columns and [groupby('category')] raises. *)
Definition score (results : list Prediction) : option (list Scored) :=
  match results with
  | [] => None
  | _ :: _ =>
      Some ((fun p =>
               let wm := cat_wmape results (p_category p) in
               {| prediction := p;
                  wmape := wm;
                  confidence := TrainV4.get_confidence wm (h1_weeks p) |})
            <$> results)
  end.

(** Part 2 of [main] from line 288 on; [None] is a run that raises. *)
Definition main_category (w : World) (cat_weekly : list Row)
    : option (list Scored) :=
  cat_results w cat_weekly ≫= score.

End Pipeline.

Definition cat_row (cat yw : string) (wk : Z) (q : Q) (lag : option Q) : Row :=
  {| category := cat; year_week := yw; week_num := wk; weekly_quantity := q;
     avg_unit_price := Some 3%Q;
     lag1 := lag; lag2 := lag; lag4 := lag; rolling_avg := lag |}.

(** Beverages has its lag cells in four weeks of the first half and in
    week 30; Snacks has them in three weeks of the first half only and
    in week 30. *)
Definition cat_weekly_two : list Row :=
  [ cat_row "Beverages" "2025-W01" 1 40 None;
    cat_row "Beverages" "2025-W05" 5 42 (Some 40%Q);
    cat_row "Beverages" "2025-W06" 6 44 (Some 42%Q);
    cat_row "Beverages" "2025-W07" 7 41 (Some 44%Q);
    cat_row "Beverages" "2025-W08" 8 43 (Some 41%Q);
    cat_row "Beverages" "2025-W30" 30 45 (Some 43%Q);
    cat_row "Snacks" "2025-W01" 1 10 None;
    cat_row "Snacks" "2025-W05" 5 12 (Some 10%Q);
    cat_row "Snacks" "2025-W06" 6 11 (Some 12%Q);
    cat_row "Snacks" "2025-W07" 7 13 (Some 11%Q);
    cat_row "Snacks" "2025-W30" 30 12 (Some 13%Q) ].

End TrainV4Category.

(** ** Week completeness
       ([scripts/extract_sku_data_v2.py], [main], lines 514-525) *)

Module Completeness.
Import Lib.

Inductive Label := complete | partial | minimal.

(** [df.groupby('year_week').size()], line 514, on the [year_week]
    column of the line items ([None] where [get_week_from_date] found
    no week; [groupby] leaves those rows out). *)
Definition week_counts (year_week : list (option string)) : gmap string nat :=
  group_sizes id (omap id year_week).

(** [Series.median()]: the middle of the sorted values, the mean of
    the two middle ones for an even number of them, NaN for none. *)
Definition median (xs : list nat) : option Q :=
  let s := merge_sort le xs in
  let n := length s in
  if n =? 0 then None
  else if Nat.even n
       then a ← s !! (n / 2 - 1); b ← s !! (n / 2);
            Some ((inject_Z (Z.of_nat a) + inject_Z (Z.of_nat b)) / 2)%Q
       else a ← s !! (n / 2); Some (inject_Z (Z.of_nat a)).

(** Line 515. *)
Definition median_count (year_week : list (option string)) : option Q :=
  median (snd <$> map_to_list (week_counts year_week)).

(** Line 518, [week_counts.get(week, 0)]. *)
Definition count_of (year_week : list (option string))
    (week : option string) : nat :=
  default 0 (week ≫= fun w => week_counts year_week !! w).

(** Lines 517-523; a comparison with NaN is false. *)
Definition get_completeness (year_week : list (option string))
    (week : option string) : Label :=
  let count := count_of year_week week in
  let ge (factor : Q) :=
    match median_count year_week with
    | Some m => Qle_bool (m * factor) (inject_Z (Z.of_nat count))
    | None => false
    end in
  if ge (8 # 10) then complete
  else if ge (3 # 10) then partial
  else minimal.

(** Line 525: the [data_completeness] column. *)
Definition data_completeness (year_week : list (option string)) : list Label :=
  get_completeness year_week <$> year_week.

(** Ten rows in week 10, four in week 11, two in week 12, one without
    a week. *)
Definition sample_weeks : list (option string) :=
  replicate 10 (Some "2025-W10") ++ replicate 4 (Some "2025-W11")
  ++ replicate 2 (Some "2025-W12") ++ [None].

End Completeness.

(** ** Customer classes ([scripts/extract_sku_data_v2.py],
       [calculate_buying_cycles] lines 386-401 and [segment_customer]) *)

Module Customers.
Import Lib Extract.

Inductive BuyerType :=
| Bulk_Buyer
| High_Value_Buyer
| Frequent_Buyer
| Regular_Buyer
| Occasional_Buyer.

Inductive Segment :=
| Bulk_Wholesale
| Large_Retailer
| Medium_Retailer
| Small_Retailer.

(** Lines 386-388, on [cust_data], the line items of one customer. *)
Definition total_orders (cust_data : list LineItem) : nat :=
  length (unique (invoice_id <$> cust_data)).

Definition total_units (cust_data : list LineItem) : Q :=
  Qsum (quantity <$> cust_data).

Definition total_revenue (cust_data : list LineItem) : Q :=
  Qsum (line_total <$> cust_data).

Definition per_order (total : Q) (orders : nat) : Q :=
  if 0 <? orders then (total / inject_Z (Z.of_nat orders))%Q else 0%Q.

(** Line 389. *)
Definition avg_order_value (cust_data : list LineItem) : Q :=
  per_order (total_revenue cust_data) (total_orders cust_data).

(** Lines 391-401. *)
Definition buyer_type (cust_data : list LineItem) : BuyerType :=
  if Qltb 100000 (total_units cust_data) then Bulk_Buyer
  else if Qltb 50000 (avg_order_value cust_data) then High_Value_Buyer
  else if 40 <=? total_orders cust_data then Frequent_Buyer
  else if 10 <=? total_orders cust_data then Regular_Buyer
  else Occasional_Buyer.

(** [segment_customer] on the row [calculate_buying_cycles] made for
    the customer (line 538). *)
Definition segment_customer (cust_data : list LineItem) : Segment :=
  let total_units := total_units cust_data in
  let total_orders := total_orders cust_data in
  let avg_order := per_order total_units total_orders in
  if Qltb 100000 total_units || Qltb 10000 avg_order then Bulk_Wholesale
  else if Qltb 2000 avg_order then Large_Retailer
  else if Qltb 500 avg_order then Medium_Retailer
  else Small_Retailer.

End Customers.

(** ** First trainer, SKU level ([scripts/TRAIN_ALL_MODELS.py],
       [train_xgboost_model] and [main], lines 73-168) *)

Module TrainAllSku.
Import Lib.

(** A row of [v2_features_weekly.csv]; [weekly_quantity] is a sum over
    line items and is never NaN. *)
Record Row := {
  sku : Z;
  year_week : string;
  weekly_quantity : Q;
  lag1_quantity : option Q;
  lag2_quantity : option Q;
  lag4_quantity : option Q;
  rolling_avg_4w : option Q
}.

(** The cells of [feature_cols], line 92. *)
Definition feature_cols (r : Row) : list (option Q) :=
  [lag1_quantity r; lag2_quantity r; lag4_quantity r; rolling_avg_4w r].

(** The rows [dropna(subset=feature_cols)] keeps. *)
Definition notna_features (r : Row) : bool := forallb notna (feature_cols r).

(** One row of [df[feature_cols].values], on a row [dropna] kept. *)
Definition features (r : Row) : list Q := default 0%Q <$> feature_cols r.

(** Line 75: a comparison of strings. *)
Definition is_h1 (r : Row) : bool := String.leb (year_week r) "2025-W26".

Definition h1_data (weekly : list Row) : list Row := List.filter is_h1 weekly.

Definition h2_data (weekly : list Row) : list Row :=
  List.filter (fun r => negb (is_h1 r)) weekly.

(** Lines 89 and 95: the SKUs with at least 4 rows in the first half,
    in the order of the group keys. *)
Definition eligible_skus (weekly : list Row) : list Z :=
  List.filter
    (fun s => 4 <=? default 0 (group_sizes sku (h1_data weekly) !! s))
    (merge_sort Z.le (unique (sku <$> h1_data weekly))).

(** One entry of [sku_results], lines 135-142. *)
Record Prediction := {
  p_sku : Z;
  p_year_week : string;
  actual : Q;
  predicted : Q;
  abs_error : Q;
  pct_error : Q
}.

(** One entry of [sku_h1_actuals], lines 150-156 (without the
    description). *)
Record Actual := {
  a_sku : Z;
  a_year_week : string;
  a_actual : Q
}.

(** The variables the loop of line 103 updates. *)
Record State := {
  sku_results : list Prediction;
  sku_h1_actuals : list Actual;
  trained_count : nat;
  skipped_count : nat
}.

Section Pipeline.
Context `{Library}.

(** [train_xgboost_model], lines 44-56; [None] when the fit raises. *)
Definition train_xgboost_model (w : World) (X_train : list (list Q))
    (y_train : list Q) (X_test : list (list Q)) : option (list Q) :=
  match gbr_fit w {| n_estimators := 100; max_depth := 5;
                     learning_rate := 1 # 10;
                     min_samples_split := 5; min_samples_leaf := 2;
                     random_state := Some 42%Z |} X_train y_train with
  | Some model => Some ((fun x => clip0 (predict model x)) <$> X_test)
  | None => None
  end.

Definition skip (st : State) : State :=
  {| sku_results := sku_results st;
     sku_h1_actuals := sku_h1_actuals st;
     trained_count := trained_count st;
     skipped_count := S (skipped_count st) |}.

(** Lines 104-156, one turn of the loop. *)
Definition turn (w : World) (weekly : list Row) (st : State) (s : Z) : State :=
  let sku_h1 := List.filter (fun r => (sku r =? s)%Z) (h1_data weekly) in
  let sku_h2 := List.filter (fun r => (sku r =? s)%Z) (h2_data weekly) in
  if length sku_h2 =? 0 then skip st
  else
    let sku_h1_clean := List.filter notna_features sku_h1 in
    if length sku_h1_clean <? 3 then skip st
    else
      let sku_h2_clean := List.filter notna_features sku_h2 in
      if length sku_h2_clean =? 0 then skip st
      else
        match train_xgboost_model w (features <$> sku_h1_clean)
                (weekly_quantity <$> sku_h1_clean)
                (features <$> sku_h2_clean) with
        | None => skip st
        | Some predictions =>
            {| sku_results :=
                 sku_results st ++
                 zip_with
                   (fun row p =>
                      {| p_sku := s;
                         p_year_week := year_week row;
                         actual := weekly_quantity row;
                         predicted := p;
                         abs_error := Qabs (p - weekly_quantity row);
                         pct_error :=
                           if Qltb 0 (weekly_quantity row)
                           then (100 * Qabs (p - weekly_quantity row)
                                 / weekly_quantity row)%Q
                           else 0%Q |})
                   sku_h2_clean predictions;
               sku_h1_actuals :=
                 sku_h1_actuals st ++
                 ((fun row => {| a_sku := s;
                                 a_year_week := year_week row;
                                 a_actual := weekly_quantity row |})
                  <$> sku_h1);
               trained_count := S (trained_count st);
               skipped_count := skipped_count st |}
        end.

(** Lines 98-156. *)
Definition sku_loop (w : World) (weekly : list Row) : State :=
  foldl (turn w weekly)
    {| sku_results := []; sku_h1_actuals := [];
       trained_count := 0; skipped_count := 0 |}
    (eligible_skus weekly).

(** Lines 162-168: the overall metric, computed only when there is a
    prediction, with no test on the sum of the actuals. *)
Definition overall_wmape (w : World) (weekly : list Row)
    : option TrainAllModels.npfloat :=
  match sku_results (sku_loop w weekly) with
  | [] => None
  | results =>
      Some (TrainAllModels.calculate_wmape (actual <$> results)
              (predicted <$> results))
  end.

End Pipeline.

Definition feature_row (s : Z) (yw : string) (q : Q) : Row :=
  {| sku := s; year_week := yw; weekly_quantity := q;
     lag1_quantity := Some q; lag2_quantity := Some q;
     lag4_quantity := Some q; rolling_avg_4w := Some q |}.

(** SKU 5 sold in four weeks of the first half and had a week without
    demand in the second; SKU 6 sold in four weeks of the first half
    only; SKU 7 sold in three. *)
Definition weekly_first : list Row :=
  [ feature_row 5 "2025-W01" 10; feature_row 5 "2025-W02" 12;
    feature_row 5 "2025-W03" 11; feature_row 5 "2025-W04" 13;
    feature_row 5 "2025-W30" 0;
    feature_row 6 "2025-W01" 4; feature_row 6 "2025-W02" 6;
    feature_row 6 "2025-W03" 5; feature_row 6 "2025-W04" 7;
    feature_row 7 "2025-W01" 1; feature_row 7 "2025-W02" 2;
    feature_row 7 "2025-W03" 3; feature_row 7 "2025-W30" 2 ].

End TrainAllSku.

(** ** V4 price-change feature ([scripts/TRAIN_V4_MODELS.py],
       [add_v4_features], lines 78-80 and 100-101) *)

Module V4Features.

(** [Series.clip(lo, hi)] on a cell. *)
Definition clip (lo hi x : Q) : Q :=
  if Qltb x lo then lo else if Qltb hi x then hi else x.

(** Line 79: a difference with a NaN cell is NaN. *)
Definition price_change (avg_unit_price price_lag1 : option Q) : option Q :=
  a ← avg_unit_price; l ← price_lag1; Some (a - l)%Q.

(** Line 80, before the fill: the previous price 0 is replaced by NaN
    and the quotient is NaN with it. *)
Definition raw_price_change_pct (avg_unit_price price_lag1 : option Q)
    : option Q :=
  c ← price_change avg_unit_price price_lag1;
  l ← price_lag1;
  if Qeq_bool l 0 then None else Some (c / l * 100)%Q.

(** The cell of [price_change_pct] in the frame [add_v4_features]
    returns: line 80, the [fillna(0)] of line 100 and the clip of line
    101 (exact quotients are never infinite). *)
Definition price_change_pct (avg_unit_price price_lag1 : option Q) : Q :=
  clip (-100) 100 (default 0%Q (raw_price_change_pct avg_unit_price price_lag1)).

End V4Features.
(** * Proofs *)

(** ** Rational arithmetic *)

Lemma Qltb_lt x y : Qltb x y = true <-> (x < y)%Q.
Proof.
  unfold Qltb. rewrite negb_true_iff. split.
  - intros H. apply Qnot_le_lt. intros Hle.
    apply Qle_bool_iff in Hle. congruence.
  - intros H. destruct (Qle_bool y x) eqn:E; [|reflexivity].
    apply Qle_bool_iff in E. exfalso. exact (Qlt_not_le _ _ H E).
Qed.

Lemma Qltb_nlt x y : Qltb x y = false <-> ~ (x < y)%Q.
Proof.
  rewrite <- Qltb_lt. destruct (Qltb x y); split; congruence.
Qed.

Lemma Qeq_bool_false_iff x y : Qeq_bool x y = false <-> ~ (x == y)%Q.
Proof.
  rewrite <- Qeq_bool_iff. destruct (Qeq_bool x y); split; congruence.
Qed.

Lemma Qpos_not_zero x : (0 < x)%Q -> Qeq_bool x 0 = false.
Proof.
  intros H. apply Qeq_bool_false_iff. intros E. rewrite E in H.
  exact (Qlt_irrefl _ H).
Qed.

Lemma Qsum_pos xs :
  xs <> [] -> Forall (fun x => (0 < x)%Q) xs -> (0 < Qsum xs)%Q.
Proof.
  intros Hne Hall. induction Hall as [|x xs Hx Hxs IH]; [congruence|].
  simpl. destruct xs as [|y ys].
  - simpl. rewrite Qplus_0_r. exact Hx.
  - apply Qlt_trans with (y := (x + 0)%Q).
    + rewrite Qplus_0_r. exact Hx.
    + apply Qplus_lt_r. apply IH. discriminate.
Qed.

Lemma Qmean_pos xs :
  xs <> [] -> Forall (fun x => (0 < x)%Q) xs -> (0 < Qmean xs)%Q.
Proof.
  intros Hne Hall. unfold Qmean. apply Qlt_shift_div_l.
  - destruct xs; [congruence|]. simpl length.
    unfold Qlt. simpl. lia.
  - rewrite Qmult_0_l. by apply Qsum_pos.
Qed.

Lemma Qdiv_pos x y : (0 < x)%Q -> (0 < y)%Q -> (0 < x / y)%Q.
Proof.
  intros Hx Hy. apply Qlt_shift_div_l; [exact Hy|].
  rewrite Qmult_0_l. exact Hx.
Qed.

(** ** Facts about the cascade *)

Module EnrichFacts.
Import Enrich.

Lemma sku_avg_price_pos df s a :
  sku_avg_price df s = Some a -> (0 < a)%Q.
Proof.
  unfold sku_avg_price.
  set (rows := List.filter _ df).
  destruct (effective_price <$> rows) as [|x xs] eqn:E; [discriminate|].
  intros [= <-]. apply Qmean_pos; [discriminate|].
  rewrite <- E. apply Forall_forall. intros q Hq.
  apply list_elem_of_fmap in Hq as (r & -> & Hr).
  apply list_elem_of_In, filter_In in Hr as [_ Hr].
  apply andb_true_iff in Hr as [_ Hr]. by apply Qltb_lt.
Qed.

Lemma sku_avg_price_None df s :
  sku_avg_price df s = None <->
  forall r, r ∈ df -> sku r = s -> ~ (0 < effective_price r)%Q.
Proof.
  unfold sku_avg_price.
  set (rows := List.filter _ df).
  split.
  - destruct rows as [|x xs] eqn:E; [|discriminate].
    intros _ r Hr Hs Hpos.
    assert (In r rows) as Hin.
    { apply filter_In. split; [by apply list_elem_of_In|].
      apply andb_true_iff. split; [by apply String.eqb_eq|by apply Qltb_lt]. }
    rewrite E in Hin. destruct Hin.
  - intros H. destruct rows as [|x xs] eqn:E; [reflexivity|].
    exfalso. assert (In x rows) as Hin by (rewrite E; by left).
    apply filter_In in Hin as [Hin Hx].
    apply andb_true_iff in Hx as [Hs Hp].
    apply (H x); [by apply list_elem_of_In|by apply String.eqb_eq|by apply Qltb_lt].
Qed.

Lemma master_prices_pos products s p :
  master_prices products !! s = Some p -> (0 < p)%Q.
Proof.
  unfold master_prices.
  assert (Forall (fun q => (0 < price q)%Q)
            (List.filter (fun q => Qltb 0 (price q)) products)) as Hall.
  { apply Forall_forall. intros q Hq.
    apply list_elem_of_In, filter_In in Hq as [_ Hq]. by apply Qltb_lt. }
  revert Hall. generalize (List.filter (fun q => Qltb 0 (price q)) products).
  intros l Hall.
  assert (forall m : gmap string Q,
            (forall k v, m !! k = Some v -> (0 < v)%Q) ->
            foldl (fun m q => <[sku_clean q := price q]> m) m l !! s = Some p ->
            (0 < p)%Q) as Hgen.
  { induction Hall as [|q l Hq Hl IH]; intros m Hm; simpl.
    - apply Hm.
    - apply IH. intros k v. rewrite lookup_insert.
      case_decide; [intros [= <-]; exact Hq|apply Hm]. }
  apply Hgen. intros k v. by rewrite lookup_empty.
Qed.

Lemma Qzero_not_pos x : (x == 0)%Q -> Qltb 0 x = false.
Proof.
  intros E. apply Qltb_nlt. rewrite E. apply Qlt_irrefl.
Qed.

Ltac masks :=
  repeat match goal with
  | H : (?x == 0)%Q |- context [Qeq_bool ?x 0] =>
      rewrite (Qeq_eq_bool _ _ H)
  | H : (?x == 0)%Q |- context [Qltb 0 ?x] =>
      rewrite (Qzero_not_pos _ H)
  | H : (0 < ?x)%Q |- context [Qeq_bool ?x 0] =>
      rewrite (Qpos_not_zero _ H)
  | H : (0 < ?x)%Q |- context [Qltb 0 ?x] =>
      rewrite (proj2 (Qltb_lt 0 x) H)
  | H : ~ (0 < ?x)%Q |- context [Qltb 0 ?x] =>
      rewrite (proj2 (Qltb_nlt 0 x) H)
  | H : ~ (?x == 0)%Q |- context [Qeq_bool ?x 0] =>
      rewrite (proj2 (Qeq_bool_false_iff x 0) H)
  end.

Ltac crunch := repeat (progress (masks; cbn [andb])).

Lemma enrich_row_avg df m r a :
  (unit_price r == 0)%Q -> (line_total r == 0)%Q ->
  sku_avg_price df (sku r) = Some a ->
  enrich_row df m r = filled r a (quantity r * a) inferred_from_sku_avg.
Proof.
  intros Hup Hlt Havg. pose proof (sku_avg_price_pos _ _ _ Havg) as Ha.
  unfold enrich_row, filled. rewrite Havg. crunch.
  destruct (m !! sku r); crunch; reflexivity.
Qed.

Lemma enrich_row_master df m r p :
  (unit_price r == 0)%Q -> (line_total r == 0)%Q ->
  sku_avg_price df (sku r) = None ->
  m !! sku r = Some p -> (0 < p)%Q ->
  enrich_row df m r = filled r p (quantity r * p) inferred_from_master.
Proof.
  intros Hup Hlt Havg Hm Hp.
  unfold enrich_row, filled. rewrite Havg, Hm. crunch. reflexivity.
Qed.

Lemma enrich_row_unresolved df m r :
  (unit_price r == 0)%Q -> (line_total r == 0)%Q ->
  sku_avg_price df (sku r) = None ->
  m !! sku r = None ->
  enrich_row df m r = kept r missing_no_reference.
Proof.
  intros Hup Hlt Havg Hm.
  unfold enrich_row, kept. rewrite Havg, Hm. crunch. by destruct r.
Qed.

Lemma enrich_row_backfill df m r :
  (unit_price r == 0)%Q -> (0 < line_total r)%Q -> (0 < quantity r)%Q ->
  enrich_row df m r =
    filled r (line_total r / quantity r) (line_total r) has_total_no_unit_price.
Proof.
  intros Hup Hlt Hq. pose proof (Qdiv_pos _ _ Hlt Hq) as Hd.
  unfold enrich_row, filled. crunch.
  destruct (sku_avg_price df (sku r)), (m !! sku r); crunch; reflexivity.
Qed.

Lemma enrich_row_total_only df m r :
  (unit_price r == 0)%Q -> (0 < line_total r)%Q -> ~ (0 < quantity r)%Q ->
  enrich_row df m r = kept r has_total_no_unit_price.
Proof.
  intros Hup Hlt Hq.
  unfold enrich_row, kept. crunch.
  destruct (sku_avg_price df (sku r)), (m !! sku r); crunch; by destruct r.
Qed.

Lemma enrich_row_untouched df m r :
  ~ ((unit_price r == 0)%Q /\ (0 <= line_total r)%Q) ->
  enrich_row df m r = kept r original.
Proof.
  intros H. unfold enrich_row, kept.
  destruct (Qeq_dec (unit_price r) 0) as [Eup|Eup].
  - assert (~ (0 < line_total r)%Q) as Hnpos.
    { intros Hp. apply H. split; [exact Eup|by apply Qlt_le_weak]. }
    assert (~ (line_total r == 0)%Q) as Hnz.
    { intros Hz. apply H. split; [exact Eup|]. rewrite Hz. apply Qle_refl. }
    crunch.
    destruct (sku_avg_price df (sku r)), (m !! sku r); crunch; by destruct r.
  - crunch.
    destruct (sku_avg_price df (sku r)), (m !! sku r); crunch; by destruct r.
Qed.

(** Every row falls in exactly one of the six shapes above. *)
Lemma row_cases (r : LineItem) :
  ((unit_price r == 0)%Q /\ (line_total r == 0)%Q) \/
  ((unit_price r == 0)%Q /\ (0 < line_total r)%Q) \/
  ~ ((unit_price r == 0)%Q /\ (0 <= line_total r)%Q).
Proof.
  destruct (Qeq_dec (unit_price r) 0) as [Hup|Hup].
  - destruct (Qlt_le_dec 0 (line_total r)) as [Hlt|Hle].
    + right; left; by split.
    + destruct (Qeq_dec (line_total r) 0) as [Hz|Hnz].
      * left; by split.
      * right; right. intros [_ Hge]. apply Hnz. by apply Qle_antisym.
  - right; right. by intros [? _].
Qed.

End EnrichFacts.

(** ** The cascade on whole frames *)

Module EnrichClaims.
Import Enrich EnrichFacts.

Lemma Qsum_fmap_le {A} (f g : A -> Q) (l : list A) :
  (forall x, x ∈ l -> (f x <= g x)%Q) ->
  (Qsum (f <$> l) <= Qsum (g <$> l))%Q.
Proof.
  induction l as [|x l IH]; intros H; simpl.
  - apply Qle_refl.
  - apply Qplus_le_compat.
    + apply H. by left.
    + apply IH. intros y Hy. apply H. by right.
Qed.

Lemma filter_fmap_length_le {A B} (P : A -> bool) (P' : B -> bool)
    (f : A -> B) (l : list A) :
  (forall x, x ∈ l -> P' (f x) = true -> P x = true) ->
  length (List.filter P' (f <$> l)) <= length (List.filter P l).
Proof.
  induction l as [|x l IH]; intros H; [simpl; lia|].
  assert (length (List.filter P' (f <$> l)) <= length (List.filter P l)) as IH'.
  { apply IH. intros y Hy. apply H. by right. }
  rewrite fmap_cons. cbn [List.filter].
  destruct (P' (f x)) eqn:E.
  - rewrite (H x); [cbn [length]; lia|by left|exact E].
  - destruct (P x); cbn [length]; lia.
Qed.

Section Row.
Variables (df : list LineItem) (m : gmap string Q).
Hypothesis m_pos : forall k v, m !! k = Some v -> (0 < v)%Q.

(** Every row is in one of the six shapes, with the side facts that
    identify it. *)
Lemma enrich_row_shape r :
  (exists a, sku_avg_price df (sku r) = Some a /\ (0 < a)%Q /\
             (line_total r == 0)%Q /\
             enrich_row df m r
             = filled r a (quantity r * a) inferred_from_sku_avg) \/
  (exists p, sku_avg_price df (sku r) = None /\ m !! sku r = Some p /\
             (0 < p)%Q /\ (line_total r == 0)%Q /\
             enrich_row df m r
             = filled r p (quantity r * p) inferred_from_master) \/
  ((unit_price r == 0)%Q /\ (line_total r == 0)%Q /\
   sku_avg_price df (sku r) = None /\ m !! sku r = None /\
   enrich_row df m r = kept r missing_no_reference) \/
  ((0 < line_total r)%Q /\ (0 < quantity r)%Q /\
   enrich_row df m r
   = filled r (line_total r / quantity r) (line_total r)
       has_total_no_unit_price) \/
  ((unit_price r == 0)%Q /\ (0 < line_total r)%Q /\ ~ (0 < quantity r)%Q /\
   enrich_row df m r = kept r has_total_no_unit_price) \/
  (~ ((unit_price r == 0)%Q /\ (0 <= line_total r)%Q) /\
   enrich_row df m r = kept r original).
Proof using m_pos.
  destruct (row_cases r) as [[Hup Hlt]|[[Hup Hlt]|Hn]].
  - destruct (sku_avg_price df (sku r)) as [a|] eqn:Havg.
    + left. exists a. repeat split; eauto using sku_avg_price_pos.
      by apply enrich_row_avg.
    + destruct (m !! sku r) as [p|] eqn:Hm.
      * right; left. exists p. repeat split; eauto.
        apply enrich_row_master; eauto.
      * right; right; left. repeat split; eauto.
        by apply enrich_row_unresolved.
  - destruct (Qlt_le_dec 0 (quantity r)) as [Hq|Hq].
    + do 3 right; left. repeat split; eauto.
      by apply enrich_row_backfill.
    + do 4 right; left.
      assert (~ (0 < quantity r)%Q) by (by apply Qle_not_lt).
      repeat split; eauto. by apply enrich_row_total_only.
  - do 5 right. split; [exact Hn|]. by apply enrich_row_untouched.
Qed.

Lemma enrich_row_sku r : sku (item (enrich_row df m r)) = sku r.
Proof. unfold enrich_row. by repeat case_match. Qed.

(** A row with positive revenue keeps it. *)
Lemma enrich_row_revenue_kept r :
  (0 < line_total r)%Q ->
  line_total (item (enrich_row df m r)) = line_total r.
Proof using m_pos.
  intros Hpos.
  destruct (enrich_row_shape r)
    as [(a & _ & _ & Hz & _)|[(p & _ & _ & _ & Hz & _)|
        [(_ & Hz & _)|[(_ & _ & ->)|[(_ & _ & _ & ->)|(_ & ->)]]]]];
    try reflexivity;
    rewrite Hz in Hpos; by apply Qlt_irrefl in Hpos.
Qed.

(** With a non-negative quantity the revenue of a row never drops. *)
Lemma enrich_row_revenue_ge r :
  (0 <= quantity r)%Q ->
  (line_total r <= line_total (item (enrich_row df m r)))%Q.
Proof using m_pos.
  intros Hq.
  destruct (enrich_row_shape r)
    as [(a & _ & Ha & Hz & ->)|[(p & _ & _ & Hp & Hz & ->)|
        [(_ & _ & _ & _ & ->)|[(_ & _ & ->)|[(_ & _ & _ & ->)|(_ & ->)]]]]];
    simpl; try apply Qle_refl.
  - rewrite Hz. apply Qmult_le_0_compat; [exact Hq|by apply Qlt_le_weak].
  - rewrite Hz. apply Qmult_le_0_compat; [exact Hq|by apply Qlt_le_weak].
Qed.

(** A row that is unresolved after the pass was truly missing before. *)
Lemma enrich_row_unresolved_was_missing r :
  unresolved (item (enrich_row df m r)) = true -> unresolved r = true.
Proof using m_pos.
  unfold unresolved.
  destruct (enrich_row_shape r)
    as [(a & _ & Ha & _ & ->)|[(p & _ & _ & Hp & _ & ->)|
        [(_ & _ & _ & _ & ->)|[(Hlt & Hq & ->)|[(_ & _ & _ & ->)|(_ & ->)]]]]];
    simpl; try done.
  - by rewrite (Qpos_not_zero _ Ha).
  - by rewrite (Qpos_not_zero _ Hp).
  - by rewrite (Qpos_not_zero _ (Qdiv_pos _ _ Hlt Hq)).
Qed.
End Row.


Lemma enrich_prices_lookup (df : list LineItem) products i :
  enrich_prices df products !! i
  = enrich_row df (master_prices products) <$> df !! i.
Proof. apply list_lookup_fmap. Qed.

Lemma master_prices_absent products s :
  (forall p, p ∈ products -> sku_clean p <> s) ->
  master_prices products !! s = None.
Proof.
  intros H. unfold master_prices.
  assert (forall p, p ∈ List.filter (fun p => Qltb 0 (price p)) products ->
                    sku_clean p <> s) as H'.
  { intros p Hp. apply H. apply list_elem_of_In.
    apply list_elem_of_In, filter_In in Hp. tauto. }
  revert H'. generalize (List.filter (fun p => Qltb 0 (price p)) products).
  intros l Hl.
  assert (forall m : gmap string Q, m !! s = None ->
            foldl (fun m q => <[sku_clean q := price q]> m) m l !! s = None)
    as Hgen.
  { induction l as [|q l IH]; intros m Hm; simpl; [exact Hm|].
    apply IH; [intros p Hp; apply Hl; by right|].
    rewrite lookup_insert_ne; [exact Hm|]. apply Hl. by left. }
  apply Hgen, lookup_empty.
Qed.

(** The score is a plain sum of penalties; the clamp never bites. *)
Lemma dq_score_sum e :
  dq_score e
  = (100 - penalty (price_inferred e) 10
         - penalty (unresolved (item e)) 30
         - penalty (region_unknown (item e)) 20
         - penalty (customer_missing (item e)) 10)%Z.
Proof.
  unfold dq_score, penalty, unresolved, region_unknown, customer_missing.
  destruct (price_inferred e),
    (Qeq_bool (unit_price (item e)) 0 && Qeq_bool (line_total (item e)) 0),
    (String.eqb (region_name (item e)) "Unknown"),
    (customer_id (item e)) as [c|]; try destruct (String.eqb c "");
    reflexivity.
Qed.

(** On the output of the cascade [price_inferred] is set exactly on the
    rows whose price was filled in. *)
Lemma price_inferred_filled df products e :
  e ∈ enrich_prices df products -> price_inferred e = price_filled_in e.
Proof.
  intros He. apply list_elem_of_fmap in He as (r & -> & _).
  pose proof (master_prices_pos products) as Hm.
  unfold price_filled_in, inferred_by_steps_2_3.
  destruct (enrich_row_shape df _ Hm r)
    as [(a & _ & _ & _ & ->)|[(p & _ & _ & _ & _ & ->)|
        [(_ & _ & _ & _ & ->)|[(_ & Hq & ->)|[(_ & _ & Hq & ->)|(_ & ->)]]]]];
    simpl; try reflexivity.
  - by rewrite (proj2 (Qltb_lt _ _) Hq).
  - by rewrite (proj2 (Qltb_nlt _ _) Hq).
Qed.


(** *** Revenue is preserved where it exists *)

(** C5. A row whose [line_total] is positive before the cascade has the
    same [line_total] after it; and the row with quantity 10, unit
    price 0 and line total 500 comes out with unit price 50 (the line
    total over the quantity), tagged [has_total_no_unit_price], its
    line total still 500. *)
Theorem C5_positive_revenue_kept (df : list LineItem) products i r :
  df !! i = Some r -> (0 < line_total r)%Q ->
  exists e, enrich_prices df products !! i = Some e /\
    line_total (item e) = line_total r /\
    ((quantity r == 10)%Q -> (unit_price r == 0)%Q ->
     (line_total r == 500)%Q ->
     (unit_price (item e) == 50)%Q /\
     price_source e = has_total_no_unit_price /\
     (line_total (item e) == 500)%Q).
Proof.
  intros Hi Hpos. eexists. rewrite enrich_prices_lookup, Hi. simpl.
  split; [reflexivity|].
  split; [apply enrich_row_revenue_kept; [apply master_prices_pos|exact Hpos]|].
  intros Hq Hup Hlt.
  assert (0 < quantity r)%Q as Hqpos by (by rewrite Hq).
  rewrite (enrich_row_backfill _ _ _ Hup Hpos Hqpos). simpl.
  repeat split; [|exact Hlt].
  rewrite Hlt, Hq. reflexivity.
Qed.

Lemma C5_positive_revenue_kept_witness :
  exists e, enrich_prices [row_total_only] [] !! 0 = Some e /\
    line_total (item e) = 500%Q /\
    (unit_price (item e) == 50)%Q /\
    price_source e = has_total_no_unit_price.
Proof.
  destruct (C5_positive_revenue_kept [row_total_only] [] 0 row_total_only
              eq_refl eq_refl) as (e & He & Hlt & Hsc).
  exists e. split; [exact He|]. split; [exact Hlt|].
  destruct (Hsc (Qeq_refl _) (Qeq_refl _) (Qeq_refl _)) as (Hup & Hsrc & _).
  split; [exact Hup|exact Hsrc].
Defined.

(** *** Monotonicity *)

(** C6. On a ledger whose quantities are all non-negative, the total
    [line_total] after the cascade is at least the total before it, and
    the rows left with price and revenue both zero are no more than
    the truly missing rows (both zero) before it. *)
Theorem C6_enrichment_monotone (df : list LineItem) products :
  Forall (fun r => (0 <= quantity r)%Q) df ->
  (total_revenue df <= total_revenue (reload (enrich_prices df products)))%Q /\
  final_zero_revenue (enrich_prices df products) <= truly_missing_count df.
Proof.
  intros Hq. pose proof (master_prices_pos products) as Hm. split.
  - unfold total_revenue, reload, enrich_prices.
    rewrite <- !list_fmap_compose. apply Qsum_fmap_le.
    intros r Hr. simpl. apply enrich_row_revenue_ge; [exact Hm|].
    by apply (proj1 (Forall_forall _ _) Hq).
  - unfold final_zero_revenue, truly_missing_count, enrich_prices.
    rewrite <- list_fmap_compose. apply filter_fmap_length_le.
    intros r _. apply (enrich_row_unresolved_was_missing df _ Hm).
Qed.

Lemma C6_enrichment_monotone_witness :
  (total_revenue ledger_same_sku
   <= total_revenue (reload (enrich_prices ledger_same_sku [])))%Q /\
  final_zero_revenue (enrich_prices ledger_same_sku [])
  <= truly_missing_count ledger_same_sku.
Proof.
  apply (C6_enrichment_monotone ledger_same_sku []).
  repeat constructor; discriminate.
Defined.


(** *** Running the cascade on its own output *)

(** An SKU without an average or a master price after the first pass
    still has none in the second: none of its rows was changed. *)
Lemma second_pass_avg_None df products s :
  sku_avg_price df s = None -> master_prices products !! s = None ->
  sku_avg_price (reload (enrich_prices df products)) s = None.
Proof.
  intros Havg Hm. apply sku_avg_price_None. intros r1 Hr1 Hs.
  apply list_elem_of_fmap in Hr1 as (e & -> & He).
  apply list_elem_of_fmap in He as (r & -> & Hr).
  rewrite enrich_row_sku in Hs.
  pose proof (proj1 (sku_avg_price_None df s) Havg r Hr Hs) as Hneff.
  destruct (enrich_row_shape df _ (master_prices_pos products) r)
    as [(a & Ha & _)|[(p & _ & Hp & _)|
        [(_ & _ & _ & _ & ->)|[(Hlt & Hq & _)|[(_ & _ & _ & ->)|(_ & ->)]]]]];
    try exact Hneff.
  - rewrite Hs in Ha. congruence.
  - rewrite Hs in Hp. congruence.
  - exfalso. apply Hneff. unfold effective_price.
    rewrite (proj2 (Qltb_lt _ _) Hq). by apply Qdiv_pos.
Qed.

Lemma second_pass_row df products r :
  r ∈ df ->
  let m := master_prices products in
  let e1 := enrich_row df m r in
  let e2 := enrich_row (reload (enrich_prices df products)) m (item e1) in
  item e2 = item e1 /\
  (price_inferred e1 = false -> e2 = e1) /\
  (price_inferred e1 = true ->
   price_source e2 = original /\ price_inferred e2 = false).
Proof.
  intros Hr m e1 e2. subst e1 e2.
  set (df1 := reload (enrich_prices df products)).
  assert (forall x up lt src, (0 < up)%Q ->
            enrich_row df1 m (item (filled x up lt src))
            = kept (item (filled x up lt src)) original) as Hfilled.
  { intros x up lt src Hup. apply enrich_row_untouched. simpl.
    intros [Hz _]. rewrite Hz in Hup. by apply Qlt_irrefl in Hup. }
  destruct (enrich_row_shape df m (master_prices_pos products) r)
    as [(a & _ & Ha & _ & ->)|[(p & _ & _ & Hp & _ & ->)|
        [(Hup & Hlt & Havg & Hm & ->)|[(Hlt & Hq & ->)|
        [(Hup & Hlt & Hq & ->)|(Hn & ->)]]]]].
  - rewrite (Hfilled _ _ _ _ Ha). simpl. by repeat split.
  - rewrite (Hfilled _ _ _ _ Hp). simpl. by repeat split.
  - simpl.
    rewrite (enrich_row_unresolved df1 m r Hup Hlt
               (second_pass_avg_None _ _ _ Havg Hm) Hm).
    simpl. by repeat split.
  - rewrite (Hfilled _ _ _ _ (Qdiv_pos _ _ Hlt Hq)). simpl. by repeat split.
  - simpl. rewrite (enrich_row_total_only df1 m r Hup Hlt Hq).
    simpl. by repeat split.
  - simpl. rewrite (enrich_row_untouched df1 m r Hn).
    simpl. by repeat split.
Qed.

(** C4, as the code has it.  A second pass over the output of the first
    leaves the ledger columns of every row (SKU, quantity, unit price,
    line total, region, customer) identical, and a row the first pass
    did not fill in ([price_inferred] false) is identical in every
    column.  The pass never reads [price_source]: lines 53-54 reset the
    tags, so a row whose price the first pass filled in comes out of
    the second pass tagged [original] with [price_inferred] false. *)
Theorem C4_second_pass (df : list LineItem) products :
  let pass1 := enrich_prices df products in
  let pass2 := enrich_prices (reload pass1) products in
  reload pass2 = reload pass1 /\
  forall i e1, pass1 !! i = Some e1 ->
    exists e2, pass2 !! i = Some e2 /\
      (price_inferred e1 = false -> e2 = e1) /\
      (price_inferred e1 = true ->
       price_source e2 = original /\ price_inferred e2 = false).
Proof.
  intros pass1 pass2.
  assert (forall i e1, pass1 !! i = Some e1 ->
            exists r, r ∈ df /\ e1 = enrich_row df (master_prices products) r /\
              pass2 !! i
              = Some (enrich_row (reload pass1) (master_prices products)
                        (item e1))) as Hrows.
  { intros i e1 He1. subst pass2. rewrite enrich_prices_lookup.
    unfold reload at 2. rewrite list_lookup_fmap, He1. simpl.
    subst pass1. rewrite enrich_prices_lookup in He1.
    destruct (df !! i) as [r|] eqn:Hi; [|discriminate].
    injection He1 as <-. exists r. repeat split.
    apply list_elem_of_lookup. eauto. }
  split.
  - apply list_eq. intros i. unfold reload.
    rewrite !list_lookup_fmap.
    destruct (pass1 !! i) as [e1|] eqn:He1.
    + destruct (Hrows i e1 He1) as (r & Hr & -> & ->). simpl.
      f_equal. apply (second_pass_row df products r Hr).
    + assert (pass2 !! i = None) as ->; [|reflexivity].
      apply lookup_ge_None. apply lookup_ge_None in He1.
      subst pass1 pass2. unfold enrich_prices, reload in *.
      by rewrite !length_fmap in *.
  - intros i e1 He1. destruct (Hrows i e1 He1) as (r & Hr & -> & ->).
    eexists. split; [reflexivity|].
    apply (second_pass_row df products r Hr).
Qed.

Lemma C4_second_pass_witness :
  exists e2,
    enrich_prices (reload (enrich_prices ledger_same_sku [])) [] !! 1
    = Some e2 /\
    price_source e2 = original /\ price_inferred e2 = false.
Proof.
  destruct (C4_second_pass ledger_same_sku []) as [_ H].
  destruct (H 1 _ eq_refl) as (e2 & He2 & _ & Htag).
  exists e2. split; [exact He2|]. apply Htag. reflexivity.
Defined.

(** C4, as stated, fails: the second pass does not return the rows of
    the first.  The row filled from the SKU average is tagged
    [inferred_from_sku_avg] by the first pass and [original] by the
    second. *)
Lemma C4_retagged_counterexample :
  ~ (forall df products,
       enrich_prices (reload (enrich_prices df products)) products
       = enrich_prices df products).
Proof.
  intros H. specialize (H ledger_same_sku []).
  apply (f_equal (fun l => price_source <$> l !! 1)) in H.
  vm_compute in H. discriminate H.
Qed.


(** *** Quality score *)

(** C9, as the code has it.  The score of an enriched row is 100 minus
    10 when its price was filled in (inferred from the SKU average or
    the product master, or back-filled from an existing line total),
    minus 30 when price and revenue are both still zero, minus 20 when
    the region is Unknown, minus 10 when the customer is missing; it
    lies in [0,100].  A row with quantity 5 and price and revenue both
    zero, alone for its SKU and without a master price, keeps its zero
    price and revenue, is tagged [missing_no_reference], and loses
    exactly the 30 points of the unresolved penalty. *)
Theorem C9_quality_score (df : list LineItem) products i r e :
  df !! i = Some r -> enrich_prices df products !! i = Some e ->
  dq_score e
  = (100 - penalty (price_filled_in e) 10
         - penalty (unresolved (item e)) 30
         - penalty (region_unknown (item e)) 20
         - penalty (customer_missing (item e)) 10)%Z /\
  (0 <= dq_score e <= 100)%Z /\
  ((quantity r == 5)%Q -> (unit_price r == 0)%Q -> (line_total r == 0)%Q ->
   (forall j r', df !! j = Some r' -> sku r' = sku r -> j = i) ->
   (forall p, p ∈ products -> sku_clean p <> sku r) ->
   item e = r /\ price_source e = missing_no_reference /\
   dq_score e
   = (100 - 30 - penalty (region_unknown r) 20
               - penalty (customer_missing r) 10)%Z).
Proof.
  intros Hi He.
  assert (e ∈ enrich_prices df products) as Hin.
  { apply list_elem_of_lookup. eauto. }
  pose proof (dq_score_sum e) as Hsum.
  rewrite (price_inferred_filled _ _ _ Hin) in Hsum.
  split; [exact Hsum|]. split.
  - rewrite Hsum. unfold penalty.
    destruct (price_filled_in e), (unresolved (item e)),
      (region_unknown (item e)), (customer_missing (item e)); lia.
  - intros Hq Hup Hlt Halone Hcat.
    rewrite enrich_prices_lookup, Hi in He. injection He as <-.
    assert (sku_avg_price df (sku r) = None) as Havg.
    { apply sku_avg_price_None. intros r' Hr' Hs Hpos.
      apply list_elem_of_lookup in Hr' as [j Hj].
      pose proof (Halone j r' Hj Hs) as ->.
      rewrite Hi in Hj. injection Hj as <-.
      unfold effective_price in Hpos.
      assert (0 < quantity r)%Q as Hqpos by (by rewrite Hq).
      rewrite (proj2 (Qltb_lt _ _) Hqpos) in Hpos.
      rewrite Hlt in Hpos. unfold Qdiv in Hpos.
      rewrite Qmult_0_l in Hpos. by apply Qlt_irrefl in Hpos. }
    rewrite (enrich_row_unresolved df _ r Hup Hlt Havg
               (master_prices_absent _ _ Hcat)).
    simpl. repeat split.
    rewrite dq_score_sum. simpl. unfold unresolved.
    rewrite (Qeq_eq_bool _ _ Hup), (Qeq_eq_bool _ _ Hlt). simpl. lia.
Qed.

Lemma C9_quality_score_witness :
  exists e, enrich_prices [row_missing] [] !! 0 = Some e /\
    dq_score e = 70%Z /\ item e = row_missing /\
    price_source e = missing_no_reference.
Proof.
  pose proof (C9_quality_score [row_missing] [] 0 row_missing _
                eq_refl eq_refl) as (_ & _ & Hd).
  destruct Hd as (Hitem & Hsrc & Hscore);
    [reflexivity|reflexivity|reflexivity| | |].
  - intros [|j] r'; [reflexivity|discriminate].
  - intros p Hp. inversion Hp.
  - eexists. split; [reflexivity|]. split; [exact Hscore|].
    split; [exact Hitem|exact Hsrc].
Defined.

(** C9, as stated, fails: the ten points are not taken off exactly for
    the prices inferred by steps 2-3.  The row with quantity 10, unit
    price 0 and line total 500 is only back-filled, and is scored 90
    where the stated rule gives 100. *)
Lemma C9_backfill_counterexample :
  ~ (forall df products e,
       e ∈ enrich_prices df products -> dq_score e = spec_dq_score e).
Proof.
  intros H.
  specialize (H [row_total_only] [] (enrich_row [row_total_only] ∅ row_total_only)).
  assert (dq_score (enrich_row [row_total_only] ∅ row_total_only) = 90%Z)
    as H90 by (vm_compute; reflexivity).
  assert (spec_dq_score (enrich_row [row_total_only] ∅ row_total_only) = 100%Z)
    as H100 by (vm_compute; reflexivity).
  rewrite H90, H100 in H.
  assert (90 = 100)%Z as Habs; [|discriminate Habs].
  apply H. apply list_elem_of_here.
Qed.

End EnrichClaims.

(** ** Feature builder: which rows a feature reads *)

Module FeaturesFacts.
Import Features.

(** *** Series level *)

Lemma shift_length k xs : length (shift k xs) = length xs.
Proof.
  unfold shift. rewrite length_take, length_app. lia.
Qed.

Lemma shift_lookup k xs i :
  i < length xs ->
  shift k xs !! i = if decide (i < k) then Some None else xs !! (i - k).
Proof.
  intros Hi. unfold shift. rewrite lookup_take_lt by exact Hi.
  case_decide as Hk.
  - rewrite lookup_app_l by (rewrite length_replicate; exact Hk).
    apply lookup_replicate_2. exact Hk.
  - rewrite lookup_app_r by (rewrite length_replicate; lia).
    by rewrite length_replicate.
Qed.

(** A lag of at least one week reads only the cells before its own
    position. *)
Lemma shift_reads_past k xs ys i :
  0 < k -> take i xs = take i ys ->
  i < length xs -> i < length ys ->
  shift k xs !! i = shift k ys !! i.
Proof.
  intros Hk Hpre Hx Hy. rewrite !shift_lookup by assumption.
  case_decide; [reflexivity|].
  rewrite <- (lookup_take_lt xs i (i - k)) by lia.
  rewrite <- (lookup_take_lt ys i (i - k)) by lia.
  by rewrite Hpre.
Qed.

Lemma rolling_lookup n agg xs i :
  i < length xs ->
  rolling n agg xs !! i
  = Some (match omap id (window n xs i) with
          | [] => None
          | v :: vs => agg (v :: vs)
          end).
Proof.
  intros Hi. unfold rolling. rewrite list_lookup_fmap.
  rewrite lookup_seq_lt by exact Hi. reflexivity.
Qed.

(** A window over the shifted series, the form of
    [x.shift(1).rolling(4, min_periods=1)] in the trainers, reads only
    the cells before its own position, whatever the aggregate. *)
Lemma rolling_shift_reads_past n agg xs ys i :
  take i xs = take i ys ->
  i < length xs -> i < length ys ->
  rolling n agg (shift 1 xs) !! i = rolling n agg (shift 1 ys) !! i.
Proof.
  intros Hpre Hx Hy.
  rewrite !rolling_lookup by (rewrite shift_length; assumption).
  assert (forall zs, i < length zs ->
            take (S i) (shift 1 zs) = None :: take i zs) as Htake.
  { intros zs Hz. unfold shift. rewrite take_take.
    replace (S i `min` length zs) with (S i) by lia. reflexivity. }
  unfold window. rewrite !Htake by assumption. by rewrite Hpre.
Qed.

(** *** The frame of [extract_sku_data_v2.py] *)

(** C1 fails on the feature builder.  The two weekly tables [weeks_a]
    and [weeks_b] have the same rows before week 2025-W02 and differ
    only in the quantity of that week; the lag columns of the feature
    row of (SKU 7, 2025-W02) agree, but its [rolling_avg_4w] is 20 on
    one table and 30 on the other: line 569 takes the window over the
    unshifted series, so the week's own quantity is in its mean. *)
Theorem C1_rolling_avg_reads_own_week :
  history weeks_a 7 "2025-W02" = history weeks_b 7 "2025-W02" /\
  exists fa fb,
    feature_row weeks_a 7 "2025-W02" = Some fa /\
    feature_row weeks_b 7 "2025-W02" = Some fb /\
    lag1_quantity fa = lag1_quantity fb /\
    lag2_quantity fa = lag2_quantity fb /\
    lag4_quantity fa = lag4_quantity fb /\
    lag1_price fa = lag1_price fb /\
    lag2_price fa = lag2_price fb /\
    lag4_price fa = lag4_price fb /\
    exists x y, rolling_avg_4w fa = Some x /\ rolling_avg_4w fb = Some y /\
      (x == 20)%Q /\ (y == 30)%Q /\ ~ (x == y)%Q.
Proof.
  split; [reflexivity|].
  eexists. eexists.
  split; [vm_compute; reflexivity|].
  split; [vm_compute; reflexivity|].
  repeat (split; [reflexivity|]).
  eexists. eexists.
  split; [reflexivity|]. split; [reflexivity|].
  repeat split; discriminate.
Qed.

End FeaturesFacts.

(** ** Frames split into groups *)

Module GroupFacts.
Import Lib.

Lemma filter_true {A} (P : A -> bool) (l : list A) :
  (forall a, a ∈ l -> P a = true) -> List.filter P l = l.
Proof.
  induction l as [|a l IH]; intros H; simpl; [reflexivity|].
  rewrite (H a) by left. f_equal. apply IH. intros b Hb. apply H. by right.
Qed.

Lemma filter_none {A} (l : list A) : List.filter (fun _ => false) l = [].
Proof. induction l; simpl; done. Qed.

Lemma filter_ext_in {A} (P Q : A -> bool) (l : list A) :
  (forall a, a ∈ l -> P a = Q a) -> List.filter P l = List.filter Q l.
Proof.
  induction l as [|a l IH]; intros H; simpl; [reflexivity|].
  rewrite (H a) by left.
  rewrite IH; [reflexivity|]. intros b Hb. apply H. by right.
Qed.

Lemma filter_filter {A} (P Q : A -> bool) (l : list A) :
  List.filter P (List.filter Q l) = List.filter (fun a => Q a && P a) l.
Proof.
  induction l as [|a l IH]; simpl; [reflexivity|].
  destruct (Q a); simpl; [destruct (P a)|]; by rewrite IH.
Qed.

Lemma filter_length_mono {A} (P Q : A -> bool) (l : list A) :
  (forall a, P a = true -> Q a = true) ->
  length (List.filter P l) <= length (List.filter Q l).
Proof.
  intros H. induction l as [|a l IH]; simpl; [lia|].
  destruct (P a) eqn:E.
  - rewrite (H a E). simpl. lia.
  - destruct (Q a); simpl; lia.
Qed.

Lemma filter_fmap {A B} (f : A -> B) (P : B -> bool) (l : list A) :
  List.filter P (f <$> l) = f <$> List.filter (fun a => P (f a)) l.
Proof.
  induction l as [|a l IH]; [reflexivity|].
  rewrite fmap_cons. cbn [List.filter].
  destruct (P (f a)); rewrite IH; reflexivity.
Qed.

Lemma elem_of_filter_bool {A} (P : A -> bool) (l : list A) a :
  a ∈ List.filter P l <-> a ∈ l /\ P a = true.
Proof. rewrite !list_elem_of_In. apply filter_In. Qed.

Lemma filter_Permutation_bool {A} (P : A -> bool) (l l' : list A) :
  l ≡ₚ l' -> List.filter P l ≡ₚ List.filter P l'.
Proof.
  induction 1 as [|a l l' _ IH|a b l|l1 l2 l3 _ IH1 _ IH2]; simpl.
  - reflexivity.
  - destruct (P a); [by constructor|exact IH].
  - destruct (P a), (P b); try reflexivity. apply perm_swap.
  - by etransitivity.
Qed.

(** Two disjoint selections of a frame, one after the other, are the
    rows of their union. *)
Lemma filter_disjoint_app {A} (P Q : A -> bool) (l : list A) :
  (forall a, a ∈ l -> P a = true -> Q a = false) ->
  List.filter P l ++ List.filter Q l ≡ₚ List.filter (fun a => P a || Q a) l.
Proof.
  induction l as [|a l IH]; intros H; simpl; [reflexivity|].
  assert (List.filter P l ++ List.filter Q l
          ≡ₚ List.filter (fun a => P a || Q a) l) as IH'.
  { apply IH. intros b Hb. apply H. by right. }
  destruct (P a) eqn:EP; simpl.
  - rewrite (H a) by (done || by left). by constructor.
  - destruct (Q a); simpl; [|exact IH'].
    rewrite <- Permutation_middle. by constructor.
Qed.

Section Unique.
Context `{EqDecision A}.

Lemma elem_of_unique (l : list A) x : x ∈ unique l <-> x ∈ l.
Proof.
  induction l as [|y l IH]; simpl; [reflexivity|].
  rewrite !elem_of_cons, elem_of_filter_bool, IH, negb_true_iff,
    bool_decide_eq_false.
  destruct (decide (x = y)); tauto.
Qed.

Lemma NoDup_filter_bool (P : A -> bool) (l : list A) :
  NoDup l -> NoDup (List.filter P l).
Proof.
  induction 1 as [|x l Hx Hl IH]; simpl; [constructor|].
  destruct (P x); [|exact IH].
  constructor; [|exact IH]. rewrite elem_of_filter_bool. tauto.
Qed.

Lemma NoDup_unique (l : list A) : NoDup (unique l).
Proof.
  induction l as [|y l IH]; simpl; constructor.
  - rewrite elem_of_filter_bool, negb_true_iff, bool_decide_eq_false. tauto.
  - by apply NoDup_filter_bool.
Qed.
End Unique.

Section Groups.
Context {A K : Type} `{EqDecision K}.
Variables (key : A -> K) (eqb : K -> K -> bool).
Hypothesis eqb_eq : forall x y, eqb x y = true <-> x = y.

Local Abbreviation rows_of := (rows_of key eqb).

Lemma concat_rows_of_in (ks : list K) (l : list A) :
  NoDup ks ->
  concat (rows_of l <$> ks)
  ≡ₚ List.filter (fun a => existsb (eqb (key a)) ks) l.
Proof using eqb_eq.
  induction 1 as [|k ks Hk Hks IH]; simpl.
  - by rewrite filter_none.
  - rewrite IH. apply filter_disjoint_app.
    intros a _ Ha. apply eqb_eq in Ha. subst k.
    apply not_true_is_false. intros Hex.
    apply existsb_exists in Hex as (k' & Hk' & Heq).
    apply eqb_eq in Heq. subst k'. by apply Hk, list_elem_of_In.
Qed.

(** Looping over the distinct keys of a frame and taking the rows of
    each visits every row once. *)
Lemma concat_rows_of (ks : list K) (l : list A) :
  NoDup ks -> (forall a, a ∈ l -> key a ∈ ks) ->
  concat (rows_of l <$> ks) ≡ₚ l.
Proof using eqb_eq.
  intros Hks Hall. rewrite concat_rows_of_in by exact Hks.
  rewrite filter_true; [reflexivity|].
  intros a Ha. apply existsb_exists. exists (key a).
  split; [by apply list_elem_of_In, Hall|by apply eqb_eq].
Qed.
End Groups.

(** [groupby(key).size()] counts the rows of each key. *)
Lemma group_sizes_lookup `{Countable K} {A} (key : A -> K) (df : list A) k :
  default 0 (group_sizes key df !! k)
  = length (List.filter (fun r => bool_decide (key r = k)) df).
Proof.
  unfold group_sizes.
  assert (forall m : gmap K nat,
            default 0 (foldl (fun m r => <[key r := S (default 0 (m !! key r))]> m)
                         m df !! k)
            = default 0 (m !! k)
              + length (List.filter (fun r => bool_decide (key r = k)) df))
    as Hgen.
  { induction df as [|r df IH]; intros m; simpl; [lia|].
    rewrite IH. rewrite lookup_insert.
    destruct (decide (key r = k)) as [->|Hne].
    - rewrite bool_decide_eq_true_2 by done. simpl. lia.
    - rewrite bool_decide_eq_false_2 by done. lia. }
  rewrite Hgen, lookup_empty. reflexivity.
Qed.

End GroupFacts.

(** ** V4 trainer: gate, routing, metric and tier *)

Module TrainV4Facts.
Import Lib GroupFacts TrainV4.

Lemma notna_core_fillna0 r : notna_core (fillna0 r) = true.
Proof. reflexivity. Qed.

Lemma test_all_notna weekly r :
  r ∈ test_all weekly -> notna_core r = true.
Proof.
  unfold test_all. rewrite elem_of_filter_bool.
  intros [Hr _]. apply list_elem_of_fmap in Hr as (r0 & -> & _).
  apply notna_core_fillna0.
Qed.

Lemma train_sku_notna weekly r :
  r ∈ train_sku weekly -> notna_core r = true.
Proof.
  unfold train_sku, train_all. rewrite !elem_of_filter_bool.
  intros [[Hr _] _]. apply list_elem_of_fmap in Hr as (r0 & -> & _).
  apply notna_core_fillna0.
Qed.

(** *** The loop that fills [sku_models] *)

Section Models.
Context `{Library}.
Variables (w : World) (frame : list Row).

Lemma foldl_fit_lookup ks (m : gmap Z Model) s :
  foldl (fun sku_models s =>
           match fit_sku w frame s with
           | Some model => <[s := model]> sku_models
           | None => sku_models
           end) m ks !! s
  = match (if decide (s ∈ ks) then fit_sku w frame s else None) with
    | Some x => Some x
    | None => m !! s
    end.
Proof.
  revert m. induction ks as [|k ks IH]; intros m.
  - case_decide as Hin; [by apply not_elem_of_nil in Hin|reflexivity].
  - cbn [foldl]. rewrite IH. clear IH.
    destruct (decide (s ∈ ks)) as [Hin|Hnin].
    + rewrite decide_True by (by right).
      destruct (fit_sku w frame s) eqn:Es; [reflexivity|].
      destruct (decide (k = s)) as [->|Hk]; [by rewrite Es|].
      destruct (fit_sku w frame k); [by apply lookup_insert_ne|reflexivity].
    + destruct (decide (k = s)) as [->|Hk].
      * rewrite decide_True by left.
        destruct (fit_sku w frame s); [apply lookup_insert_eq|reflexivity].
      * rewrite decide_False by (rewrite elem_of_cons; intros [->|?]; done).
        destruct (fit_sku w frame k); [by apply lookup_insert_ne|reflexivity].
Qed.

(** The dict holds, for each SKU, the model its turn of the loop
    fitted. *)
Lemma train_sku_models_lookup s :
  train_sku_models w frame !! s = fit_sku w frame s.
Proof.
  unfold train_sku_models. rewrite foldl_fit_lookup.
  rewrite lookup_empty. case_decide as Hin.
  - by destruct (fit_sku w frame s).
  - unfold fit_sku. replace (sku_train frame s) with (@nil Row); [reflexivity|].
    symmetry. unfold sku_train.
    destruct (List.filter _ (List.filter _ frame)) as [|r rs] eqn:E;
      [reflexivity|].
    exfalso. apply Hin. apply elem_of_unique.
    assert (r ∈ List.filter notna_core
                  (List.filter (fun r => (sku r =? s)%Z) frame)) as Hr.
    { rewrite E. left. }
    rewrite !elem_of_filter_bool in Hr. destruct Hr as [[Hr Hs] _].
    apply Z.eqb_eq in Hs. subst s. apply list_elem_of_fmap. eauto.
Qed.
End Models.

(** *** The prediction loop *)

Section Routing.
Context `{Library}.
Variables (sku_models : gmap Z Model) (global_model : Model)
          (h1 : gmap Z nat) (test : list Row).

Lemma predict_sku_rows s :
  predict_sku sku_models global_model h1 test s
  = rows_of p_sku Z.eqb
      (prediction_of sku_models global_model h1 <$> List.filter notna_core test) s.
Proof.
  unfold rows_of. rewrite filter_fmap. simpl.
  assert (List.filter
            (fun a => (p_sku (prediction_of sku_models global_model h1 a) =? s)%Z)
            (List.filter notna_core test)
          = List.filter notna_core
              (List.filter (fun r => (sku r =? s)%Z) test)) as ->.
  { rewrite !filter_filter. apply filter_ext_in. intros r _.
    unfold prediction_of. destruct (sku_models !! sku r); simpl;
      apply andb_comm. }
  unfold predict_sku.
  set (sku_test := List.filter notna_core (List.filter _ test)).
  assert (forall r, r ∈ sku_test -> sku r = s) as Hs.
  { intros r Hr. subst sku_test. rewrite !elem_of_filter_bool in Hr.
    destruct Hr as [[_ Hr] _]. by apply Z.eqb_eq. }
  destruct (length sku_test =? 0) eqn:El.
  - apply Nat.eqb_eq, nil_length_inv in El. by rewrite El.
  - clear El. induction sku_test as [|r rs IH]; [by destruct (sku_models !! s)|].
    assert (sku r = s) as Hr by (apply Hs; left).
    assert (forall r, r ∈ rs -> sku r = s) as Hrs
      by (intros ? ?; apply Hs; by right).
    specialize (IH Hrs). rewrite fmap_cons. rewrite <- IH.
    unfold prediction_of. rewrite Hr.
    destruct (sku_models !! s); reflexivity.
Qed.

(** The loop emits the entry of each test row that has its core cells,
    once each, grouped by SKU. *)
Lemma predict_skus_perm :
  predict_skus sku_models global_model h1 test
  ≡ₚ prediction_of sku_models global_model h1 <$> List.filter notna_core test.
Proof.
  unfold predict_skus.
  rewrite (list_fmap_ext _ _ _ (fun _ s _ => predict_sku_rows s)).
  apply (concat_rows_of p_sku Z.eqb Z.eqb_eq); [apply NoDup_unique|].
  intros p Hp. apply list_elem_of_fmap in Hp as (r & -> & Hr).
  apply elem_of_filter_bool in Hr as [Hr _].
  apply elem_of_unique.
  replace (p_sku (prediction_of sku_models global_model h1 r)) with (sku r)
    by (unfold prediction_of; by destruct (sku_models !! sku r)).
  apply list_elem_of_fmap. eauto.
Qed.

Lemma prediction_of_sku r :
  p_sku (prediction_of sku_models global_model h1 r) = sku r.
Proof. unfold prediction_of. by destruct (sku_models !! sku r). Qed.

Lemma prediction_of_week r :
  p_year_week (prediction_of sku_models global_model h1 r) = year_week r.
Proof. unfold prediction_of. by destruct (sku_models !! sku r). Qed.

Lemma prediction_of_actual r :
  actual (prediction_of sku_models global_model h1 r) = weekly_quantity r.
Proof. unfold prediction_of. by destruct (sku_models !! sku r). Qed.

Lemma prediction_of_h1 r :
  h1_weeks (prediction_of sku_models global_model h1 r)
  = default 0 (h1 !! sku r).
Proof. unfold prediction_of. by destruct (sku_models !! sku r). Qed.

Lemma prediction_of_scope r :
  model_type (prediction_of sku_models global_model h1 r)
  = match sku_models !! sku r with
    | Some _ => SkuModel
    | None => GlobalModel
    end.
Proof. unfold prediction_of. by destruct (sku_models !! sku r). Qed.

Lemma elem_of_predict_skus p :
  p ∈ predict_skus sku_models global_model h1 test <->
  exists r, r ∈ test /\ notna_core r = true /\
            p = prediction_of sku_models global_model h1 r.
Proof.
  rewrite predict_skus_perm, list_elem_of_fmap.
  split; intros (r & H1 & H2); exists r.
  - apply elem_of_filter_bool in H2. tauto.
  - split; [tauto|]. apply elem_of_filter_bool. tauto.
Qed.
End Routing.


(** *** The sufficiency gate *)

Lemma sku_train_fillna weekly s :
  sku_train (train_sku weekly) s
  = List.filter (fun r => (sku r =? s)%Z) (train_sku weekly).
Proof.
  unfold sku_train. apply filter_true. intros r Hr.
  apply elem_of_filter_bool in Hr as [Hr _]. by apply train_sku_notna in Hr.
Qed.

(** C3, as the code has it.  In the per-SKU loop a dedicated model is
    trained for an SKU exactly when it has at least 4 training rows of
    a category other than Unknown and the fit on these rows succeeds,
    whether or not the SKU has a row in the test partition.  An SKU
    with fewer than 4 training weeks (3, say) gets no dedicated model
    and every prediction for it is tagged with the global model. *)
Theorem C3_dedicated_model_gate `{Library} (w : World) (weekly : list Row) (s : Z) :
  let rows := List.filter (fun r => (sku r =? s)%Z) (train_sku weekly) in
  let sku_models := train_sku_models w (train_sku weekly) in
  (is_Some (sku_models !! s) <->
   4 <= length rows /\
   is_Some (train_model w (features <$> rows) (weekly_quantity <$> rows))) /\
  (length (List.filter (fun r => (sku r =? s)%Z) (train_all weekly)) < 4 ->
   sku_models !! s = None /\
   forall global_model h1 p,
     p ∈ predict_skus sku_models global_model h1 (test_all weekly) ->
     p_sku p = s -> model_type p = GlobalModel).
Proof.
  intros rows sku_models.
  assert (sku_models !! s
          = if length rows <? 4 then None
            else train_model w (features <$> rows) (weekly_quantity <$> rows))
    as Hlook.
  { subst sku_models rows. rewrite train_sku_models_lookup. unfold fit_sku.
    by rewrite sku_train_fillna. }
  split.
  - rewrite Hlook. destruct (Nat.ltb_spec (length rows) 4) as [Hlt|Hge].
    + split; [by intros [? ?]|intros [? _]; lia].
    + split; [intros Hs; by split|by intros [_ Hs]].
  - intros Hfew.
    assert (length rows <= length (List.filter (fun r => (sku r =? s)%Z)
                                     (train_all weekly))) as Hle.
    { subst rows. unfold train_sku. rewrite filter_filter.
      apply filter_length_mono. intros a Ha.
      by apply andb_true_iff in Ha as [_ Ha]. }
    assert (sku_models !! s = None) as Hnone.
    { rewrite Hlook. destruct (Nat.ltb_spec (length rows) 4); [reflexivity|lia]. }
    split; [exact Hnone|].
    intros global_model h1 p Hp Hs.
    apply elem_of_predict_skus in Hp as (r & _ & _ & ->).
    rewrite prediction_of_sku in Hs. subst s.
    rewrite prediction_of_scope. by rewrite Hnone.
Qed.


Lemma C3_dedicated_model_gate_witness :
  @train_sku_models mean_library 0%Q (train_sku weekly_three_weeks) !! 6%Z = None /\
  forall global_model h1 p,
    p ∈ @predict_skus mean_library
          (@train_sku_models mean_library 0%Q (train_sku weekly_three_weeks))
          global_model h1 (test_all weekly_three_weeks) ->
    p_sku p = 6%Z -> model_type p = GlobalModel.
Proof.
  apply (@C3_dedicated_model_gate mean_library 0%Q weekly_three_weeks 6%Z).
  vm_compute. lia.
Defined.

(** C3, as stated, fails in the per-SKU loop: SKU 5 of
    [weekly_train_only] has four training weeks and no row in the test
    partition, and a dedicated model is trained for it. *)
Lemma C3_no_test_row_counterexample :
  ~ (forall (L : Library) (w : World) (weekly : list Row) (s : Z),
       is_Some (train_sku_models w (train_sku weekly) !! s) <->
       4 <= length (List.filter (fun r => (sku r =? s)%Z) (train_all weekly)) /\
       exists r, r ∈ test_all weekly /\ sku r = s).
Proof.
  intros Hc.
  destruct (Hc mean_library 0%Q weekly_train_only 5%Z) as [Hc1 _].
  destruct Hc1 as [_ (r & Hr & _)].
  - vm_compute. eauto.
  - vm_compute in Hr. inversion Hr.
Qed.

(** *** Metric and tier *)

Lemma score_rows `{Library} results out :
  score results = Some out ->
  prediction <$> out = results /\
  forall a, a ∈ out ->
    prediction a ∈ results /\
    wmape a = sku_wmape results (p_sku (prediction a)) /\
    confidence a = get_confidence (wmape a) (h1_weeks (prediction a)).
Proof.
  unfold score. destruct results as [|p ps]; [discriminate|].
  remember (p :: ps) as results. intros [= <-]. split.
  - rewrite <- list_fmap_compose. apply list_fmap_id.
  - intros a Ha. apply list_elem_of_fmap in Ha as (q & -> & Hq). by simpl.
Qed.



(** The metric of the first trainer, used there for the overall figure
    of a whole table, has no such guard. *)
Remark overall_wmape_unguarded :
  TrainAllModels.calculate_wmape [0; 0]%Q [1; 2]%Q = TrainAllModels.PosInf /\
  TrainAllModels.calculate_wmape [0; 0]%Q [0; 0]%Q = TrainAllModels.NaN.
Proof. split; reflexivity. Qed.



Ltac tiers :=
  unfold get_confidence;
  destruct (Qltb _ 40) eqn:?, (15 <=? _) eqn:?,
           (Qltb _ 60) eqn:?, (10 <=? _) eqn:?; cbn [andb];
  repeat match goal with
  | E : Qltb _ _ = true |- _ => apply Qltb_lt in E
  | E : Qltb _ _ = false |- _ => apply Qltb_nlt in E
  | E : (_ <=? _) = true |- _ => apply Nat.leb_le in E
  | E : (_ <=? _) = false |- _ => apply Nat.leb_gt in E
  end;
  split; intros; try discriminate; try reflexivity;
  intuition (discriminate || lia).



Lemma get_confidence_Low wm h :
  get_confidence wm h = Low <->
  ~ ((wm < 40)%Q /\ 15 <= h) /\ ~ ((wm < 60)%Q /\ 10 <= h).
Proof. tiers. Qed.



End TrainV4Facts.

(** ** V3 hybrid trainer: routing *)

Module TrainV3HybridFacts.
Import Lib GroupFacts TrainV3Hybrid.

Section Routing.
Context `{Library}.
Variables (category_models : gmap string (option Model))
          (global_model : Model) (test : list Row).

Lemma entry_category r :
  p_category (prediction_of category_models global_model r) = category r.
Proof.
  unfold prediction_of.
  by destruct (category_models !! category r) as [[?|]|].
Qed.

Lemma entry_key r :
  p_sku (prediction_of category_models global_model r) = sku r /\
  p_year_week (prediction_of category_models global_model r) = year_week r /\
  actual (prediction_of category_models global_model r) = weekly_quantity r.
Proof.
  unfold prediction_of.
  by destruct (category_models !! category r) as [[?|]|].
Qed.

Lemma entry_scope r :
  model_type (prediction_of category_models global_model r)
  = match category_models !! category r with
    | Some (Some _) => CategoryModel
    | _ => GlobalModel
    end.
Proof.
  unfold prediction_of.
  by destruct (category_models !! category r) as [[?|]|].
Qed.

Lemma predict_category_rows cat :
  predict_category category_models global_model test cat
  = rows_of p_category String.eqb
      (prediction_of category_models global_model
       <$> List.filter notna_features test) cat.
Proof.
  unfold rows_of. rewrite filter_fmap.
  assert (List.filter
            (fun a => String.eqb
                        (p_category (prediction_of category_models global_model a))
                        cat)
            (List.filter notna_features test)
          = List.filter notna_features
              (List.filter (fun r => String.eqb (category r) cat) test)) as ->.
  { rewrite !filter_filter. apply filter_ext_in. intros r _.
    rewrite entry_category. apply andb_comm. }
  unfold predict_category.
  set (cat_test := List.filter notna_features (List.filter _ test)).
  assert (forall r, r ∈ cat_test -> category r = cat) as Hs.
  { intros r Hr. subst cat_test. rewrite !elem_of_filter_bool in Hr.
    destruct Hr as [[_ Hr] _]. by apply String.eqb_eq. }
  destruct (length cat_test =? 0) eqn:El.
  - apply Nat.eqb_eq, nil_length_inv in El. by rewrite El.
  - clear El. induction cat_test as [|r rs IH].
    { by destruct (category_models !! cat) as [[?|]|]. }
    assert (category r = cat) as Hr by (apply Hs; left).
    assert (forall r, r ∈ rs -> category r = cat) as Hrs
      by (intros ? ?; apply Hs; by right).
    specialize (IH Hrs). rewrite fmap_cons. rewrite <- IH.
    unfold prediction_of. rewrite Hr.
    by destruct (category_models !! cat) as [[?|]|].
Qed.

(** The loop emits the entry of each test row that has all its feature
    cells, once each, grouped by category. *)
Lemma predict_categories_perm :
  predict_categories category_models global_model test
  ≡ₚ prediction_of category_models global_model
     <$> List.filter notna_features test.
Proof.
  unfold predict_categories.
  rewrite (list_fmap_ext _ _ _ (fun _ c _ => predict_category_rows c)).
  apply (concat_rows_of p_category String.eqb String.eqb_eq);
    [apply NoDup_unique|].
  intros p Hp. apply list_elem_of_fmap in Hp as (r & -> & Hr).
  apply elem_of_filter_bool in Hr as [Hr _].
  apply elem_of_unique. rewrite entry_category.
  apply list_elem_of_fmap. eauto.
Qed.
End Routing.

End TrainV3HybridFacts.

(** ** The trainers as a whole: routing and reproducibility *)

Module PipelineClaims.
Import Lib GroupFacts.

(** C2, as the code has it.  The prediction loop emits one entry per
    row of the test partition whose model-input cells are all non-null,
    and nothing else: its output is a rearrangement of the entries of
    these rows, so the entries with a given (SKU, week) are as many as
    the rows with it.  The entry of a row carries the row's SKU, week
    and actual quantity and is tagged with the dedicated model when the dict holds one
    for the row's entity and with the global model otherwise, also for
    an entity absent from the dict.  In the V4 per-SKU path the null
    cells are filled with 0 before the split, so every test row has an
    entry; in the V3 hybrid path a test row with a null feature cell is
    dropped by [dropna]. *)
Theorem C2_routing_total `{Library} :
  (forall (sku_models : gmap Z Model) (global_model : Model)
          (h1 : gmap Z nat) (weekly : list TrainV4.Row),
     let test := TrainV4.test_all weekly in
     let out := TrainV4.predict_skus sku_models global_model h1 test in
     let entry := TrainV4.prediction_of sku_models global_model h1 in
     out ≡ₚ entry <$> test /\
     (forall s w,
        length (List.filter (fun p => (TrainV4.p_sku p =? s)%Z
                                      && String.eqb (TrainV4.p_year_week p) w) out)
        = length (List.filter (fun r => (TrainV4.sku r =? s)%Z
                                        && String.eqb (TrainV4.year_week r) w) test)) /\
     (forall r,
        TrainV4.p_sku (entry r) = TrainV4.sku r /\
        TrainV4.p_year_week (entry r) = TrainV4.year_week r /\
        TrainV4.actual (entry r) = TrainV4.weekly_quantity r /\
        TrainV4.model_type (entry r)
        = match sku_models !! TrainV4.sku r with
          | Some _ => TrainV4.SkuModel
          | None => TrainV4.GlobalModel
          end)) /\
  (forall (category_models : gmap string (option Model)) (global_model : Model)
          (test : list TrainV3Hybrid.Row),
     let out := TrainV3Hybrid.predict_categories category_models global_model test in
     let entry := TrainV3Hybrid.prediction_of category_models global_model in
     out ≡ₚ entry <$> List.filter TrainV3Hybrid.notna_features test /\
     (forall s w,
        length (List.filter (fun p => (TrainV3Hybrid.p_sku p =? s)%Z
                                      && String.eqb (TrainV3Hybrid.p_year_week p) w) out)
        = length (List.filter (fun r => ((TrainV3Hybrid.sku r =? s)%Z
                                         && String.eqb (TrainV3Hybrid.year_week r) w)
                                        && TrainV3Hybrid.notna_features r) test)) /\
     (forall r,
        TrainV3Hybrid.p_sku (entry r) = TrainV3Hybrid.sku r /\
        TrainV3Hybrid.p_year_week (entry r) = TrainV3Hybrid.year_week r /\
        TrainV3Hybrid.actual (entry r) = TrainV3Hybrid.weekly_quantity r /\
        TrainV3Hybrid.model_type (entry r)
        = match category_models !! TrainV3Hybrid.category r with
          | Some (Some _) => TrainV3Hybrid.CategoryModel
          | _ => TrainV3Hybrid.GlobalModel
          end)).
Proof.
  split.
  - intros sku_models global_model h1 weekly test out entry.
    assert (out ≡ₚ entry <$> test) as Hperm.
    { subst out entry. rewrite TrainV4Facts.predict_skus_perm.
      rewrite filter_true; [reflexivity|].
      intros r Hr. by apply TrainV4Facts.test_all_notna in Hr. }
    split; [exact Hperm|]. split.
    + intros s w.
      rewrite (Permutation_length (filter_Permutation_bool _ _ _ Hperm)).
      rewrite filter_fmap, length_fmap. f_equal.
      apply filter_ext_in. intros r _. subst entry.
      by rewrite TrainV4Facts.prediction_of_sku, TrainV4Facts.prediction_of_week.
    + intros r. subst entry.
      rewrite TrainV4Facts.prediction_of_sku, TrainV4Facts.prediction_of_week,
        TrainV4Facts.prediction_of_actual, TrainV4Facts.prediction_of_scope.
      done.
  - intros category_models global_model test out entry.
    assert (out ≡ₚ entry <$> List.filter TrainV3Hybrid.notna_features test)
      as Hperm by apply TrainV3HybridFacts.predict_categories_perm.
    split; [exact Hperm|]. split.
    + intros s w.
      rewrite (Permutation_length (filter_Permutation_bool _ _ _ Hperm)).
      rewrite filter_fmap, length_fmap, filter_filter. f_equal.
      apply filter_ext_in. intros r _. subst entry.
      destruct (TrainV3HybridFacts.entry_key category_models
                  global_model r) as (-> & -> & _).
      apply andb_comm.
    + intros r. subst entry.
      destruct (TrainV3HybridFacts.entry_key category_models
                  global_model r) as (-> & -> & ->).
      by rewrite TrainV3HybridFacts.entry_scope.
Qed.

(** C2, as stated, fails in the V3 hybrid path: on the table
    [weekly_new_sku] the run completes, the row of SKU 9 in week
    2025-W30 is in the test partition, it has no lag cells, and no
    entry is emitted for it. *)
Lemma C2_dropped_row_counterexample :
  ~ (forall (L : Library) (w : World) (weekly : list TrainV3Hybrid.Row) out r,
       TrainV3Hybrid.main w weekly = Some out ->
       r ∈ TrainV3Hybrid.test weekly ->
       exists p,
         p ∈ out /\
         TrainV3Hybrid.p_sku p = TrainV3Hybrid.sku r /\
         TrainV3Hybrid.p_year_week p = TrainV3Hybrid.year_week r).
Proof.
  intros Hc.
  destruct (Hc mean_library 0%Q TrainV3Hybrid.weekly_new_sku []
              TrainV3Hybrid.new_sku_row) as (p & Hp & _).
  - vm_compute. reflexivity.
  - vm_compute. left.
  - inversion Hp.
Qed.

(** *** Reproducibility *)

Section Seeded.
Context `{Library}.

(** The contract of the library: a fit with a given [random_state]
    does not depend on anything else a run does not control. *)
Hypothesis seeded_fit :
  forall (w1 w2 : World) (p : Params) X y,
    is_Some (random_state p) -> gbr_fit w1 p X y = gbr_fit w2 p X y.

Lemma train_model_seeded w1 w2 X y :
  TrainV4.train_model w1 X y = TrainV4.train_model w2 X y.
Proof using seeded_fit. apply seeded_fit. simpl. eauto. Qed.

Lemma fit_seeded w1 w2 X y :
  TrainV3Hybrid.fit w1 X y = TrainV3Hybrid.fit w2 X y.
Proof using seeded_fit. apply seeded_fit. simpl. eauto. Qed.

Lemma train_sku_models_seeded w1 w2 frame :
  TrainV4.train_sku_models w1 frame = TrainV4.train_sku_models w2 frame.
Proof using seeded_fit.
  apply map_eq. intros s. rewrite !TrainV4Facts.train_sku_models_lookup.
  unfold TrainV4.fit_sku. destruct (_ <? 4); [reflexivity|].
  apply train_model_seeded.
Qed.

Lemma train_category_models_seeded w1 w2 weekly :
  TrainV3Hybrid.train_category_models w1 weekly
  = TrainV3Hybrid.train_category_models w2 weekly.
Proof using seeded_fit.
  unfold TrainV3Hybrid.train_category_models.
  generalize (Some (∅ : gmap string (option Model))).
  induction (unique (TrainV3Hybrid.category <$> weekly)) as [|c cs IH];
    intros acc; [reflexivity|].
  cbn [foldl]. rewrite IH. do 2 f_equal.
  destruct acc as [m|]; [|reflexivity].
  destruct (_ <? 50); [reflexivity|]. by rewrite (fit_seeded w1 w2).
Qed.

(** C10. Every regressor of the trainers is constructed with
    [random_state=42] and nothing else of a run reaches the
    computation: given the library contract that a seeded fit is a
    function of its arguments, two runs on the same feature table give
    the same output (predictions, model scopes, wmape values and
    tiers, or the same failure), in the V4 per-SKU trainer and in the
    V3 hybrid trainer. *)
Theorem C10_runs_agree (w1 w2 : World) :
  (forall weekly, TrainV4.main_sku w1 weekly = TrainV4.main_sku w2 weekly) /\
  (forall weekly, TrainV3Hybrid.main w1 weekly = TrainV3Hybrid.main w2 weekly).
Proof using seeded_fit.
  split; intros weekly.
  - unfold TrainV4.main_sku.
    rewrite (train_model_seeded w1 w2).
    by rewrite (train_sku_models_seeded w1 w2).
  - unfold TrainV3Hybrid.main.
    rewrite (fit_seeded w1 w2).
    by rewrite (train_category_models_seeded w1 w2).
Qed.
End Seeded.

Lemma C10_runs_agree_witness :
  @TrainV4.main_sku mean_library 0%Q TrainV4.weekly_three_weeks
  = @TrainV4.main_sku mean_library 7%Q TrainV4.weekly_three_weeks /\
  @TrainV3Hybrid.main mean_library 0%Q TrainV3Hybrid.weekly_new_sku
  = @TrainV3Hybrid.main mean_library 7%Q TrainV3Hybrid.weekly_new_sku.
Proof.
  assert (forall (w1 w2 : @World mean_library) (p : Params) X y,
            is_Some (random_state p) ->
            @gbr_fit mean_library w1 p X y = @gbr_fit mean_library w2 p X y)
    as Hseeded.
  { intros w1 w2 p X y [s Hs]. simpl. rewrite Hs. reflexivity. }
  destruct (@C10_runs_agree mean_library Hseeded 0%Q 7%Q) as [H4 H3].
  split; [apply H4|apply H3].
Defined.

End PipelineClaims.

(** ** The enrichment report: counters, audit trail, tiers, calendar *)

Module EnrichReportFacts.
Import Enrich EnrichFacts EnrichClaims EnrichReport.

(** What the cascade does to one row, with everything known about the
    row in each case. *)
Lemma row_outcome df (m : gmap string Q) r :
  (forall k v, m !! k = Some v -> (0 < v)%Q) ->
  (exists a, (unit_price r == 0)%Q /\ (line_total r == 0)%Q /\
             sku_avg_price df (sku r) = Some a /\ (0 < a)%Q /\
             enrich_row df m r
             = filled r a (quantity r * a) inferred_from_sku_avg) \/
  (exists p, (unit_price r == 0)%Q /\ (line_total r == 0)%Q /\
             sku_avg_price df (sku r) = None /\ m !! sku r = Some p /\
             (0 < p)%Q /\
             enrich_row df m r
             = filled r p (quantity r * p) inferred_from_master) \/
  ((unit_price r == 0)%Q /\ (line_total r == 0)%Q /\
   sku_avg_price df (sku r) = None /\ m !! sku r = None /\
   enrich_row df m r = kept r missing_no_reference) \/
  ((unit_price r == 0)%Q /\ (0 < line_total r)%Q /\ (0 < quantity r)%Q /\
   enrich_row df m r
   = filled r (line_total r / quantity r) (line_total r)
       has_total_no_unit_price) \/
  ((unit_price r == 0)%Q /\ (0 < line_total r)%Q /\ ~ (0 < quantity r)%Q /\
   enrich_row df m r = kept r has_total_no_unit_price) \/
  (~ ((unit_price r == 0)%Q /\ (0 <= line_total r)%Q) /\
   enrich_row df m r = kept r original).
Proof.
  intros m_pos.
  destruct (row_cases r) as [[Hup Hlt]|[[Hup Hlt]|Hn]].
  - destruct (sku_avg_price df (sku r)) as [a|] eqn:Havg.
    + left. exists a. pose proof (sku_avg_price_pos _ _ _ Havg).
      repeat split; try done. by apply enrich_row_avg.
    + destruct (m !! sku r) as [p|] eqn:Hm.
      * right; left. exists p. pose proof (m_pos _ _ Hm).
        repeat split; try done. by apply enrich_row_master.
      * right; right; left. repeat split; try done.
        by apply enrich_row_unresolved.
  - destruct (Qlt_le_dec 0 (quantity r)) as [Hq|Hq].
    + do 3 right; left. repeat split; try done.
      by apply enrich_row_backfill.
    + do 4 right; left.
      assert (~ (0 < quantity r)%Q) by (by apply Qle_not_lt).
      repeat split; try done. by apply enrich_row_total_only.
  - do 5 right. split; [exact Hn|]. by apply enrich_row_untouched.
Qed.

Lemma not_both_zero r :
  ~ ((unit_price r == 0)%Q /\ (0 <= line_total r)%Q) ->
  Qeq_bool (unit_price r) 0 && Qeq_bool (line_total r) 0 = false /\
  Qeq_bool (unit_price r) 0 && Qltb 0 (line_total r) = false.
Proof.
  intros Hn. destruct (Qeq_bool (unit_price r) 0) eqn:E; [|done].
  apply Qeq_bool_iff in E. simpl. split.
  - apply Qeq_bool_false_iff. intros Hz. apply Hn. split; [done|].
    rewrite Hz. apply Qle_refl.
  - apply Qltb_nlt. intros Hp. apply Hn. split; [done|].
    by apply Qlt_le_weak.
Qed.

(** The masks of the report, read on the input row, against the tag
    the row comes out with. *)
Lemma row_flags df (m : gmap string Q) r :
  (forall k v, m !! k = Some v -> (0 < v)%Q) ->
  let e := enrich_row df m r in
  can_infer_mask df r = bool_decide (price_source e = inferred_from_sku_avg) /\
  can_use_master df m r = bool_decide (price_source e = inferred_from_master) /\
  Qeq_bool (unit_price (item e)) 0 && Qeq_bool (line_total (item e)) 0
  = bool_decide (price_source e = missing_no_reference) /\
  Qeq_bool (unit_price r) 0 && Qltb 0 (line_total r)
  = bool_decide (price_source e = has_total_no_unit_price) /\
  Qeq_bool (unit_price r) 0 && Qeq_bool (line_total r) 0
  = bool_decide (price_source e = inferred_from_sku_avg)
    || bool_decide (price_source e = inferred_from_master)
    || bool_decide (price_source e = missing_no_reference).
Proof.
  intros m_pos e. subst e.
  unfold can_use_master, after_sku_avg, can_infer_mask.
  destruct (row_outcome df m r m_pos)
    as [(a & Hup & Hlt & Havg & Ha & ->)|[(p & Hup & Hlt & Havg & Hm & Hp & ->)|
        [(Hup & Hlt & Havg & Hm & ->)|[(Hup & Hlt & Hq & ->)|
        [(Hup & Hlt & Hq & ->)|(Hn & ->)]]]]]; cbn [price_source item filled kept
          unit_price line_total].
  - rewrite Havg. crunch. by destruct (m !! sku r).
  - rewrite Havg, Hm. crunch. done.
  - rewrite Havg, Hm. crunch. done.
  - pose proof (Qdiv_pos _ _ Hlt Hq).
    destruct (sku_avg_price df (sku r)), (m !! sku r); crunch; done.
  - destruct (sku_avg_price df (sku r)), (m !! sku r); crunch; done.
  - destruct (not_both_zero r Hn) as [-> ->].
    destruct (sku_avg_price df (sku r)), (m !! sku r); cbn [andb];
      rewrite ?(proj1 (not_both_zero r Hn)); done.
Qed.

Lemma count_fmap {A B} (f : A -> B) (P : B -> bool) (l : list A) :
  count P (f <$> l) = count (fun a => P (f a)) l.
Proof.
  unfold count. by rewrite GroupFacts.filter_fmap, length_fmap.
Qed.

Lemma count_ext {A} (P Q : A -> bool) (l : list A) :
  (forall a, a ∈ l -> P a = Q a) -> count P l = count Q l.
Proof.
  intros H. unfold count. by rewrite (GroupFacts.filter_ext_in P Q l H).
Qed.

Lemma count_or {A} (P Q : A -> bool) (l : list A) :
  (forall a, a ∈ l -> P a = true -> Q a = false) ->
  count (fun a => P a || Q a) l = count P l + count Q l.
Proof.
  intros H. unfold count.
  rewrite <- (Permutation_length (GroupFacts.filter_disjoint_app P Q l H)).
  apply length_app.
Qed.


Lemma restore_enrich_row df m r : restore (enrich_row df m r) = r.
Proof.
  unfold restore, enrich_row. destruct r. by repeat case_match.
Qed.

(** X1. The tracking columns are a full audit trail: putting
    [original_unit_price] and [original_line_total] back in place of
    the enriched price and revenue gives the input ledger again, row
    for row; the cascade adds and drops no row and touches no other
    ledger column. *)
Theorem X1_audit_trail_restores_ledger (df : list LineItem) products :
  restore <$> enrich_prices df products = df.
Proof.
  unfold enrich_prices. rewrite <- list_fmap_compose.
  transitivity (id <$> df); [|apply list_fmap_id].
  apply list_fmap_ext. intros i r _. apply restore_enrich_row.
Qed.

Lemma count_tags (out : list Enriched) :
  count (fun e => bool_decide (price_source e = inferred_from_sku_avg)
                  || bool_decide (price_source e = inferred_from_master)
                  || bool_decide (price_source e = missing_no_reference)) out
  = tagged inferred_from_sku_avg out + tagged inferred_from_master out
    + tagged missing_no_reference out /\
  length out
  = tagged original out + tagged inferred_from_sku_avg out
    + tagged inferred_from_master out + tagged has_total_no_unit_price out
    + tagged missing_no_reference out.
Proof.
  unfold tagged, count.
  induction out as [|e out [IH1 IH2]]; [done|].
  cbn [List.filter]. destruct (price_source e);
    repeat (case_bool_decide; try congruence);
    cbn [orb length]; lia.
Qed.

(** X2. The counters of the price report are the tag counts of the
    enriched frame: [inferred_from_sku], [inferred_from_master],
    [remaining_zero_revenue] and [had_total_but_no_price] are the
    numbers of rows tagged [inferred_from_sku_avg],
    [inferred_from_master], [missing_no_reference] and
    [has_total_no_unit_price]; the truly missing rows are exactly the
    rows of the first three tags, and the five tags account for every
    row. *)
Theorem X2_report_counts_are_tag_counts (df : list LineItem) products :
  let s := price_stats df products in
  let out := enrich_prices df products in
  inferred_from_sku s = tagged inferred_from_sku_avg out /\
  inferred_from_master_count s = tagged inferred_from_master out /\
  remaining_zero_revenue s = tagged missing_no_reference out /\
  had_total_but_no_price s = tagged has_total_no_unit_price out /\
  truly_missing_revenue s
  = inferred_from_sku s + inferred_from_master_count s
    + remaining_zero_revenue s /\
  length df
  = tagged original out + inferred_from_sku s + inferred_from_master_count s
    + had_total_but_no_price s + remaining_zero_revenue s.
Proof.
  intros s out. subst s. cbn [price_stats inferred_from_sku
    inferred_from_master_count remaining_zero_revenue had_total_but_no_price
    truly_missing_revenue].
  fold out.
  pose proof (master_prices_pos products) as Hm.
  pose proof (fun r => row_flags df (master_prices products) r Hm) as Hf.
  assert (count (can_infer_mask df) df = tagged inferred_from_sku_avg out) as E1.
  { unfold tagged, out, enrich_prices. rewrite count_fmap.
    apply count_ext. intros r _. apply Hf. }
  assert (count (can_use_master df (master_prices products)) df
          = tagged inferred_from_master out) as E2.
  { unfold tagged, out, enrich_prices. rewrite count_fmap.
    apply count_ext. intros r _. apply Hf. }
  assert (count (fun e => Qeq_bool (unit_price (item e)) 0
                          && Qeq_bool (line_total (item e)) 0) out
          = tagged missing_no_reference out) as E3.
  { unfold tagged. apply count_ext. intros e He.
    apply list_elem_of_fmap in He as (r & -> & _). apply Hf. }
  assert (count (fun r => Qeq_bool (unit_price r) 0 && Qltb 0 (line_total r)) df
          = tagged has_total_no_unit_price out) as E4.
  { unfold tagged, out, enrich_prices. rewrite count_fmap.
    apply count_ext. intros r _. apply Hf. }
  assert (count (fun r => Qeq_bool (unit_price r) 0
                          && Qeq_bool (line_total r) 0) df
          = tagged inferred_from_sku_avg out + tagged inferred_from_master out
            + tagged missing_no_reference out) as E5.
  { rewrite <- (proj1 (count_tags out)). unfold out, enrich_prices.
    rewrite count_fmap. apply count_ext. intros r _. apply Hf. }
  rewrite E1, E2, E3, E4, E5.
  repeat split; try reflexivity.
  rewrite <- (length_fmap (enrich_row df (master_prices products)) df).
  fold (enrich_prices df products). fold out.
  rewrite (proj2 (count_tags out)). lia.
Qed.

Lemma filled_price_positive df products e :
  e ∈ enrich_prices df products -> price_inferred e = true ->
  (0 < unit_price (item e))%Q.
Proof.
  intros He Hinf. apply list_elem_of_fmap in He as (r & -> & _).
  destruct (row_outcome df _ r (master_prices_pos products))
    as [(a & _ & _ & _ & Ha & Heq)|[(p & _ & _ & _ & _ & Hp & Heq)|
        [(_ & _ & _ & _ & Heq)|[(_ & Hlt & Hq & Heq)|
        [(_ & _ & _ & Heq)|(_ & Heq)]]]]];
    rewrite Heq in *; cbn in Hinf |- *; try discriminate; try done.
  by apply Qdiv_pos.
Qed.

(** X3. A row whose price the cascade filled in ([price_inferred]
    set) comes out with a positive unit price and with a line total
    equal to quantity times unit price. *)
Theorem X3_filled_rows_consistent (df : list LineItem) products e :
  e ∈ enrich_prices df products -> price_inferred e = true ->
  (0 < unit_price (item e))%Q /\
  (line_total (item e) == quantity (item e) * unit_price (item e))%Q.
Proof.
  intros He Hinf. apply list_elem_of_fmap in He as (r & -> & _).
  destruct (row_outcome df _ r (master_prices_pos products))
    as [(a & _ & _ & _ & Ha & Heq)|[(p & _ & _ & _ & _ & Hp & Heq)|
        [(_ & _ & _ & _ & Heq)|[(_ & Hlt & Hq & Heq)|
        [(_ & _ & _ & Heq)|(_ & Heq)]]]]];
    rewrite Heq in *; cbn in Hinf |- *; try discriminate.
  - split; [exact Ha|reflexivity].
  - split; [exact Hp|reflexivity].
  - split; [by apply Qdiv_pos|].
    rewrite Qmult_div_r; [reflexivity|].
    intros Hz. rewrite Hz in Hq. by apply Qlt_irrefl in Hq.
Qed.

Lemma X3_filled_rows_consistent_witness :
  exists e, enrich_prices ledger_same_sku [] !! 1 = Some e /\
    (0 < unit_price (item e))%Q /\
    (line_total (item e) == quantity (item e) * unit_price (item e))%Q.
Proof.
  eexists. split; [reflexivity|].
  apply (X3_filled_rows_consistent ledger_same_sku []).
  - right. left.
  - reflexivity.
Defined.


(** *** The inferred price lies among the observed ones *)

Lemma Qsum_lower lo (xs : list Q) :
  (forall x, x ∈ xs -> (lo <= x)%Q) ->
  (lo * inject_Z (Z.of_nat (length xs)) <= Qsum xs)%Q.
Proof.
  induction xs as [|x xs IH]; intros H.
  - simpl. rewrite Qmult_0_r. apply Qle_refl.
  - cbn [length Qsum foldr]. rewrite Nat2Z.inj_succ, <- Z.add_1_l.
    rewrite inject_Z_plus, Qmult_plus_distr_r, Qmult_1_r.
    apply Qplus_le_compat; [apply H; left|].
    apply IH. intros y Hy. apply H. by right.
Qed.

Lemma Qsum_upper hi (xs : list Q) :
  (forall x, x ∈ xs -> (x <= hi)%Q) ->
  (Qsum xs <= hi * inject_Z (Z.of_nat (length xs)))%Q.
Proof.
  induction xs as [|x xs IH]; intros H.
  - simpl. rewrite Qmult_0_r. apply Qle_refl.
  - cbn [length Qsum foldr]. rewrite Nat2Z.inj_succ, <- Z.add_1_l.
    rewrite inject_Z_plus, Qmult_plus_distr_r, Qmult_1_r.
    apply Qplus_le_compat; [apply H; left|].
    apply IH. intros y Hy. apply H. by right.
Qed.

Lemma list_least (xs : list Q) :
  xs <> [] -> exists lo, lo ∈ xs /\ forall x, x ∈ xs -> (lo <= x)%Q.
Proof.
  induction xs as [|x xs IH]; [done|]. intros _.
  destruct xs as [|y ys].
  - exists x. split; [left|]. intros z Hz.
    apply list_elem_of_singleton in Hz as ->. apply Qle_refl.
  - destruct IH as (lo & Hlo & Hmin); [done|].
    destruct (Qlt_le_dec x lo) as [Hlt|Hle].
    + exists x. split; [left|]. intros z Hz.
      apply elem_of_cons in Hz as [->|Hz]; [apply Qle_refl|].
      apply Qle_trans with lo; [by apply Qlt_le_weak|by apply Hmin].
    + exists lo. split; [by right|]. intros z Hz.
      apply elem_of_cons in Hz as [->|Hz]; [exact Hle|by apply Hmin].
Qed.

Lemma list_greatest (xs : list Q) :
  xs <> [] -> exists hi, hi ∈ xs /\ forall x, x ∈ xs -> (x <= hi)%Q.
Proof.
  induction xs as [|x xs IH]; [done|]. intros _.
  destruct xs as [|y ys].
  - exists x. split; [left|]. intros z Hz.
    apply list_elem_of_singleton in Hz as ->. apply Qle_refl.
  - destruct IH as (hi & Hhi & Hmax); [done|].
    destruct (Qlt_le_dec hi x) as [Hlt|Hle].
    + exists x. split; [left|]. intros z Hz.
      apply elem_of_cons in Hz as [->|Hz]; [apply Qle_refl|].
      apply Qle_trans with hi; [by apply Hmax|by apply Qlt_le_weak].
    + exists hi. split; [by right|]. intros z Hz.
      apply elem_of_cons in Hz as [->|Hz]; [exact Hle|by apply Hmax].
Qed.

(** A mean lies between the least and the greatest of its terms. *)
Lemma Qmean_between (xs : list Q) :
  xs <> [] ->
  exists lo hi, lo ∈ xs /\ hi ∈ xs /\ (lo <= Qmean xs)%Q /\ (Qmean xs <= hi)%Q.
Proof.
  intros Hne.
  destruct (list_least xs Hne) as (lo & Hlo & Hmin).
  destruct (list_greatest xs Hne) as (hi & Hhi & Hmax).
  exists lo, hi. repeat split; try done.
  - unfold Qmean. apply Qle_shift_div_l; [|by apply Qsum_lower].
    destruct xs; [done|]. unfold Qlt. simpl. lia.
  - unfold Qmean. apply Qle_shift_div_r; [|by apply Qsum_upper].
    destruct xs; [done|]. unfold Qlt. simpl. lia.
Qed.

Lemma sku_avg_price_between df s a :
  sku_avg_price df s = Some a ->
  exists r1 r2, r1 ∈ df /\ r2 ∈ df /\ sku r1 = s /\ sku r2 = s /\
    (0 < effective_price r1)%Q /\
    (effective_price r1 <= a)%Q /\ (a <= effective_price r2)%Q.
Proof.
  unfold sku_avg_price.
  set (rows := List.filter _ df).
  destruct (effective_price <$> rows) as [|x xs] eqn:E; [discriminate|].
  intros [= <-]. rewrite <- E.
  destruct (Qmean_between (effective_price <$> rows)) as (lo & hi & Hlo & Hhi & H1 & H2).
  { by rewrite E. }
  apply list_elem_of_fmap in Hlo as (r1 & -> & Hr1).
  apply list_elem_of_fmap in Hhi as (r2 & -> & Hr2).
  apply GroupFacts.elem_of_filter_bool in Hr1 as [Hr1 Hc1].
  apply GroupFacts.elem_of_filter_bool in Hr2 as [Hr2 Hc2].
  apply andb_true_iff in Hc1 as [Hs1 Hp1].
  apply andb_true_iff in Hc2 as [Hs2 _].
  exists r1, r2. repeat split; try done.
  - by apply String.eqb_eq.
  - by apply String.eqb_eq.
  - by apply Qltb_lt.
Qed.

(** X4. A price inferred from the SKU average lies between two
    positive effective prices observed on rows of that SKU in the input
    ledger, and all rows of one SKU filled this way receive the same
    price. *)
Theorem X4_inferred_price_in_observed_range (df : list LineItem) products e :
  e ∈ enrich_prices df products ->
  price_source e = inferred_from_sku_avg ->
  (exists r1 r2, r1 ∈ df /\ r2 ∈ df /\
     sku r1 = sku (item e) /\ sku r2 = sku (item e) /\
     (0 < effective_price r1)%Q /\
     (effective_price r1 <= unit_price (item e))%Q /\
     (unit_price (item e) <= effective_price r2)%Q) /\
  (forall e', e' ∈ enrich_prices df products ->
     price_source e' = inferred_from_sku_avg ->
     sku (item e') = sku (item e) ->
     unit_price (item e') = unit_price (item e)).
Proof.
  assert (forall x, x ∈ enrich_prices df products ->
            price_source x = inferred_from_sku_avg ->
            sku_avg_price df (sku (item x)) = Some (unit_price (item x)))
    as Havg.
  { intros x Hx Hsrc. apply list_elem_of_fmap in Hx as (r & -> & _).
    destruct (row_outcome df _ r (master_prices_pos products))
      as [(a & _ & _ & Ha & _ & Heq)|[(p & _ & _ & _ & _ & _ & Heq)|
          [(_ & _ & _ & _ & Heq)|[(_ & _ & _ & Heq)|
          [(_ & _ & _ & Heq)|(_ & Heq)]]]]];
      rewrite Heq in *; cbn in Hsrc |- *; try discriminate.
    exact Ha. }
  intros He Hsrc. split.
  - apply sku_avg_price_between. by apply Havg.
  - intros e' He' Hsrc' Hsku.
    pose proof (Havg e He Hsrc) as H1. pose proof (Havg e' He' Hsrc') as H2.
    rewrite Hsku in H2. congruence.
Qed.

Lemma X4_inferred_price_in_observed_range_witness :
  exists e r1 r2,
    enrich_prices ledger_same_sku [] !! 1 = Some e /\
    r1 ∈ ledger_same_sku /\ r2 ∈ ledger_same_sku /\
    (effective_price r1 <= unit_price (item e))%Q /\
    (unit_price (item e) <= effective_price r2)%Q.
Proof.
  destruct (X4_inferred_price_in_observed_range ledger_same_sku []
              (enrich_row ledger_same_sku ∅ {| sku := "3003"; quantity := 3;
                 unit_price := 0; line_total := 0; region_name := "Gauteng";
                 customer_id := Some "C004" |}))
    as [(r1 & r2 & H1 & H2 & _ & _ & _ & Hlo & Hhi) _].
  - right. left.
  - reflexivity.
  - eexists. exists r1, r2. split; [reflexivity|]. by repeat split.
Defined.

(** X5. The main report: the frame has as many line items after
    enrichment as before, and no more rows with a zero [line_total]. *)
Theorem X5_zero_revenue_count_drops (df : list LineItem) products :
  length (enrich_prices df products) = length df /\
  zero_revenue_count (reload (enrich_prices df products))
  <= zero_revenue_count df.
Proof.
  split; [apply length_fmap|].
  unfold zero_revenue_count, count, reload, enrich_prices.
  rewrite <- list_fmap_compose. apply filter_fmap_length_le.
  intros r _. cbn.
  destruct (row_outcome df _ r (master_prices_pos products))
    as [(a & _ & Hz & _ & _ & ->)|[(p & _ & Hz & _ & _ & _ & ->)|
        [(_ & _ & _ & _ & ->)|[(_ & _ & _ & ->)|
        [(_ & _ & _ & ->)|(_ & ->)]]]]]; cbn; try done.
  - intros _. by apply Qeq_bool_iff.
  - intros _. by apply Qeq_bool_iff.
Qed.


(** *** Quality tiers *)

Lemma filled_not_unresolved df products e :
  e ∈ enrich_prices df products -> price_inferred e = true ->
  unresolved (item e) = false.
Proof.
  intros He Hinf. unfold unresolved.
  by rewrite (Qpos_not_zero _ (filled_price_positive df products e He Hinf)).
Qed.

(** X6. Every enriched row gets a quality tier (the score never falls
    outside the bins).  The tier is [excellent] exactly when no penalty
    applies (price not filled in, revenue resolved, region known,
    customer present) and [poor] exactly when the row is unresolved
    and its region is Unknown. *)
Theorem X6_quality_tier (df : list LineItem) products e :
  e ∈ enrich_prices df products ->
  exists t, dq_tier (dq_score e) = Some t /\
    (t = excellent <->
     price_inferred e = false /\ unresolved (item e) = false /\
     region_unknown (item e) = false /\ customer_missing (item e) = false) /\
    (t = poor <->
     unresolved (item e) = true /\ region_unknown (item e) = true).
Proof.
  intros He. rewrite dq_score_sum.
  pose proof (filled_not_unresolved df products e He) as Hexcl.
  unfold penalty.
  destruct (price_inferred e), (unresolved (item e)) eqn:Hu,
    (region_unknown (item e)), (customer_missing (item e));
    try (specialize (Hexcl eq_refl); discriminate Hexcl);
    (eexists; split; [reflexivity|]);
    split; split; try discriminate; try tauto;
    try (intros (? & ? & ? & ?); discriminate);
    try (intros (? & ?); discriminate).
Qed.

Lemma X6_quality_tier_witness :
  exists e t, enrich_prices ledger_mixed [] !! 3 = Some e /\
    dq_tier (dq_score e) = Some t /\ t = poor.
Proof.
  destruct (X6_quality_tier ledger_mixed []
              (enrich_row ledger_mixed ∅
                 {| sku := "4004"; quantity := 1; unit_price := 0;
                    line_total := 0; region_name := "Unknown";
                    customer_id := Some "C005" |}))
    as (t & Ht & _ & Hpoor).
  - do 3 right. left.
  - eexists. exists t. split; [reflexivity|]. split; [exact Ht|].
    apply Hpoor. split; reflexivity.
Defined.

(** *** Calendar columns *)

(** X7. For every week number the month column lies in 1..12 and the
    quarter column in 1..4, both never decrease as the week grows;
    weeks 1 to 48 fall four to a month, and every week from 49 on is
    put in month 12 by the clip. *)
Theorem X7_month_quarter_bounds (w : Z) :
  (1 <= month w <= 12)%Z /\ (1 <= quarter w <= 4)%Z /\
  (forall w', (w <= w')%Z ->
     (month w <= month w')%Z /\ (quarter w <= quarter w')%Z) /\
  ((1 <= w <= 48)%Z -> month w = ((w - 1) / 4 + 1)%Z) /\
  ((49 <= w)%Z -> month w = 12%Z /\ quarter w = 4%Z).
Proof.
  unfold quarter, month, clip.
  repeat split; intros; try (Z.div_mod_to_equations; lia).
Qed.

End EnrichReportFacts.

(** ** Feature builder: the order of the frame and the meaning of its
       columns *)

Module FeatureFrameFacts.
Import Features FeaturesFacts.

(** The order of [sort_values(['sku', 'year_week'])] between two rows. *)
Local Abbreviation ordered :=
  (fun a b : WeeklyRow =>
     (sku a < sku b)%Z \/
     (sku a = sku b /\ String.leb (year_week a) (year_week b) = true)).








(** *** A row and its group *)

Lemma filter_middle {A} (P : A -> bool) (l : list A) i x :
  l !! i = Some x ->
  List.filter P l
  = List.filter P (take i l) ++ (if P x then [x] else [])
    ++ List.filter P (drop (S i) l).
Proof.
  intros H. rewrite <- (take_drop_middle l i x H) at 1.
  rewrite List.filter_app. cbn [List.filter]. by destruct (P x).
Qed.

(** A row sits in the rows of its SKU at the place given by the number
    of rows of that SKU above it. *)
Lemma group_position (df : list WeeklyRow) i r :
  df !! i = Some r ->
  List.filter (fun x => (sku x =? sku r)%Z) df
    !! length (List.filter (fun x => (sku x =? sku r)%Z) (take i df))
  = Some r.
Proof.
  intros H. rewrite (filter_middle _ df i r H), Z.eqb_refl.
  by apply list_lookup_middle.
Qed.

Lemma transform_lookup col f (df : list WeeklyRow) i r :
  df !! i = Some r ->
  mjoin (transform col f df !! i)
  = mjoin (f (group_column col df (sku r))
           !! length (List.filter (fun x => (sku x =? sku r)%Z) (take i df))).
Proof.
  intros H. unfold transform. by rewrite list_lookup_imap, H.
Qed.

Lemma omap_id_Some {A} (l : list A) : omap id (Some <$> l) = l.
Proof. induction l as [|a l IH]; [done|]. cbn. by rewrite IH. Qed.

Lemma Qmean_singleton x : (Qmean [x] == x)%Q.
Proof. unfold Qmean. cbn. field. Qed.

(** X9. The columns of the feature row of the row [r] standing at place
    [pos] among the rows [g] of its SKU (in the sorted frame): each lag
    column of [k] weeks is null when [pos < k] and is otherwise the
    cell of the row [k] places above in [g]; [rolling_avg_4w] is never
    null and is the mean of the quantities of at most three rows above
    [r] and of [r] itself, so on the first row of an SKU it equals the
    week's own quantity. *)
Theorem X9_feature_columns (tbl : list WeeklyRow) i f :
  weekly_features tbl !! i = Some f ->
  let df := sort_values tbl in
  let r := base f in
  let g := List.filter (fun x => (sku x =? sku r)%Z) df in
  let pos := length (List.filter (fun x => (sku x =? sku r)%Z) (take i df)) in
  let lag k (col : WeeklyRow -> option Q) :=
    if decide (pos < k) then None else g !! (pos - k) ≫= col in
  df !! i = Some r /\ g !! pos = Some r /\
  lag1_quantity f = lag 1 quantity_cell /\
  lag2_quantity f = lag 2 quantity_cell /\
  lag4_quantity f = lag 4 quantity_cell /\
  lag1_price f = lag 1 avg_unit_price /\
  lag2_price f = lag 2 avg_unit_price /\
  lag4_price f = lag 4 avg_unit_price /\
  (exists above,
     drop (S pos - 4) (take pos g) = above /\ length above <= 3 /\
     rolling_avg_4w f = Some (Qmean (weekly_quantity <$> above ++ [r]))) /\
  (pos = 0 -> exists x, rolling_avg_4w f = Some x /\ (x == weekly_quantity r)%Q).
Proof.
  intros Hf df r g pos lag.
  unfold weekly_features in Hf. fold df in Hf.
  rewrite list_lookup_imap in Hf.
  destruct (df !! i) as [r0|] eqn:Hi; [|discriminate].
  injection Hf as <-. cbn [base] in r. subst r.
  pose proof (group_position df i r0 Hi) as Hpos. fold g pos in Hpos.
  assert (pos < length g) as Hlen by (apply lookup_lt_is_Some; eauto).
  assert (forall k col,
            mjoin (transform col (shift k) df !! i) = lag k col) as Hlag.
  { intros k col. rewrite (transform_lookup _ _ _ _ _ Hi).
    fold pos. unfold group_column. fold g.
    rewrite shift_lookup by (by rewrite length_fmap).
    unfold lag. case_decide; [reflexivity|].
    rewrite list_lookup_fmap. by destruct (g !! (pos - k)). }
  assert (rolling_avg_4w
            {| base := r0;
               lag1_quantity := mjoin (transform quantity_cell (shift 1) df !! i);
               lag2_quantity := mjoin (transform quantity_cell (shift 2) df !! i);
               lag4_quantity := mjoin (transform quantity_cell (shift 4) df !! i);
               lag1_price := mjoin (transform avg_unit_price (shift 1) df !! i);
               lag2_price := mjoin (transform avg_unit_price (shift 2) df !! i);
               lag4_price := mjoin (transform avg_unit_price (shift 4) df !! i);
               rolling_avg_4w :=
                 mjoin (transform quantity_cell (rolling 4 mean) df !! i);
               price_rolling_avg_4w :=
                 mjoin (transform avg_unit_price (rolling 4 mean) df !! i) |}
          = Some (Qmean (weekly_quantity
                         <$> drop (S pos - 4) (take pos g) ++ [r0]))) as Hroll.
  { cbn [rolling_avg_4w]. rewrite (transform_lookup _ _ _ _ _ Hi).
    fold pos. unfold group_column. fold g.
    rewrite rolling_lookup by (by rewrite length_fmap). cbn [mjoin option_join].
    unfold window, quantity_cell.
    rewrite (list_fmap_compose weekly_quantity Some).
    rewrite <- !fmap_take, <- !fmap_drop, omap_id_Some.
    rewrite (take_S_r g pos r0 Hpos).
    rewrite drop_app_le by (rewrite length_take_le; lia).
    rewrite !fmap_app. cbn [fmap list_fmap].
    destruct (weekly_quantity <$> drop (S pos - 4) (take pos g)); reflexivity. }
  repeat split; try apply Hlag; try done.
  - exists (drop (S pos - 4) (take pos g)). split; [reflexivity|].
    split; [|exact Hroll].
    rewrite length_drop, length_take_le by lia. lia.
  - intros Hz. eexists. split; [exact Hroll|].
    rewrite Hz. cbn [Nat.sub drop take app fmap list_fmap].
    apply Qmean_singleton.
Qed.


Lemma X9_feature_columns_witness :
  exists f x, weekly_features weeks_a !! 0 = Some f /\
    lag1_quantity f = None /\
    rolling_avg_4w f = Some x /\ (x == weekly_quantity (base f))%Q.
Proof.
  destruct (X9_feature_columns weeks_a 0 _ eq_refl)
    as (_ & _ & Hlag1 & _ & _ & _ & _ & _ & _ & Hfirst).
  destruct (Hfirst eq_refl) as (x & Hx & Hq).
  eexists. exists x. split; [reflexivity|].
  split; [exact Hlag1|]. split; [exact Hx|exact Hq].
Defined.

End FeatureFrameFacts.

(** ** Line-item extraction: what every extracted row satisfies *)

Module ExtractFacts.
Import Extract.

(** The end of a turn of the loop (lines 313-332), from the quantity,
    the price read and the total read. *)
Lemma process_row_appended float_of_text sh row it c :
  process_row float_of_text sh row = Appended it c ->
  exists q up lt,
    qty row = Number q /\ (0 < q)%Q /\
    (has_price sh = false -> up = 0%Q) /\
    (has_total sh = false -> lt = (q * up)%Q) /\
    quantity it = q /\ line_total it = lt /\
    invoice_id it = clean_name sh /\
    ((Qeq_bool up 0 && Qltb 0 lt = true /\
      unit_price it = (lt / q)%Q /\ c = 1) \/
     (Qeq_bool up 0 && Qltb 0 lt = false /\
      unit_price it = up /\ c = if Qltb 0 up then 1 else 0)).
Proof.
  unfold process_row. intros H.
  destruct (stock_code row) as [|code|s] eqn:Hcode; [discriminate| |];
    [|destruct (strip_is_empty s); [discriminate|]];
    (destruct (qty row) as [|q|t] eqn:Hq; [discriminate| |discriminate];
     destruct (Qle_bool q 0) eqn:Hpos; [discriminate|];
     destruct (float_of _ _) as [v|]; [|discriminate];
     assert (Hq0 : (0 < q)%Q) by (by apply Qltb_lt; unfold Qltb; rewrite Hpos);
     assert (Hqb : Qltb 0 q = true) by (by apply Qltb_lt);
     rewrite Hqb, andb_true_r in H;
     match type of H with
     | context [Qeq_bool ?up 0 && Qltb 0 ?lt] =>
         exists q, up, lt;
         destruct (Qeq_bool up 0 && Qltb 0 lt) eqn:Hb
     end;
     injection H as <- <-; cbn [quantity line_total invoice_id unit_price];
     (split; [reflexivity|]); (split; [exact Hq0|]);
     (split; [by intros ->|]); (split; [by intros ->|]);
     (split; [reflexivity|]); (split; [reflexivity|]);
     (split; [reflexivity|]);
     [left|right]; (split; [reflexivity|]); (split; [reflexivity|]);
     [|reflexivity];
     apply andb_true_iff in Hb as [Hz _];
     match goal with
     | |- context [Qltb 0 ?up] =>
         assert (Hn : Qltb 0 up = false); [|by rewrite Hn]
     end;
     apply Qltb_nlt; intros Hlt; apply Qeq_bool_iff in Hz;
     rewrite Hz in Hlt; exact (Qlt_irrefl _ Hlt)).
Qed.

Lemma process_row_item float_of_text sh row it c :
  process_row float_of_text sh row = Appended it c ->
  (0 < quantity it)%Q /\
  (unit_price it == 0 -> ~ 0 < line_total it)%Q /\
  c = (if priced it then 1 else 0) /\
  invoice_id it = clean_name sh /\
  (has_total sh = false ->
   line_total it = (quantity it * unit_price it)%Q).
Proof.
  intros H. apply process_row_appended in H
    as (q & up & lt & _ & Hq & _ & Htot & -> & -> & Hid & Hcase).
  split; [exact Hq|]. unfold priced.
  destruct Hcase as [(Hb & Hup & ->)|(Hb & Hup & ->)]; rewrite Hup.
  - apply andb_true_iff in Hb as [Hz Hlt].
    apply Qeq_bool_iff in Hz. apply Qltb_lt in Hlt.
    pose proof (Qdiv_pos _ _ Hlt Hq) as Hpos.
    split; [|split; [|split; [exact Hid|]]].
    + intros E. rewrite E in Hpos. by apply Qlt_irrefl in Hpos.
    + apply Qltb_lt in Hpos. by rewrite Hpos.
    + intros Hno. exfalso. rewrite (Htot Hno), Hz, Qmult_0_r in Hlt.
      by apply Qlt_irrefl in Hlt.
  - split; [|split; [reflexivity|split; [exact Hid|exact Htot]]].
    intros E. apply Qeq_bool_iff in E. rewrite E in Hb.
    by apply Qltb_nlt in Hb.
Qed.

(** What a sheet adds to the running list and counter. *)
Lemma process_rows_adds float_of_text sh rs acc :
  exists new,
    (process_rows float_of_text sh rs acc).1 = acc.1 ++ new /\
    (process_rows float_of_text sh rs acc).2
      = acc.2 + length (List.filter priced new) /\
    Forall (fun it =>
      ((0 < quantity it)%Q /\
       (unit_price it == 0 -> ~ 0 < line_total it)%Q) /\
      (has_total sh = false ->
       line_total it = (quantity it * unit_price it)%Q)) new.
Proof.
  revert acc. induction rs as [|row rs IH]; intros acc.
  - exists []. cbn. rewrite app_nil_r. split; [done|]. split; [lia|done].
  - cbn [process_rows].
    destruct (process_row float_of_text sh row) as [| |it c] eqn:Hrow.
    + apply IH.
    + exists []. cbn. rewrite app_nil_r. split; [done|]. split; [lia|done].
    + destruct (IH (acc.1 ++ [it], acc.2 + c)) as (new & H1 & H2 & H3).
      apply process_row_item in Hrow as (Hq & Hz & -> & _ & Htot).
      exists (it :: new). rewrite H1, H2. cbn [fst snd List.filter].
      split; [by rewrite <- app_assoc|]. split.
      * destruct (priced it); cbn [length]; lia.
      * by constructor.
Qed.

Lemma process_sheets_snoc float_of_text sheets sh :
  process_sheets float_of_text (sheets ++ [sh])
  = process_rows float_of_text sh (rows sh)
      (process_sheets float_of_text sheets).
Proof. unfold process_sheets. by rewrite foldl_app. Qed.

Lemma filter_priced_app (l k : list LineItem) :
  List.filter priced (l ++ k) = List.filter priced l ++ List.filter priced k.
Proof. apply List.filter_app. Qed.

(** The quantities of the extracted line items are positive. *)
Lemma process_sheets_quantities float_of_text sheets :
  Forall (fun it => (0 < quantity it)%Q)
    (process_sheets float_of_text sheets).1.
Proof.
  induction sheets as [|sh sheets IH] using rev_ind; [by constructor|].
  rewrite process_sheets_snoc.
  destruct (process_rows_adds float_of_text sh (rows sh)
              (process_sheets float_of_text sheets)) as (new & -> & _ & H).
  apply Forall_app. split; [exact IH|].
  eapply Forall_impl; [exact H|]. by intros it [[? _] _].
Qed.

(** X10. Whatever the workbook holds, every extracted line item has a
    positive quantity, and none is left with a positive line total
    next to a zero unit price: such rows have had their price derived
    from the total (lines 279-281, 313-315). *)
Theorem X10_extracted_items_sound float_of_text sheets :
  Forall (fun it =>
    (0 < quantity it)%Q /\
    (unit_price it == 0 -> ~ 0 < line_total it)%Q)
    (process_sheets float_of_text sheets).1.
Proof.
  induction sheets as [|sh sheets IH] using rev_ind; [by constructor|].
  rewrite process_sheets_snoc.
  destruct (process_rows_adds float_of_text sh (rows sh)
              (process_sheets float_of_text sheets)) as (new & -> & _ & H).
  apply Forall_app. split; [exact IH|].
  eapply Forall_impl; [exact H|]. by intros it [? _].
Qed.

(** X11. The [prices_captured] counter returned by [process_file] is
    the number of extracted line items with a positive unit price: a
    price read and a price derived from the total are each counted
    once, and the counter never exceeds the number of line items. *)
Theorem X11_prices_captured_counts_priced float_of_text sheets :
  (process_sheets float_of_text sheets).2
  = length (List.filter priced (process_sheets float_of_text sheets).1) /\
  (process_sheets float_of_text sheets).2
  <= length (process_sheets float_of_text sheets).1.
Proof.
  assert (Heq : (process_sheets float_of_text sheets).2
    = length (List.filter priced (process_sheets float_of_text sheets).1)).
  { induction sheets as [|sh sheets IH] using rev_ind; [reflexivity|].
    rewrite process_sheets_snoc.
    destruct (process_rows_adds float_of_text sh (rows sh)
                (process_sheets float_of_text sheets))
      as (new & -> & -> & _).
    rewrite filter_priced_app, length_app. lia. }
  split; [exact Heq|]. rewrite Heq. apply List.filter_length_le.
Qed.

(** X12. In a workbook whose invoice sheets have no total column,
    every extracted line total is the quantity times the unit price
    (line 310; the back-fill of lines 313-315 cannot fire). *)
Theorem X12_no_total_column float_of_text sheets :
  Forall (fun sh => has_total sh = false) sheets ->
  Forall (fun it => line_total it = (quantity it * unit_price it)%Q)
    (process_sheets float_of_text sheets).1.
Proof.
  induction sheets as [|sh sheets IH] using rev_ind;
    [intros _; by constructor|].
  intros Hall. apply Forall_app in Hall as [Hall Hsh].
  rewrite Forall_singleton in Hsh.
  rewrite process_sheets_snoc.
  destruct (process_rows_adds float_of_text sh (rows sh)
              (process_sheets float_of_text sheets)) as (new & -> & _ & H).
  apply Forall_app. split; [by apply IH|].
  eapply Forall_impl; [exact H|]. intros it [_ Hit]. by apply Hit.
Qed.

Lemma X12_no_total_column_witness :
  Forall (fun sh => has_total sh = false) [priced_sheet] /\
  Forall (fun it => line_total it = (quantity it * unit_price it)%Q)
    (process_sheets no_text [priced_sheet]).1 /\
  length (process_sheets no_text [priced_sheet]).1 = 2.
Proof.
  assert (H : Forall (fun sh => has_total sh = false) [priced_sheet])
    by (by repeat constructor).
  split; [exact H|]. split; [|reflexivity].
  exact (X12_no_total_column no_text [priced_sheet] H).
Defined.

(** X13. A quantity cell that holds text under a SKU cell that holds a
    number makes the comparison of line 280 raise: the rows of the
    sheet after it are never read, while the line items appended
    before it stay (the [except] of line 336). *)
Theorem X13_text_quantity_drops_rest
    float_of_text sh before row after acc code t :
  stock_code row = Number code ->
  qty row = Text t ->
  process_rows float_of_text sh (before ++ row :: after) acc
  = process_rows float_of_text sh before acc.
Proof.
  intros Hcode Hqty. revert acc.
  induction before as [|r before IH]; intros acc.
  - cbn. unfold process_row. by rewrite Hcode, Hqty.
  - cbn [app process_rows].
    by destruct (process_row float_of_text sh r).
Qed.

Lemma X13_text_quantity_drops_rest_witness :
  exists before row after,
    rows sample_sheet = before ++ row :: after /\
    after <> [] /\
    process_rows no_text sample_sheet (rows sample_sheet) ([], 0)
    = process_rows no_text sample_sheet before ([], 0).
Proof.
  exists (take 4 (rows sample_sheet)),
    {| stock_code := Number 5505; qty := Text "n/a";
       price_val := Blank; total_val := Number 10 |},
    (drop 5 (rows sample_sheet)).
  split; [reflexivity|]. split; [discriminate|].
  exact (X13_text_quantity_drops_rest no_text sample_sheet
           (take 4 (rows sample_sheet))
           {| stock_code := Number 5505; qty := Text "n/a";
              price_val := Blank; total_val := Number 10 |}
           (drop 5 (rows sample_sheet))
           ([], 0) 5505 "n/a" eq_refl eq_refl).
Defined.

Lemma process_rows_acc float_of_text sh rs acc :
  process_rows float_of_text sh rs acc
  = (acc.1 ++ (process_rows float_of_text sh rs ([], 0)).1,
     acc.2 + (process_rows float_of_text sh rs ([], 0)).2).
Proof.
  revert acc. induction rs as [|row rs IH]; intros [items n].
  - cbn. by rewrite app_nil_r, Nat.add_0_r.
  - cbn [process_rows].
    destruct (process_row float_of_text sh row) as [| |it c].
    + apply IH.
    + cbn. by rewrite app_nil_r, Nat.add_0_r.
    + rewrite (IH (_ ++ [it], _)), (IH ([] ++ [it], _)). cbn [fst snd].
      by rewrite <- !app_assoc, Nat.add_assoc.
Qed.

(** X28. Extraction composes over workbooks: the line items of two
    lists of invoice sheets read in one go are the line items of the
    first followed by those of the second, and the counter of captured
    prices is the sum of the two counters, as [main] adds them up file
    by file. *)
Theorem X28_extraction_composes float_of_text (sheets1 sheets2 : list Sheet) :
  process_sheets float_of_text (sheets1 ++ sheets2)
  = ((process_sheets float_of_text sheets1).1
     ++ (process_sheets float_of_text sheets2).1,
     (process_sheets float_of_text sheets1).2
     + (process_sheets float_of_text sheets2).2).
Proof.
  induction sheets2 as [|sh sheets2 IH] using rev_ind.
  - rewrite app_nil_r. cbn. rewrite app_nil_r, Nat.add_0_r.
    by destruct (process_sheets float_of_text sheets1).
  - rewrite app_assoc, !process_sheets_snoc, IH.
    rewrite process_rows_acc.
    rewrite (process_rows_acc _ _ _ (process_sheets float_of_text sheets2)).
    cbn [fst snd]. by rewrite app_assoc, Nat.add_assoc.
Qed.

End ExtractFacts.

(** ** V4 trainer: the scored table of a run *)

Module TrainV4RunFacts.
Import Lib GroupFacts TrainV4 TrainV4Facts TrainV4Samples.

Lemma Qsum_cons (x : Q) (l : list Q) : Qsum (x :: l) = (x + Qsum l)%Q.
Proof. reflexivity. Qed.

Lemma Qsum_Permutation (l l' : list Q) :
  l ≡ₚ l' -> (Qsum l == Qsum l')%Q.
Proof.
  induction 1 as [|x l l' _ IH|x y l|l l' l'' _ IH1 _ IH2];
    rewrite ?Qsum_cons.
  - reflexivity.
  - by rewrite IH.
  - ring.
  - by rewrite IH1.
Qed.

Lemma abs_errors_nonneg (act pred : list Q) :
  (0 <= Qsum (zip_with (fun a p => Qabs (a - p)) act pred))%Q.
Proof.
  revert pred. induction act as [|a act IH]; intros [|p pred];
    cbn [zip_with]; try apply Qle_refl.
  rewrite Qsum_cons, <- (Qplus_0_r 0). apply Qplus_le_compat; [apply Qabs_nonneg|apply IH].
Qed.

Lemma abs_errors_self (act : list Q) :
  (Qsum (zip_with (fun a p => Qabs (a - p)) act act) == 0)%Q.
Proof.
  induction act as [|a act IH]; cbn [zip_with]; [reflexivity|].
  assert (a - a == 0)%Q as E by ring.
  rewrite Qsum_cons, IH, E. reflexivity.
Qed.

Lemma abs_errors_zero_forecast (act : list Q) :
  Forall (fun a => (0 <= a)%Q) act ->
  (Qsum (zip_with (fun a p => Qabs (a - p)) act ((fun _ => 0%Q) <$> act))
   == Qsum act)%Q.
Proof.
  induction 1 as [|a act Ha _ IH]; [reflexivity|].
  rewrite fmap_cons. cbn [zip_with]. rewrite !Qsum_cons, IH.
  assert (a - 0 == a)%Q as E by ring.
  by rewrite E, (Qabs_pos _ Ha).
Qed.

Lemma clip0_nonneg x : (0 <= clip0 x)%Q.
Proof.
  unfold clip0. destruct (Qltb x 0) eqn:E; [apply Qle_refl|].
  apply Qltb_nlt in E. by apply Qnot_lt_le.
Qed.

Lemma calculate_wmape_nonneg (act pred : list Q) :
  (0 <= calculate_wmape act pred)%Q.
Proof.
  unfold calculate_wmape. destruct (Qltb 0 (Qsum act)) eqn:E; [|done].
  apply Qltb_lt in E. apply Qle_shift_div_l; [exact E|].
  rewrite Qmult_0_l. rewrite <- (Qmult_0_r 100).
  apply Qmult_le_l; [done|apply abs_errors_nonneg].
Qed.

(** X14. The metric [calculate_wmape] is never negative; where the
    actuals sum to a positive value it is 0 for a forecast equal to
    the actuals, and 100 for the all-zero forecast of a non-negative
    demand. *)
Theorem X14_wmape_range (act pred : list Q) :
  (0 <= calculate_wmape act pred)%Q /\
  ((0 < Qsum act)%Q -> (calculate_wmape act act == 0)%Q) /\
  ((0 < Qsum act)%Q -> Forall (fun a => (0 <= a)%Q) act ->
   (calculate_wmape act ((fun _ => 0%Q) <$> act) == 100)%Q).
Proof.
  split; [apply calculate_wmape_nonneg|]. unfold calculate_wmape. split.
  - intros Hpos. rewrite (proj2 (Qltb_lt _ _) Hpos), abs_errors_self.
    unfold Qdiv. by rewrite Qmult_0_r, Qmult_0_l.
  - intros Hpos Hall.
    rewrite (proj2 (Qltb_lt _ _) Hpos), (abs_errors_zero_forecast _ Hall).
    field. intros E. rewrite E in Hpos. by apply Qlt_irrefl in Hpos.
Qed.

(** *** A run of part 1 of [main] *)

Section Run.
Context `{Library}.
Variables (w : World) (weekly : list Row).

Lemma test_all_all_notna :
  List.filter notna_core (test_all weekly) = test_all weekly.
Proof. apply filter_true. intros r. apply test_all_notna. Qed.

(** What a run that completes returns: the global model was fitted,
    the table holds the entry of every test row, and each row carries
    the metric of its SKU and the tier read from it. *)
Lemma main_sku_run out :
  main_sku w weekly = Some out ->
  exists global_model,
    let train_valid := List.filter notna_core (train_sku weekly) in
    let entry := prediction_of (train_sku_models w (train_sku weekly))
                   global_model (group_sizes sku (train_all weekly)) in
    train_model w (features <$> train_valid) (weekly_quantity <$> train_valid)
    = Some global_model /\
    prediction <$> out ≡ₚ entry <$> test_all weekly /\
    forall a, a ∈ out ->
      (exists r, r ∈ test_all weekly /\ prediction a = entry r) /\
      wmape a = sku_wmape (prediction <$> out) (p_sku (prediction a)) /\
      confidence a = get_confidence (wmape a) (h1_weeks (prediction a)).
Proof.
  unfold main_sku.
  destruct (train_model w _ _) as [g|] eqn:Hg; [|discriminate].
  intros Hscore. exists g. split; [reflexivity|].
  apply score_rows in Hscore as [Hout Hrows].
  assert (prediction <$> out
          ≡ₚ prediction_of (train_sku_models w (train_sku weekly)) g
               (group_sizes sku (train_all weekly)) <$> test_all weekly)
    as Hperm.
  { rewrite Hout, predict_skus_perm. by rewrite test_all_all_notna. }
  split; [exact Hperm|].
  intros a Ha. destruct (Hrows a Ha) as (_ & Hw & Hc).
  rewrite Hout. split; [|by split].
  assert (prediction a ∈ prediction <$> out) as Hin
    by (apply list_elem_of_fmap; eauto).
  rewrite Hperm in Hin. apply list_elem_of_fmap in Hin as (r & ? & ?). eauto.
Qed.

(** The actuals of one SKU in the scored table are those of its test
    rows. *)
Lemma scored_actuals out s :
  main_sku w weekly = Some out ->
  actual <$> List.filter (fun p => (p_sku p =? s)%Z) (prediction <$> out)
  ≡ₚ weekly_quantity
     <$> List.filter (fun r => (sku r =? s)%Z) (test_all weekly).
Proof.
  intros Hmain. apply main_sku_run in Hmain as (g & _ & Hperm & _).
  rewrite (filter_Permutation_bool _ _ _ Hperm).
  rewrite filter_fmap, <- list_fmap_compose.
  rewrite (filter_ext_in _ (fun r => (sku r =? s)%Z)).
  - match goal with |- ?x ≡ₚ ?y => assert (x = y) as ->; [|reflexivity] end.
    apply list_fmap_ext. intros i r _. cbn. apply prediction_of_actual.
  - intros r _. by rewrite prediction_of_sku.
Qed.

Lemma scored_weeks out a :
  main_sku w weekly = Some out -> a ∈ out ->
  h1_weeks (prediction a)
  = length (List.filter (fun r => (sku r =? p_sku (prediction a))%Z)
              (train_all weekly)).
Proof.
  intros Hmain Ha. apply main_sku_run in Hmain as (g & _ & _ & Hrows).
  destruct (Hrows a Ha) as ((r & _ & ->) & _ & _).
  rewrite prediction_of_h1, prediction_of_sku, group_sizes_lookup.
  f_equal. apply filter_ext_in. intros r' _.
  destruct (Z.eqb_spec (sku r') (sku r)) as [E|E].
  - by apply bool_decide_eq_true_2.
  - by apply bool_decide_eq_false_2.
Qed.

End Run.

(** X15. In the scored table of a run, the metric of every row is
    non-negative; an SKU whose test weeks sum to no demand has the
    metric 999 and the tier Low, whatever its history; and an SKU with
    fewer than 10 training weeks has the tier Low, whatever its
    metric. *)
Theorem X15_low_tier_rows `{Library} (w : World) (weekly : list Row)
    (out : list Scored) (a : Scored) :
  main_sku w weekly = Some out -> a ∈ out ->
  let s := p_sku (prediction a) in
  (0 <= wmape a)%Q /\
  ((Qsum (weekly_quantity
          <$> List.filter (fun r => (sku r =? s)%Z) (test_all weekly)) <= 0)%Q ->
   wmape a = 999%Q /\ confidence a = Low) /\
  (length (List.filter (fun r => (sku r =? s)%Z) (train_all weekly)) < 10 ->
   confidence a = Low).
Proof.
  intros Hmain Ha s.
  pose proof (scored_actuals w weekly out s Hmain) as Hact.
  pose proof (scored_weeks w weekly out a Hmain Ha) as Hweeks.
  apply main_sku_run in Hmain as (g & _ & _ & Hrows).
  destruct (Hrows a Ha) as (_ & Hw & Hc).
  split; [|split].
  - rewrite Hw. apply calculate_wmape_nonneg.
  - intros Hzero.
    assert (wmape a = 999%Q) as Hsentinel.
    { rewrite Hw. unfold sku_wmape, calculate_wmape. fold s.
      assert (Qltb 0 (Qsum (actual <$> List.filter
                (fun p => (p_sku p =? s)%Z) (prediction <$> out))) = false)
        as ->; [|reflexivity].
      apply Qltb_nlt. rewrite (Qsum_Permutation _ _ Hact).
      by apply Qle_not_lt. }
    split; [exact Hsentinel|].
    rewrite Hc, Hsentinel. apply get_confidence_Low. split.
    + intros [Hlt _]. by vm_compute in Hlt.
    + intros [Hlt _]. by vm_compute in Hlt.
  - intros Hshort. rewrite Hc. apply get_confidence_Low.
    fold s in Hweeks. split; intros [_ ?]; lia.
Qed.

Lemma X15_low_tier_rows_witness :
  exists out a,
    @main_sku mean_library 0%Q weekly_no_demand = Some out /\
    a ∈ out /\ wmape a = 999%Q /\ confidence a = Low.
Proof.
  assert (exists out, @main_sku mean_library 0%Q weekly_no_demand = Some out)
    as [out Hout] by (vm_compute; eauto).
  assert (exists a, a ∈ out) as [a Ha].
  { vm_compute in Hout. injection Hout as <-. eexists. left. }
  exists out, a. split; [exact Hout|]. split; [exact Ha|].
  apply (proj1 (proj2 (@X15_low_tier_rows mean_library 0%Q weekly_no_demand
                         out a Hout Ha))).
  vm_compute in Hout. injection Hout as <-.
  apply list_elem_of_singleton in Ha as ->. vm_compute. discriminate.
Defined.

(** X16. An SKU without an entry in the product table (category
    Unknown on all its rows) never gets a dedicated model, however
    many weeks it sold in: every row of it in the scored table is
    tagged with the global model (line 171). *)
Theorem X16_unknown_category_uses_global `{Library} (w : World)
    (weekly : list Row) (s : Z) (out : list Scored) (a : Scored) :
  (forall r, r ∈ weekly -> sku r = s -> category r = "Unknown") ->
  main_sku w weekly = Some out -> a ∈ out -> p_sku (prediction a) = s ->
  model_type (prediction a) = GlobalModel.
Proof.
  intros Hunknown Hmain Ha Hs.
  apply main_sku_run in Hmain as (g & _ & _ & Hrows).
  destruct (Hrows a Ha) as ((r & _ & Hr) & _ & _).
  rewrite Hr, prediction_of_scope, train_sku_models_lookup.
  rewrite Hr, prediction_of_sku in Hs. rewrite Hs.
  unfold fit_sku.
  assert (sku_train (train_sku weekly) s = []) as ->; [|reflexivity].
  rewrite sku_train_fillna.
  destruct (List.filter _ (train_sku weekly)) as [|x xs] eqn:E; [reflexivity|].
  exfalso.
  assert (x ∈ List.filter (fun r => (sku r =? s)%Z) (train_sku weekly)) as Hx
    by (rewrite E; left).
  apply elem_of_filter_bool in Hx as [Hx Hsx]. apply Z.eqb_eq in Hsx.
  unfold train_sku, train_all in Hx.
  rewrite !elem_of_filter_bool in Hx. destruct Hx as [[Hx _] Hcat].
  apply list_elem_of_fmap in Hx as (r0 & -> & Hr0).
  cbn in Hsx, Hcat. rewrite (Hunknown r0 Hr0 Hsx) in Hcat. discriminate.
Qed.

Lemma X16_unknown_category_uses_global_witness :
  exists out a,
    @main_sku mean_library 0%Q weekly_unknown = Some out /\
    a ∈ out /\ p_sku (prediction a) = 7%Z /\
    h1_weeks (prediction a) = 5 /\
    model_type (prediction a) = GlobalModel.
Proof.
  assert (exists out, @main_sku mean_library 0%Q weekly_unknown = Some out)
    as [out Hout] by (vm_compute; eauto).
  assert (exists a, a ∈ out /\ p_sku (prediction a) = 7%Z /\
                    h1_weeks (prediction a) = 5) as (a & Ha & Hs & Hh).
  { vm_compute in Hout. injection Hout as <-.
    eexists. split; [do 2 right; left|]. split; reflexivity. }
  exists out, a. split; [exact Hout|]. split; [exact Ha|].
  split; [exact Hs|]. split; [exact Hh|].
  apply (@X16_unknown_category_uses_global mean_library 0%Q weekly_unknown
           7%Z out a); [|exact Hout|exact Ha|exact Hs].
  intros r Hr Hsku. unfold weekly_unknown, weekly_three_weeks,
    weekly_train_only in Hr.
  repeat (apply elem_of_cons in Hr as [->|Hr]); try discriminate Hsku;
    try reflexivity.
  inversion Hr.
Defined.

(** X17. Where [round(x, 1)] of a non-negative number is not negative,
    no forecast in the scored table of a run is negative: the model
    output is clipped at 0 before it is rounded (lines 224, 233). *)
Theorem X17_forecasts_not_negative `{Library} (w : World)
    (weekly : list Row) (out : list Scored) :
  (forall x, (0 <= x)%Q -> (0 <= round1 x)%Q) ->
  main_sku w weekly = Some out ->
  Forall (fun a => (0 <= predicted (prediction a))%Q) out.
Proof.
  intros Hround Hmain. apply Forall_forall. intros a Ha.
  apply main_sku_run in Hmain as (g & _ & _ & Hrows).
  destruct (Hrows a Ha) as ((r & _ & ->) & _ & _).
  unfold prediction_of.
  destruct (train_sku_models w (train_sku weekly) !! sku r); cbn;
    apply Hround, clip0_nonneg.
Qed.

Lemma X17_forecasts_not_negative_witness :
  exists out,
    @main_sku mean_library 0%Q weekly_three_weeks = Some out /\
    out <> [] /\
    Forall (fun a => (0 <= predicted (prediction a))%Q) out.
Proof.
  assert (exists out, @main_sku mean_library 0%Q weekly_three_weeks = Some out)
    as [out Hout] by (vm_compute; eauto).
  exists out. split; [exact Hout|]. split.
  - vm_compute in Hout. injection Hout as <-. discriminate.
  - apply (@X17_forecasts_not_negative mean_library 0%Q weekly_three_weeks out);
      [|exact Hout].
    intros x Hx. exact Hx.
Defined.

(** X18. Part 1 of [main] raises in exactly two cases: the fit of the
    global model raises, or the table has no row after week 26 (the
    empty result frame has no [sku] column to group by).  A dedicated
    fit that raises never ends the run. *)
Theorem X18_run_raises_iff `{Library} (w : World) (weekly : list Row) :
  let train_valid := List.filter notna_core (train_sku weekly) in
  main_sku w weekly = None <->
  train_model w (features <$> train_valid) (weekly_quantity <$> train_valid)
  = None \/
  test_all weekly = [].
Proof.
  intros train_valid. unfold main_sku. fold train_valid.
  destruct (train_model w _ _) as [g|]; [|tauto].
  set (results := predict_skus _ _ _ _).
  assert (results ≡ₚ prediction_of (train_sku_models w (train_sku weekly)) g
                       (group_sizes sku (train_all weekly)) <$> test_all weekly)
    as Hperm.
  { subst results. rewrite predict_skus_perm.
    by rewrite test_all_all_notna. }
  split.
  - intros Hnone. right. destruct results as [|p ps]; [|discriminate].
    symmetry in Hperm. apply Permutation_nil_r in Hperm.
    by apply fmap_nil_inv in Hperm.
  - intros [?|Hempty]; [discriminate|].
    rewrite Hempty in Hperm. apply Permutation_nil_r in Hperm.
    by rewrite Hperm.
Qed.

End TrainV4RunFacts.

(** ** V3 hybrid trainer: the category gate and the runs that raise *)

Module TrainV3RunFacts.
Import Lib GroupFacts TrainV3Hybrid TrainV3HybridFacts TrainV3Samples.

Section Gate.
Context `{Library}.
Variables (w : World) (weekly : list Row).

(** The body of the loop of lines 92-109. *)
Local Abbreviation step :=
  (fun (acc : option (gmap string (option Model))) cat =>
     match acc with
     | None => None
     | Some category_models =>
         let rows := cat_train weekly cat in
         if length rows <? 50
         then Some (<[cat := None]> category_models)
         else match fit w (features <$> rows) (weekly_quantity <$> rows) with
              | Some model => Some (<[cat := Some model]> category_models)
              | None => None
              end
     end).

Lemma foldl_step_None ks : foldl step None ks = None.
Proof. by induction ks. Qed.

Lemma foldl_step_lookup ks m m' cat :
  foldl step (Some m) ks = Some m' ->
  m' !! cat
  = if decide (cat ∈ ks)
    then Some (if length (cat_train weekly cat) <? 50 then None
               else fit w (features <$> cat_train weekly cat)
                      (weekly_quantity <$> cat_train weekly cat))
    else m !! cat.
Proof.
  revert m. induction ks as [|k ks IH]; intros m; cbn [foldl].
  - intros [= <-]. by rewrite decide_False by apply not_elem_of_nil.
  - destruct (length (cat_train weekly k) <? 50) eqn:Hlen.
    + intros Hfold. rewrite (IH _ Hfold).
      destruct (decide (cat ∈ ks)) as [Hin|Hin].
      * by rewrite decide_True by (by right).
      * destruct (decide (cat = k)) as [->|Hne].
        -- rewrite decide_True by left. by rewrite lookup_insert_eq, Hlen.
        -- rewrite decide_False by (rewrite elem_of_cons; tauto).
           by rewrite lookup_insert_ne.
    + destruct (fit w (features <$> cat_train weekly k) _)
        as [model|] eqn:Hfit; [|by rewrite foldl_step_None].
      intros Hfold. rewrite (IH _ Hfold).
      destruct (decide (cat ∈ ks)) as [Hin|Hin].
      * by rewrite decide_True by (by right).
      * destruct (decide (cat = k)) as [->|Hne].
        -- rewrite decide_True by left.
           by rewrite lookup_insert_eq, Hlen, Hfit.
        -- rewrite decide_False by (rewrite elem_of_cons; tauto).
           by rewrite lookup_insert_ne.
Qed.

Lemma foldl_step_raises ks m :
  foldl step (Some m) ks = None <->
  exists cat, cat ∈ ks /\ 50 <= length (cat_train weekly cat) /\
    fit w (features <$> cat_train weekly cat)
      (weekly_quantity <$> cat_train weekly cat) = None.
Proof.
  revert m. induction ks as [|k ks IH]; intros m; cbn [foldl].
  - split; [discriminate|]. intros (cat & Hin & _). inversion Hin.
  - destruct (length (cat_train weekly k) <? 50) eqn:Hlen.
    + rewrite IH. split; intros (cat & Hin & Hge & Hfit); exists cat.
      * split; [by right|done].
      * split; [|done]. apply elem_of_cons in Hin as [->|Hin]; [|done].
        apply Nat.ltb_lt in Hlen. lia.
    + apply Nat.ltb_ge in Hlen.
      destruct (fit w _ _) as [model|] eqn:Hfit.
      * rewrite IH. split; intros (cat & Hin & Hge & Hfit'); exists cat.
        -- split; [by right|done].
        -- split; [|done]. apply elem_of_cons in Hin as [->|Hin]; [|done].
           congruence.
      * rewrite foldl_step_None. split; [|done]. intros _.
        exists k. split; [left|done].
Qed.

Lemma train_category_models_lookup category_models cat :
  train_category_models w weekly = Some category_models ->
  category_models !! cat
  = if decide (cat ∈ category <$> weekly)
    then Some (if length (cat_train weekly cat) <? 50 then None
               else fit w (features <$> cat_train weekly cat)
                      (weekly_quantity <$> cat_train weekly cat))
    else None.
Proof.
  unfold train_category_models. intros Hfold.
  rewrite (foldl_step_lookup _ _ _ _ Hfold), lookup_empty.
  destruct (decide (cat ∈ unique (category <$> weekly))) as [Hin|Hin].
  - by rewrite decide_True by (by apply elem_of_unique).
  - by rewrite decide_False by (by rewrite <- elem_of_unique).
Qed.

Lemma train_category_models_raises :
  train_category_models w weekly = None <->
  exists cat, cat ∈ category <$> weekly /\
    50 <= length (cat_train weekly cat) /\
    fit w (features <$> cat_train weekly cat)
      (weekly_quantity <$> cat_train weekly cat) = None.
Proof.
  unfold train_category_models. rewrite foldl_step_raises.
  split; intros (cat & Hin & ?); exists cat; (split; [|done]);
    by apply elem_of_unique.
Qed.

End Gate.

(** X19. In the table a run of the V3 hybrid trainer returns, an entry
    is tagged with its category's model exactly when the category has
    at least 50 training rows with all feature cells; its forecast is
    never negative; and it stands for a row after week 26 with all
    feature cells. *)
Theorem X19_hybrid_entries `{Library} (w : World) (weekly : list Row)
    (out : list Prediction) (p : Prediction) :
  main w weekly = Some out -> p ∈ out ->
  (model_type p = CategoryModel <->
   50 <= length (cat_train weekly (p_category p))) /\
  (0 <= predicted p)%Q /\
  exists r, r ∈ weekly /\ (26 < week_num r)%Z /\ notna_features r = true /\
    p_sku p = sku r /\ p_category p = category r /\
    p_year_week p = year_week r /\ actual p = weekly_quantity r.
Proof.
  unfold main. destruct (fit w _ _) as [g|]; [|discriminate].
  destruct (train_category_models w weekly) as [cm|] eqn:Hcm; [|discriminate].
  intros [= <-] Hp. rewrite predict_categories_perm in Hp.
  apply list_elem_of_fmap in Hp as (r & -> & Hr).
  apply elem_of_filter_bool in Hr as [Hr Hna].
  unfold test in Hr. apply elem_of_filter_bool in Hr as [Hr Hwk].
  destruct (entry_key cm g r) as (Hsku & Hyw & Hact).
  split; [|split].
  - rewrite entry_scope, entry_category.
    rewrite (train_category_models_lookup _ _ _ _ Hcm).
    rewrite decide_True by (apply list_elem_of_fmap; eauto).
    destruct (length (cat_train weekly (category r)) <? 50) eqn:Hlen.
    + apply Nat.ltb_lt in Hlen. split; [discriminate|lia].
    + apply Nat.ltb_ge in Hlen.
      destruct (fit w _ _) eqn:Hfit; [tauto|].
      exfalso.
      assert (train_category_models w weekly = None) as Hnone.
      { apply train_category_models_raises. exists (category r).
        split; [apply list_elem_of_fmap; eauto|done]. }
      congruence.
  - unfold prediction_of.
    destruct (cm !! category r) as [[?|]|]; cbn; apply TrainV4RunFacts.clip0_nonneg.
  - exists r. rewrite entry_category.
    split; [exact Hr|]. split; [|done].
    apply negb_true_iff, Z.leb_gt in Hwk. lia.
Qed.

Lemma X19_hybrid_entries_witness :
  exists out p,
    @main mean_library 0%Q weekly_dense = Some out /\
    p ∈ out /\ p_category p = "Beverages" /\ model_type p = CategoryModel.
Proof.
  assert (exists out, @main mean_library 0%Q weekly_dense = Some out)
    as [out Hout] by (vm_compute; eauto).
  assert (exists p, p ∈ out /\ p_category p = "Beverages") as (p & Hp & Hc).
  { vm_compute in Hout. injection Hout as <-.
    eexists. split; [left|reflexivity]. }
  exists out, p. split; [exact Hout|]. split; [exact Hp|].
  split; [exact Hc|].
  apply (proj1 (@X19_hybrid_entries mean_library 0%Q weekly_dense out p
                  Hout Hp)).
  rewrite Hc. vm_compute. lia.
Defined.

(** X20. The V3 hybrid trainer raises before it predicts in exactly
    two cases: the fit of the global model raises, or the fit of a
    category with at least 50 usable training rows raises (neither fit
    is guarded).  A table with no row after week 26 does not make lines
    70-143 raise: the list of predictions is empty. *)
Theorem X20_hybrid_raises_iff `{Library} (w : World) (weekly : list Row) :
  let train_valid := List.filter notna_features (train weekly) in
  (main w weekly = None <->
   fit w (features <$> train_valid) (weekly_quantity <$> train_valid) = None \/
   exists cat, cat ∈ category <$> weekly /\
     50 <= length (cat_train weekly cat) /\
     fit w (features <$> cat_train weekly cat)
       (weekly_quantity <$> cat_train weekly cat) = None) /\
  (forall out, main w weekly = Some out -> test weekly = [] -> out = []).
Proof.
  intros train_valid. unfold main. fold train_valid. split.
  - rewrite <- train_category_models_raises.
    destruct (fit w _ _) as [g|]; [|tauto].
    destruct (train_category_models w weekly) as [cm|]; [|tauto].
    split; [discriminate|]. intros [?|?]; discriminate.
  - destruct (fit w _ _) as [g|]; [|discriminate].
    destruct (train_category_models w weekly) as [cm|]; [|discriminate].
    intros out [= <-] Hempty. by rewrite Hempty.
Qed.

End TrainV3RunFacts.

(** ** V4 trainer, category level: no fallback *)

Module TrainV4CategoryFacts.
Import Lib GroupFacts TrainV4Category.

Section Loop.
Context `{Library}.
Variables (w : World) (cat_weekly : list Row).

Local Abbreviation h1 := (group_sizes category (cat_train cat_weekly)).
Local Abbreviation turn := (predict_category w cat_weekly h1).

(** The two outcomes of a turn that does not raise. *)
Lemma turn_Some cat entries :
  turn cat = Some entries ->
  (entries = [] /\
   ~ (4 <= length (usable (cat_train cat_weekly) cat) /\
      usable (cat_test cat_weekly) cat <> [])) \/
  (4 <= length (usable (cat_train cat_weekly) cat) /\
   usable (cat_test cat_weekly) cat <> [] /\
   exists model,
     entries
     = (fun row =>
          {| p_category := cat;
             p_year_week := year_week row;
             actual := weekly_quantity row;
             predicted := round1 (clip0 (predict model (features row)));
             h1_weeks := default 0 (h1 !! cat) |})
       <$> usable (cat_test cat_weekly) cat).
Proof.
  unfold predict_category.
  destruct (length (usable (cat_train cat_weekly) cat) <? 4) eqn:Htr.
  { intros [= <-]. left. split; [done|].
    apply Nat.ltb_lt in Htr. intros [? _]. lia. }
  apply Nat.ltb_ge in Htr.
  destruct (length (usable (cat_test cat_weekly) cat) =? 0) eqn:Hte.
  { intros [= <-]. left. split; [done|].
    apply Nat.eqb_eq, nil_length_inv in Hte. intros [_ ?]. done. }
  apply Nat.eqb_neq in Hte. cbn [orb].
  destruct (TrainV4.train_model w _ _) as [model|]; [|discriminate].
  intros [= <-]. right. split; [exact Htr|]. split; [|eauto].
  intros E. by rewrite E in Hte.
Qed.

Lemma turn_None cat :
  turn cat = None <->
  4 <= length (usable (cat_train cat_weekly) cat) /\
  usable (cat_test cat_weekly) cat <> [] /\
  TrainV4.train_model w (features <$> usable (cat_train cat_weekly) cat)
    (weekly_quantity <$> usable (cat_train cat_weekly) cat) = None.
Proof.
  unfold predict_category.
  destruct (length (usable (cat_train cat_weekly) cat) <? 4) eqn:Htr.
  { apply Nat.ltb_lt in Htr. split; [discriminate|]. intros [? _]. lia. }
  apply Nat.ltb_ge in Htr.
  destruct (length (usable (cat_test cat_weekly) cat) =? 0) eqn:Hte.
  { apply Nat.eqb_eq, nil_length_inv in Hte.
    split; [discriminate|]. intros (_ & ? & _). done. }
  apply Nat.eqb_neq in Hte. cbn [orb].
  assert (usable (cat_test cat_weekly) cat <> []) as Hne
    by (intros E; by rewrite E in Hte).
  destruct (TrainV4.train_model w _ _) as [model|].
  - split; [discriminate|]. intros (_ & _ & ?). discriminate.
  - tauto.
Qed.

Lemma elem_of_turns {K B} (f : K -> option (list B)) ks turns (p : B) :
  mapM f ks = Some turns ->
  p ∈ concat turns <-> exists k y, k ∈ ks /\ f k = Some y /\ p ∈ y.
Proof.
  intros Hm. apply mapM_Some in Hm.
  induction Hm as [|k y ks turns Hk _ IH]; cbn [concat].
  - split; [intros Hp; inversion Hp|]. intros (k & y & Hin & _). inversion Hin.
  - rewrite elem_of_app, IH. split.
    + intros [Hp|(k' & y' & Hin & Hf & Hp)].
      * exists k, y. split; [left|done].
      * exists k', y'. split; [by right|done].
    + intros (k' & y' & Hin & Hf & Hp).
      apply elem_of_cons in Hin as [->|Hin].
      * left. congruence.
      * right. eauto.
Qed.

Lemma cat_results_None :
  cat_results w cat_weekly = None <->
  exists cat, cat ∈ category <$> cat_weekly /\ turn cat = None.
Proof.
  unfold cat_results.
  destruct (mapM _ _) as [turns|] eqn:Hm.
  - split; [discriminate|]. intros (cat & Hin & Hnone).
    assert (is_Some (mapM turn (unique (category <$> cat_weekly)))) as Hall
      by (rewrite Hm; eauto).
    apply mapM_is_Some in Hall. rewrite Forall_forall in Hall.
    apply elem_of_unique in Hin. specialize (Hall cat Hin). cbn in Hall.
    rewrite Hnone in Hall. by destruct Hall.
  - split; [|done]. intros _. apply mapM_None in Hm.
    apply Exists_exists in Hm as (cat & Hin & Hnone).
    exists cat. split; [by apply elem_of_unique|done].
Qed.

(** The entries of a loop that ends. *)
Lemma elem_of_cat_results results p :
  cat_results w cat_weekly = Some results ->
  p ∈ results <->
  4 <= length (usable (cat_train cat_weekly) (p_category p)) /\
  h1_weeks p = default 0 (h1 !! p_category p) /\
  exists r, r ∈ usable (cat_test cat_weekly) (p_category p) /\
    p_year_week p = year_week r /\ actual p = weekly_quantity r /\
    exists model, predicted p = round1 (clip0 (predict model (features r))) /\
      turn (p_category p)
      = Some ((fun row =>
                 {| p_category := p_category p;
                    p_year_week := year_week row;
                    actual := weekly_quantity row;
                    predicted := round1 (clip0 (predict model (features row)));
                    h1_weeks := default 0 (h1 !! p_category p) |})
              <$> usable (cat_test cat_weekly) (p_category p)).
Proof.
  unfold cat_results. destruct (mapM _ _) as [turns|] eqn:Hm; [|discriminate].
  intros [= <-]. rewrite (elem_of_turns _ _ _ _ Hm). split.
  - intros (cat & y & Hin & Hturn & Hp).
    destruct (turn_Some _ _ Hturn) as [[-> _]|(Htr & Hte & model & ->)];
      [inversion Hp|].
    apply list_elem_of_fmap in Hp as (r & -> & Hr). cbn.
    split; [exact Htr|]. split; [reflexivity|].
    exists r. split; [exact Hr|]. split; [reflexivity|].
    split; [reflexivity|]. exists model. split; [reflexivity|exact Hturn].
  - intros (Htr & Hh & r & Hr & Hyw & Hact & model & Hpred & Hturn).
    eexists (p_category p), _. split; [|split; [exact Hturn|]].
    + apply elem_of_unique. unfold usable in Hr.
      rewrite !elem_of_filter_bool in Hr. destruct Hr as [[Hr Hcat] _].
      apply String.eqb_eq in Hcat. rewrite <- Hcat.
      unfold cat_test in Hr. apply elem_of_filter_bool in Hr as [Hr _].
      apply list_elem_of_fmap. eauto.
    + apply list_elem_of_fmap. exists r. split; [|exact Hr].
      destruct p; cbn in *. congruence.
Qed.

End Loop.

Lemma score_entries results out :
  score results = Some out ->
  prediction <$> out = results /\
  forall a, a ∈ out ->
    wmape a = cat_wmape results (p_category (prediction a)) /\
    confidence a
    = TrainV4.get_confidence (wmape a) (h1_weeks (prediction a)).
Proof.
  unfold score. destruct results as [|p ps]; [discriminate|].
  remember (p :: ps) as results. intros [= <-]. split.
  - rewrite <- list_fmap_compose. apply list_fmap_id.
  - intros a Ha. apply list_elem_of_fmap in Ha as (q & -> & Hq). by simpl.
Qed.

Lemma usable_rows frame cat r :
  r ∈ usable frame cat <->
  r ∈ frame /\ category r = cat /\ notna_core r = true.
Proof.
  unfold usable. rewrite !elem_of_filter_bool, String.eqb_eq. tauto.
Qed.

Lemma usable_length_le frame cat :
  length (usable frame cat)
  <= length (List.filter (fun r => bool_decide (category r = cat)) frame).
Proof.
  unfold usable. rewrite filter_filter. apply filter_length_mono.
  intros r Hr. apply andb_true_iff in Hr as [Hr _].
  apply String.eqb_eq in Hr. by apply bool_decide_eq_true_2.
Qed.

(** X21. At the category level there is no fallback model.  In the
    scored table of a run, a category has a row for a week exactly
    when it has at least 4 training rows with their lag cells and a
    row after week 26 with its lag cells in that week: the weeks of a
    category below the gate get no forecast at all.  Every row carries
    at least 4 training weeks and the tier read from its metric. *)
Theorem X21_category_rows `{Library} (w : World) (cat_weekly : list Row)
    (out : list Scored) :
  main_category w cat_weekly = Some out ->
  (forall cat yw,
     (exists a, a ∈ out /\ p_category (prediction a) = cat /\
                p_year_week (prediction a) = yw) <->
     4 <= length (usable (cat_train cat_weekly) cat) /\
     exists r, r ∈ cat_weekly /\ (26 < week_num r)%Z /\ category r = cat /\
               notna_core r = true /\ year_week r = yw) /\
  (forall a, a ∈ out ->
     4 <= h1_weeks (prediction a) /\
     confidence a
     = TrainV4.get_confidence (wmape a) (h1_weeks (prediction a))).
Proof.
  unfold main_category.
  destruct (cat_results w cat_weekly) as [results|] eqn:Hres; [|discriminate].
  cbn. intros Hscore. apply score_entries in Hscore as [Hout Hrows].
  assert (forall r cat, r ∈ usable (cat_test cat_weekly) cat <->
            r ∈ cat_weekly /\ (26 < week_num r)%Z /\ category r = cat /\
            notna_core r = true) as Htest.
  { intros r cat. rewrite usable_rows. unfold cat_test.
    rewrite elem_of_filter_bool, negb_true_iff, Z.leb_gt.
    unfold TrainV4.H1_END_WEEK. tauto. }
  split.
  - intros cat yw. split.
    + intros (a & Ha & <- & <-).
      assert (prediction a ∈ results) as Hp
        by (rewrite <- Hout; apply list_elem_of_fmap; eauto).
      apply (elem_of_cat_results _ _ _ _ Hres) in Hp
        as (Htr & _ & r & Hr & Hyw & _).
      split; [exact Htr|]. exists r. apply Htest in Hr. rewrite Hyw. tauto.
    + intros (Htr & r & Hr & Hwk & Hcat & Hna & Hyw).
      assert (r ∈ usable (cat_test cat_weekly) cat) as Hin
        by (apply Htest; tauto).
      destruct (predict_category w cat_weekly
                  (group_sizes category (cat_train cat_weekly)) cat)
        as [entries|] eqn:Hturn.
      2:{ exfalso. assert (cat_results w cat_weekly = None) as Hnone.
          { apply cat_results_None. exists cat. split; [|exact Hturn].
            rewrite <- Hcat. apply list_elem_of_fmap. eauto. }
          congruence. }
      destruct (turn_Some _ _ _ _ Hturn) as [[_ Hno]|(_ & _ & model & ->)].
      { exfalso. apply Hno. split; [exact Htr|].
        intros E. rewrite E in Hin. inversion Hin. }
      set (p := {| p_category := cat; p_year_week := year_week r;
                   actual := weekly_quantity r;
                   predicted := round1 (clip0 (predict model (features r)));
                   h1_weeks := default 0
                     (group_sizes category (cat_train cat_weekly) !! cat) |}).
      assert (p ∈ results) as Hp.
      { apply (elem_of_cat_results _ _ _ _ Hres). subst p. cbn.
        split; [exact Htr|]. split; [reflexivity|]. exists r.
        split; [exact Hin|]. split; [reflexivity|]. split; [reflexivity|].
        exists model. split; [reflexivity|exact Hturn]. }
      rewrite <- Hout in Hp. apply list_elem_of_fmap in Hp as (a & Ha & Hin').
      exists a. split; [exact Hin'|]. rewrite <- Ha. subst p. cbn. done.
  - intros a Ha. destruct (Hrows a Ha) as [_ Hc]. split; [|exact Hc].
    assert (prediction a ∈ results) as Hp
      by (rewrite <- Hout; apply list_elem_of_fmap; eauto).
    apply (elem_of_cat_results _ _ _ _ Hres) in Hp as (Htr & -> & _).
    rewrite group_sizes_lookup.
    pose proof (usable_length_le (cat_train cat_weekly)
                  (p_category (prediction a))). lia.
Qed.

Lemma X21_category_rows_witness :
  exists out,
    @main_category mean_library 0%Q cat_weekly_two = Some out /\
    (exists a, a ∈ out /\ p_category (prediction a) = "Beverages" /\
               p_year_week (prediction a) = "2025-W30") /\
    ~ (exists a, a ∈ out /\ p_category (prediction a) = "Snacks" /\
                 p_year_week (prediction a) = "2025-W30").
Proof.
  assert (exists out, @main_category mean_library 0%Q cat_weekly_two = Some out)
    as [out Hout] by (vm_compute; eauto).
  exists out. split; [exact Hout|].
  pose proof (proj1 (@X21_category_rows mean_library 0%Q cat_weekly_two
                       out Hout)) as Hrows.
  split.
  - apply Hrows. split; [vm_compute; lia|].
    exists (cat_row "Beverages" "2025-W30" 30 45 (Some 43%Q)).
    split; [|by vm_compute]. do 5 right. left.
  - intros Ha. apply Hrows in Ha as [Hgate _]. vm_compute in Hgate. lia.
Defined.

(** X22. Part 2 of [main] raises from line 288 on in exactly two
    cases: a category passes the gate (at least 4 usable training rows
    and a usable test row) and its fit raises, or no category passes
    the gate (the empty result frame has no [category] column to group
    by). *)
Theorem X22_category_run_raises_iff `{Library} (w : World)
    (cat_weekly : list Row) :
  main_category w cat_weekly = None <->
  (exists cat, cat ∈ category <$> cat_weekly /\
     4 <= length (usable (cat_train cat_weekly) cat) /\
     usable (cat_test cat_weekly) cat <> [] /\
     TrainV4.train_model w (features <$> usable (cat_train cat_weekly) cat)
       (weekly_quantity <$> usable (cat_train cat_weekly) cat) = None) \/
  (forall cat,
     ~ (4 <= length (usable (cat_train cat_weekly) cat) /\
        usable (cat_test cat_weekly) cat <> [])).
Proof.
  unfold main_category.
  destruct (cat_results w cat_weekly) as [results|] eqn:Hres; cbn.
  - assert (~ exists cat, cat ∈ category <$> cat_weekly /\
              predict_category w cat_weekly
                (group_sizes category (cat_train cat_weekly)) cat = None)
      as Hok by (rewrite <- cat_results_None; congruence).
    split.
    + intros Hnone. right. intros cat [Htr Hte].
      destruct results as [|p ps]; [|discriminate]. clear Hnone.
      destruct (usable (cat_test cat_weekly) cat) as [|r rs] eqn:E; [done|].
      assert (r ∈ usable (cat_test cat_weekly) cat) as Hr by (rewrite E; left).
      assert (cat ∈ category <$> cat_weekly) as Hcat.
      { apply usable_rows in Hr as (Hr & <- & _). unfold cat_test in Hr.
        apply elem_of_filter_bool in Hr as [Hr _].
        apply list_elem_of_fmap. eauto. }
      destruct (predict_category w cat_weekly
                  (group_sizes category (cat_train cat_weekly)) cat)
        as [entries|] eqn:Hturn; [|apply Hok; eauto].
      destruct (turn_Some _ _ _ _ Hturn) as [[_ Hno]|(_ & _ & model & ->)].
      { apply Hno. split; [exact Htr|]. by rewrite E. }
      set (p := {| p_category := cat; p_year_week := year_week r;
                   actual := weekly_quantity r;
                   predicted := round1 (clip0 (predict model (features r)));
                   h1_weeks := default 0
                     (group_sizes category (cat_train cat_weekly) !! cat) |}).
      assert (p ∈ []) as Hp; [|inversion Hp].
      apply (elem_of_cat_results _ _ _ _ Hres). subst p. cbn.
      split; [exact Htr|]. split; [reflexivity|]. exists r.
      split; [exact Hr|]. split; [reflexivity|]. split; [reflexivity|].
      exists model. split; [reflexivity|exact Hturn].
    + intros [(cat & Hin & Hgate)|Hnone].
      * exfalso. apply Hok. exists cat. split; [exact Hin|].
        by apply turn_None.
      * destruct results as [|p ps]; [reflexivity|]. exfalso.
        assert (p ∈ p :: ps) as Hp by left.
        apply (elem_of_cat_results _ _ _ _ Hres) in Hp
          as (Htr & _ & r & Hr & _).
        apply (Hnone (p_category p)). split; [exact Htr|].
        intros E. rewrite E in Hr. inversion Hr.
  - split; [|done]. intros _. left.
    apply cat_results_None in Hres as (cat & Hin & Hnone).
    exists cat. split; [exact Hin|]. by apply turn_None.
Qed.

End TrainV4CategoryFacts.

(** ** Week completeness: the labels are relative to the median week *)

Module CompletenessFacts.
Import Lib GroupFacts Completeness.

(** Every group [groupby(...).size()] reports has a row. *)
Lemma group_sizes_positive `{Countable K} {A} (key : A -> K) (df : list A) k c :
  group_sizes key df !! k = Some c -> 1 <= c.
Proof.
  unfold group_sizes.
  assert (forall m : gmap K nat,
            (forall k c, m !! k = Some c -> 1 <= c) ->
            forall k c,
              foldl (fun m r => <[key r := S (default 0 (m !! key r))]> m) m df
                !! k = Some c -> 1 <= c) as Hgen.
  { induction df as [|r df IH]; intros m Hm; [exact Hm|].
    cbn [foldl]. apply IH. intros k' c'.
    destruct (decide (k' = key r)) as [->|Hne].
    - rewrite lookup_insert_eq. intros [= <-]. lia.
    - rewrite lookup_insert_ne by done. apply Hm. }
  apply Hgen. intros k' c'. by rewrite lookup_empty.
Qed.

(** The median is a value of the list or the mean of two. *)
Lemma median_from (P : Q -> Prop) (xs : list nat) m :
  (forall x, x ∈ xs -> P (inject_Z (Z.of_nat x))) ->
  (forall a b, P a -> P b -> P ((a + b) / 2)%Q) ->
  median xs = Some m -> P m.
Proof.
  intros Hx Hmid. unfold median.
  assert (forall i x, merge_sort le xs !! i = Some x ->
            P (inject_Z (Z.of_nat x))) as Hs.
  { intros i x Hi. apply Hx. rewrite <- (merge_sort_Permutation le xs).
    by eapply list_elem_of_lookup_2. }
  destruct (length (merge_sort le xs) =? 0); [discriminate|].
  destruct (Nat.even _).
  - intros Hm. apply bind_Some in Hm as (a & Ha & Hm).
    apply bind_Some in Hm as (b & Hb & [= <-]).
    apply Hmid; by eapply Hs.
  - intros Hm. apply bind_Some in Hm as (a & Ha & [= <-]). by eapply Hs.
Qed.

Lemma median_lower (xs : list nat) (lo : nat) m :
  (forall x, x ∈ xs -> lo <= x) ->
  median xs = Some m -> (inject_Z (Z.of_nat lo) <= m)%Q.
Proof.
  intros Hlo. apply (median_from (fun q => inject_Z (Z.of_nat lo) <= q)%Q).
  - intros x Hx. rewrite <- Zle_Qle. apply Hlo in Hx. lia.
  - intros a b Ha Hb. apply Qle_shift_div_l; [done|].
    assert (inject_Z (Z.of_nat lo) * 2
            == inject_Z (Z.of_nat lo) + inject_Z (Z.of_nat lo))%Q as ->
      by ring.
    by apply Qplus_le_compat.
Qed.

Lemma median_upper (xs : list nat) (hi : nat) m :
  (forall x, x ∈ xs -> x <= hi) ->
  median xs = Some m -> (m <= inject_Z (Z.of_nat hi))%Q.
Proof.
  intros Hhi. apply (median_from (fun q => q <= inject_Z (Z.of_nat hi))%Q).
  - intros x Hx. rewrite <- Zle_Qle. apply Hhi in Hx. lia.
  - intros a b Ha Hb. apply Qle_shift_div_r; [done|].
    assert (inject_Z (Z.of_nat hi) * 2
            == inject_Z (Z.of_nat hi) + inject_Z (Z.of_nat hi))%Q as ->
      by ring.
    by apply Qplus_le_compat.
Qed.

Lemma median_is_Some (xs : list nat) : xs <> [] -> is_Some (median xs).
Proof.
  intros Hne. unfold median.
  assert (length (merge_sort le xs) = length xs) as Hlen
    by (by rewrite (merge_sort_Permutation le xs)).
  assert (0 < length xs) as Hpos by (destruct xs; [done|cbn; lia]).
  destruct (length (merge_sort le xs) =? 0) eqn:E;
    [apply Nat.eqb_eq in E; lia|].
  assert (length (merge_sort le xs) / 2 < length (merge_sort le xs)) as Hhalf
    by (apply Nat.div_lt; lia).
  destruct (lookup_lt_is_Some_2 (merge_sort le xs)
              (length (merge_sort le xs) / 2) Hhalf) as [b Hb].
  destruct (Nat.even _).
  - destruct (lookup_lt_is_Some_2 (merge_sort le xs)
                (length (merge_sort le xs) / 2 - 1)) as [a Ha]; [lia|].
    rewrite Ha, Hb. cbn. eauto.
  - rewrite Hb. cbn. eauto.
Qed.

Section Column.
Variable year_week : list (option string).

Lemma count_of_counts w c :
  week_counts year_week !! w = Some c -> count_of year_week (Some w) = c.
Proof. unfold count_of. cbn. by intros ->. Qed.

Lemma count_of_present w :
  Some w ∈ year_week -> 1 <= count_of year_week (Some w).
Proof.
  intros Hin. unfold count_of, week_counts. cbn.
  rewrite group_sizes_lookup.
  assert (w ∈ List.filter (fun r => bool_decide (id r = w))
                (omap id year_week)) as Hw.
  { apply elem_of_filter_bool. split; [|by apply bool_decide_eq_true_2].
    apply list_elem_of_omap. exists (Some w). by split. }
  destruct (List.filter _ _); [inversion Hw|cbn; lia].
Qed.

Lemma counted_week_present w c :
  week_counts year_week !! w = Some c -> Some w ∈ year_week.
Proof.
  intros Hc. unfold week_counts in Hc.
  assert (default 0 (group_sizes id (omap id year_week) !! w) = c) as Hd
    by (by rewrite Hc).
  rewrite group_sizes_lookup in Hd. apply group_sizes_positive in Hc.
  destruct (List.filter _ _) as [|x l] eqn:E; [cbn in Hd; lia|].
  assert (x ∈ List.filter (fun r => bool_decide (id r = w))
                (omap id year_week)) as Hx by (rewrite E; left).
  apply elem_of_filter_bool in Hx as [Hx Hxw].
  apply bool_decide_eq_true_1 in Hxw. cbn in Hxw. subst x.
  apply list_elem_of_omap in Hx as ([w'|] & Hx & Hid); [|discriminate].
  cbn in Hid. congruence.
Qed.

(** The median week count, when there is one, is at least 1. *)
Lemma median_count_positive m :
  median_count year_week = Some m -> (1 <= m)%Q.
Proof.
  intros Hm. apply (median_lower _ 1) in Hm; [exact Hm|].
  intros c Hc. apply list_elem_of_fmap in Hc as ([w c'] & -> & Hc).
  apply elem_of_map_to_list in Hc. by eapply group_sizes_positive.
Qed.

(** It is at most any bound of the counts of the rows. *)
Lemma median_count_upper m (hi : nat) :
  median_count year_week = Some m ->
  (forall u, u ∈ year_week -> count_of year_week u <= hi) ->
  (m <= inject_Z (Z.of_nat hi))%Q.
Proof.
  intros Hm Hhi. apply (median_upper _ hi) in Hm; [exact Hm|].
  intros c Hc. apply list_elem_of_fmap in Hc as ([w c'] & -> & Hc).
  apply elem_of_map_to_list in Hc. cbn.
  rewrite <- (count_of_counts _ _ Hc). apply Hhi.
  by eapply counted_week_present.
Qed.

Lemma median_count_is_Some w :
  Some w ∈ year_week -> is_Some (median_count year_week).
Proof.
  intros Hin. apply median_is_Some.
  pose proof (count_of_present w Hin) as Hc. unfold count_of in Hc.
  cbn in Hc. destruct (week_counts year_week !! w) as [c|] eqn:E;
    [|cbn in Hc; lia].
  apply elem_of_map_to_list in E.
  intros Hnil. apply fmap_nil_inv in Hnil. rewrite Hnil in E. inversion E.
Qed.

Lemma get_completeness_complete u :
  get_completeness year_week u = complete <->
  exists m, median_count year_week = Some m /\
    (m * (8 # 10) <= inject_Z (Z.of_nat (count_of year_week u)))%Q.
Proof.
  unfold get_completeness.
  destruct (median_count year_week) as [m|].
  - destruct (Qle_bool (m * (8 # 10)) _) eqn:E8.
    + apply Qle_bool_iff in E8. split; [eauto|done].
    + split; [by destruct (Qle_bool (m * (3 # 10)) _)|].
      intros (? & [= <-] & Hle).
      apply Qle_bool_iff in Hle. congruence.
  - split; [done|]. intros (? & ? & _). done.
Qed.

Lemma get_completeness_minimal u :
  get_completeness year_week u = minimal <->
  forall m, median_count year_week = Some m ->
    ~ (m * (3 # 10) <= inject_Z (Z.of_nat (count_of year_week u)))%Q.
Proof.
  unfold get_completeness.
  destruct (median_count year_week) as [m|] eqn:Hmed; [|done].
  destruct (Qle_bool (m * (8 # 10)) _) eqn:E8.
  - split; [done|]. intros Hno. exfalso. apply (Hno m eq_refl).
    apply Qle_bool_iff in E8. eapply Qle_trans; [|exact E8].
    assert (0 <= m)%Q as Hm.
    { apply Qle_trans with (y := 1%Q); [done|].
      by apply median_count_positive. }
    rewrite (Qmult_comm m (3 # 10)), (Qmult_comm m (8 # 10)).
    apply Qmult_le_compat_r; [done|exact Hm].
  - destruct (Qle_bool (m * (3 # 10)) _) eqn:E3.
    + split; [done|]. intros Hno. exfalso. apply (Hno m eq_refl).
      by apply Qle_bool_iff.
    + split; [|done]. intros _ m' [= <-] Hle.
      apply Qle_bool_iff in Hle. congruence.
Qed.

End Column.

(** X23. The completeness label of a week is relative to the median
    week of the same extraction.  A week no other week of the table
    has more rows than is always labelled complete, however few rows
    it has; a week with at least as many rows as a complete week is
    complete, and one with at most as many rows as a minimal week is
    minimal; rows without a week are minimal. *)
Theorem X23_completeness_labels (year_week : list (option string)) :
  (forall w,
     Some w ∈ year_week ->
     (forall u, u ∈ year_week ->
        count_of year_week u <= count_of year_week (Some w)) ->
     get_completeness year_week (Some w) = complete) /\
  (forall u v,
     count_of year_week u <= count_of year_week v ->
     (get_completeness year_week u = complete ->
      get_completeness year_week v = complete) /\
     (get_completeness year_week v = minimal ->
      get_completeness year_week u = minimal)) /\
  get_completeness year_week None = minimal.
Proof.
  split; [|split].
  - intros w Hin Hmax. apply get_completeness_complete.
    destruct (median_count_is_Some _ w Hin) as [m Hm].
    exists m. split; [exact Hm|].
    pose proof (median_count_positive _ m Hm) as Hpos.
    pose proof (median_count_upper _ m _ Hm Hmax) as Hle.
    eapply Qle_trans; [|exact Hle].
    rewrite <- (Qmult_1_r m) at 2. rewrite !(Qmult_comm m).
    apply Qmult_le_compat_r; [done|].
    apply Qle_trans with (y := 1%Q); done.
  - intros u v Huv.
    assert (inject_Z (Z.of_nat (count_of year_week u))
            <= inject_Z (Z.of_nat (count_of year_week v)))%Q as Hq
      by (rewrite <- Zle_Qle; lia).
    split.
    + rewrite !get_completeness_complete. intros (m & Hm & Hle).
      exists m. split; [exact Hm|]. by eapply Qle_trans.
    + rewrite !get_completeness_minimal. intros Hv m Hm Hle.
      apply (Hv m Hm). by eapply Qle_trans.
  - apply get_completeness_minimal. intros m Hm Hle.
    apply median_count_positive in Hm. cbn in Hle.
    assert (m * (3 # 10) <= 0)%Q as Hle' by exact Hle.
    assert (0 < m * (3 # 10))%Q as Hlt.
    { rewrite <- (Qmult_0_l (3 # 10)). apply Qmult_lt_compat_r; [done|].
      apply Qlt_le_trans with (y := 1%Q); done. }
    exact (Qlt_not_le _ _ Hlt Hle').
Qed.

End CompletenessFacts.

(** ** Customer classes on extracted line items *)

Module CustomersFacts.
Import Lib GroupFacts Extract ExtractFacts Customers.

Lemma total_orders_positive (cust_data : list LineItem) :
  cust_data <> [] -> 1 <= total_orders cust_data.
Proof.
  unfold total_orders. destruct cust_data as [|it l]; [done|].
  intros _. rewrite fmap_cons. cbn [unique length]. lia.
Qed.

Lemma per_order_positive (total : Q) (orders : nat) :
  (0 < total)%Q -> 1 <= orders -> (0 < per_order total orders)%Q.
Proof.
  intros Ht Ho. unfold per_order.
  destruct (0 <? orders) eqn:E; [|apply Nat.ltb_ge in E; lia].
  apply Qdiv_pos; [exact Ht|]. rewrite <- (Zlt_Qlt 0). lia.
Qed.

Lemma per_order_le (total bound : Q) (orders : nat) :
  1 <= orders ->
  (per_order total orders <= bound)%Q <->
  (total <= bound * inject_Z (Z.of_nat orders))%Q.
Proof.
  intros Ho. unfold per_order.
  destruct (0 <? orders) eqn:E; [|apply Nat.ltb_ge in E; lia].
  assert (0 < inject_Z (Z.of_nat orders))%Q as Hpos
    by (rewrite <- (Zlt_Qlt 0); lia).
  split.
  - intros Hle.
    assert (total == total / inject_Z (Z.of_nat orders)
                     * inject_Z (Z.of_nat orders))%Q as ->.
    { field. intros E0. rewrite E0 in Hpos. by apply Qlt_irrefl in Hpos. }
    apply Qmult_le_compat_r; [exact Hle|by apply Qlt_le_weak].
  - intros Hle. by apply Qle_shift_div_r.
Qed.

(** X24. For a customer with at least one extracted line item the
    guards against a zero order count are never taken: the customer
    has at least one order, a positive number of units and a positive
    number of units per order.  The two classifications agree on bulk
    customers: a Bulk Buyer is always in the segment Bulk/Wholesale.
    A customer is a Small Retailer exactly when its units are at most
    100000 and at most 500 per order, and an Occasional Buyer has
    fewer than 10 orders. *)
Theorem X24_customer_classes (float_of_text : string -> option Q)
    (sheets : list Sheet) (cust_data : list LineItem) :
  cust_data <> [] ->
  (forall it, it ∈ cust_data ->
     it ∈ (process_sheets float_of_text sheets).1) ->
  1 <= total_orders cust_data /\
  (0 < total_units cust_data)%Q /\
  (0 < per_order (total_units cust_data) (total_orders cust_data))%Q /\
  (buyer_type cust_data = Bulk_Buyer ->
   segment_customer cust_data = Bulk_Wholesale) /\
  (segment_customer cust_data = Small_Retailer <->
   (total_units cust_data <= 100000)%Q /\
   (total_units cust_data
    <= 500 * inject_Z (Z.of_nat (total_orders cust_data)))%Q) /\
  (buyer_type cust_data = Occasional_Buyer -> total_orders cust_data < 10).
Proof.
  intros Hne Hsub.
  pose proof (total_orders_positive _ Hne) as Horders.
  assert (0 < total_units cust_data)%Q as Hunits.
  { unfold total_units. apply Qsum_pos.
    - destruct cust_data; [done|discriminate].
    - apply Forall_fmap, Forall_forall. intros it Hit. cbn.
      pose proof (process_sheets_quantities float_of_text sheets) as Hall.
      rewrite Forall_forall in Hall. by apply Hall, Hsub. }
  split; [exact Horders|]. split; [exact Hunits|].
  split; [by apply per_order_positive|].
  split; [|split].
  - unfold buyer_type, segment_customer.
    destruct (Qltb 100000 (total_units cust_data)); [done|].
    by repeat case_match.
  - rewrite <- (per_order_le _ 500 _ Horders).
    unfold segment_customer.
    destruct (Qltb 100000 (total_units cust_data)) eqn:E1; cbn [orb].
    { apply Qltb_lt in E1. split; [done|]. intros [Hle _].
      exfalso. exact (Qlt_not_le _ _ E1 Hle). }
    apply Qltb_nlt, Qnot_lt_le in E1.
    set (avg := per_order _ _).
    destruct (Qltb 10000 avg) eqn:E2.
    { apply Qltb_lt in E2. split; [done|]. intros [_ Hle]. exfalso.
      apply (Qlt_not_le _ _ E2). by apply Qle_trans with (y := 500%Q). }
    destruct (Qltb 2000 avg) eqn:E3.
    { apply Qltb_lt in E3. split; [done|]. intros [_ Hle]. exfalso.
      apply (Qlt_not_le _ _ E3). by apply Qle_trans with (y := 500%Q). }
    destruct (Qltb 500 avg) eqn:E4.
    { apply Qltb_lt in E4. split; [done|]. intros [_ Hle]. exfalso.
      exact (Qlt_not_le _ _ E4 Hle). }
    apply Qltb_nlt, Qnot_lt_le in E4. tauto.
  - unfold buyer_type. repeat case_match; try done.
    intros _. apply Nat.leb_gt. done.
Qed.

Lemma X24_customer_classes_witness :
  1 <= total_orders (process_sheets no_text [sample_sheet]).1 /\
  segment_customer (process_sheets no_text [sample_sheet]).1
  = Small_Retailer.
Proof.
  destruct (X24_customer_classes no_text [sample_sheet]
              (process_sheets no_text [sample_sheet]).1)
    as (Horders & _ & _ & _ & Hsmall & _).
  - vm_compute. discriminate.
  - intros it Hit. exact Hit.
  - split; [exact Horders|]. apply Hsmall. split; by vm_compute.
Defined.

End CustomersFacts.

(** ** First trainer, SKU level: the bookkeeping of the loop *)

Module TrainAllSkuFacts.
Import Lib GroupFacts TrainAllSku.

Lemma NoDup_eligible_skus weekly : NoDup (eligible_skus weekly).
Proof.
  unfold eligible_skus. apply NoDup_filter_bool.
  rewrite (merge_sort_Permutation Z.le). apply NoDup_unique.
Qed.

Lemma eligible_skus_weeks weekly s :
  s ∈ eligible_skus weekly ->
  4 <= length (List.filter (fun r => (sku r =? s)%Z) (h1_data weekly)).
Proof.
  unfold eligible_skus. rewrite elem_of_filter_bool. intros [_ Hs].
  apply Nat.leb_le in Hs. rewrite group_sizes_lookup in Hs.
  erewrite filter_ext_in; [exact Hs|]. intros r _. cbn.
  destruct (Z.eqb_spec (sku r) s) as [E|E].
  - by rewrite bool_decide_eq_true_2.
  - by rewrite bool_decide_eq_false_2.
Qed.

(** The number of distinct values grows by one with a block of a new
    value. *)
Lemma unique_new_block (l block : list Z) (s : Z) :
  block <> [] -> Forall (fun x => x = s) block -> s ∉ l ->
  length (unique (l ++ block)) = S (length (unique l)).
Proof.
  intros Hne Hall Hfresh.
  assert (unique (l ++ block) ≡ₚ s :: unique l) as ->; [|reflexivity].
  apply NoDup_Permutation.
  - apply NoDup_unique.
  - constructor; [by rewrite elem_of_unique|apply NoDup_unique].
  - intros x. rewrite elem_of_cons, !elem_of_unique, elem_of_app.
    rewrite Forall_forall in Hall. split.
    + intros [Hx|Hx]; [by right|left; by apply Hall].
    + intros [->|Hx]; [|by left]. right.
      destruct block as [|b block]; [done|].
      rewrite (Hall b) by left. left.
Qed.

Lemma ratio_nonneg (x a : Q) : (0 <= x)%Q -> (0 < a)%Q -> (0 <= 100 * x / a)%Q.
Proof.
  intros Hx Ha. apply Qle_shift_div_l; [exact Ha|].
  rewrite Qmult_0_l. rewrite <- (Qmult_0_r 100).
  by apply Qmult_le_l.
Qed.

Section Loop.
Context `{Library}.
Variables (w : World) (weekly : list Row).

(** What an entry of [sku_results] satisfies. *)
Local Abbreviation sound := (fun p : Prediction =>
  (0 <= predicted p)%Q /\
  abs_error p = Qabs (predicted p - actual p) /\
  (0 <= pct_error p)%Q /\
  ((actual p <= 0)%Q -> pct_error p = 0%Q) /\
  exists r, r ∈ weekly /\ is_h1 r = false /\ notna_features r = true /\
    sku r = p_sku p /\ year_week r = p_year_week p /\
    weekly_quantity r = actual p).

(** The two outcomes of a turn of the loop. *)
Lemma turn_cases st s :
  turn w weekly st s = skip st \/
  exists new acts,
    turn w weekly st s
    = {| sku_results := sku_results st ++ new;
         sku_h1_actuals := sku_h1_actuals st ++ acts;
         trained_count := S (trained_count st);
         skipped_count := skipped_count st |} /\
    new <> [] /\ acts <> [] /\
    Forall (fun p => p_sku p = s /\ sound p) new /\
    Forall (fun a => a_sku a = s) acts.
Proof.
  unfold turn.
  set (sku_h1 := List.filter (fun r => (sku r =? s)%Z) (h1_data weekly)).
  set (sku_h2 := List.filter (fun r => (sku r =? s)%Z) (h2_data weekly)).
  destruct (length sku_h2 =? 0); [by left|].
  destruct (length (List.filter notna_features sku_h1) <? 3) eqn:Hh1;
    [by left|].
  apply Nat.ltb_ge in Hh1.
  destruct (length (List.filter notna_features sku_h2) =? 0) eqn:Hh2;
    [by left|].
  apply Nat.eqb_neq in Hh2.
  unfold train_xgboost_model.
  destruct (gbr_fit w _ _ _) as [model|]; [|by left].
  right. eexists _, _. split; [reflexivity|].
  rewrite zip_with_fmap_r, zip_with_fmap_r, zip_with_diag.
  split; [|split; [|split]].
  - intros E. apply fmap_nil_inv in E. by rewrite E in Hh2.
  - intros E. apply fmap_nil_inv in E. rewrite E in Hh1. cbn in Hh1. lia.
  - apply Forall_fmap, Forall_forall. intros r Hr.
    cbn [compose p_sku p_year_week actual predicted abs_error pct_error].
    apply elem_of_filter_bool in Hr as [Hr Hna]. subst sku_h2.
    apply elem_of_filter_bool in Hr as [Hr Hs]. apply Z.eqb_eq in Hs.
    unfold h2_data in Hr. apply elem_of_filter_bool in Hr as [Hr Hh].
    apply negb_true_iff in Hh.
    split; [reflexivity|].
    split; [apply TrainV4RunFacts.clip0_nonneg|]. split; [reflexivity|].
    split; [|split].
    + destruct (Qltb 0 (weekly_quantity r)) eqn:E; [|done].
      apply Qltb_lt in E. apply ratio_nonneg; [apply Qabs_nonneg|exact E].
    + intros Hle. destruct (Qltb 0 (weekly_quantity r)) eqn:E; [|done].
      apply Qltb_lt in E. exfalso. exact (Qlt_not_le _ _ E Hle).
    + exists r. done.
  - apply Forall_fmap, Forall_forall. by intros r _.
Qed.

(** The state after the turns of a list of distinct SKUs. *)
Lemma loop_prefix ks :
  NoDup ks ->
  let st := foldl (turn w weekly)
              {| sku_results := []; sku_h1_actuals := [];
                 trained_count := 0; skipped_count := 0 |} ks in
  trained_count st + skipped_count st = length ks /\
  Forall (fun p => p_sku p ∈ ks /\ sound p) (sku_results st) /\
  (forall s, s ∈ a_sku <$> sku_h1_actuals st <->
             s ∈ p_sku <$> sku_results st) /\
  trained_count st = length (unique (p_sku <$> sku_results st)).
Proof.
  induction ks as [|s ks IH] using rev_ind; intros Hnd.
  { cbn. split; [done|]. split; [constructor|]. split; [done|done]. }
  apply NoDup_app in Hnd as (Hnd & Hfresh & _).
  specialize (IH Hnd). cbn zeta in IH |- *. rewrite foldl_app. cbn [foldl].
  set (st := foldl _ _ ks) in *.
  destruct IH as (Hcount & Hres & Hacts & Htrained).
  assert (s ∉ p_sku <$> sku_results st) as Hs.
  { intros Hin. apply list_elem_of_fmap in Hin as (p & -> & Hp).
    rewrite Forall_forall in Hres. destruct (Hres p Hp) as [Hk _].
    apply (Hfresh _ Hk). left. }
  assert (Forall (fun p => p_sku p ∈ ks ++ [s] /\ sound p) (sku_results st))
    as Hres'.
  { eapply Forall_impl; [exact Hres|]. intros p [Hk Hp].
    split; [|exact Hp]. apply elem_of_app. by left. }
  destruct (turn_cases st s) as [->|(new & acts & -> & Hnew & Hne & Hn & Ha)].
  - cbn. rewrite length_app. cbn. split; [lia|]. done.
  - cbn. rewrite length_app. cbn. split; [lia|]. split; [|split].
    + apply Forall_app. split; [exact Hres'|].
      eapply Forall_impl; [exact Hn|]. intros p [-> Hp].
      split; [|exact Hp]. apply elem_of_app. right. left.
    + intros x. rewrite !fmap_app, !elem_of_app, Hacts.
      assert (x ∈ a_sku <$> acts <-> x = s) as ->.
      { rewrite list_elem_of_fmap. rewrite Forall_forall in Ha. split.
        - intros (a & -> & Hin). by apply Ha.
        - intros ->. destruct acts as [|a acts]; [done|].
          exists a. split; [symmetry; apply Ha|]; left. }
      assert (x ∈ p_sku <$> new <-> x = s) as ->; [|done].
      rewrite list_elem_of_fmap. rewrite Forall_forall in Hn. split.
      * intros (p & -> & Hin). by apply Hn.
      * intros ->. destruct new as [|p new]; [done|].
        exists p. split; [symmetry; apply Hn|]; left.
    + rewrite fmap_app, Htrained. symmetry. apply (unique_new_block _ _ s).
      * intros E. by apply fmap_nil_inv in E.
      * apply Forall_fmap. eapply Forall_impl; [exact Hn|]. by intros p [? _].
      * exact Hs.
Qed.

End Loop.

(** X25. When the loop over the eligible SKUs ends, the two counters
    add up to the number of eligible SKUs, and the number of trained
    models is the number of SKUs with a prediction.  Every prediction
    belongs to an SKU with at least 4 weeks in the first half and
    stands for a row after week 2025-W26 with all its feature cells;
    it is not negative, its errors are not negative, and its
    percentage error is 0 where nothing was sold.  The first-half
    actuals are stored for exactly the SKUs that have a prediction. *)
Theorem X25_loop_bookkeeping `{Library} (w : World) (weekly : list Row) :
  let st := sku_loop w weekly in
  trained_count st + skipped_count st = length (eligible_skus weekly) /\
  trained_count st = length (unique (p_sku <$> sku_results st)) /\
  (forall s, s ∈ a_sku <$> sku_h1_actuals st <->
             s ∈ p_sku <$> sku_results st) /\
  Forall (fun p =>
    4 <= length (List.filter (fun r => (sku r =? p_sku p)%Z)
                   (h1_data weekly)) /\
    (0 <= predicted p)%Q /\
    abs_error p = Qabs (predicted p - actual p) /\
    (0 <= pct_error p)%Q /\
    ((actual p <= 0)%Q -> pct_error p = 0%Q) /\
    exists r, r ∈ weekly /\ is_h1 r = false /\ notna_features r = true /\
      sku r = p_sku p /\ year_week r = p_year_week p /\
      weekly_quantity r = actual p)
    (sku_results st).
Proof.
  intros st. subst st. unfold sku_loop.
  destruct (loop_prefix w weekly _ (NoDup_eligible_skus weekly))
    as (Hcount & Hres & Hacts & Htrained).
  split; [exact Hcount|]. split; [exact Htrained|]. split; [exact Hacts|].
  eapply Forall_impl; [exact Hres|]. intros p [Hk Hp].
  split; [by apply eligible_skus_weeks|exact Hp].
Qed.

(** X26. The overall metric of the first trainer is computed exactly
    when a model was trained.  It is a finite, non-negative number when
    the actuals of the predictions sum to a positive value, and it is
    infinite or NaN, never a number, when they sum to zero. *)
Theorem X26_overall_metric `{Library} (w : World) (weekly : list Row) :
  let results := sku_results (sku_loop w weekly) in
  (overall_wmape w weekly = None <-> trained_count (sku_loop w weekly) = 0) /\
  ((0 < Qsum (actual <$> results))%Q ->
   exists q, overall_wmape w weekly = Some (TrainAllModels.Finite q) /\
             (0 <= q)%Q) /\
  ((Qsum (actual <$> results) == 0)%Q -> results <> [] ->
   overall_wmape w weekly = Some TrainAllModels.PosInf \/
   overall_wmape w weekly = Some TrainAllModels.NaN).
Proof.
  intros results.
  destruct (loop_prefix w weekly _ (NoDup_eligible_skus weekly))
    as (_ & _ & _ & Htrained).
  fold (sku_loop w weekly) in Htrained. fold results in Htrained.
  unfold overall_wmape. fold results.
  split; [|split].
  - rewrite Htrained. destruct results as [|p ps]; [done|].
    split; [done|]. intros Hz. rewrite (fmap_cons p_sku) in Hz.
    cbn [unique length] in Hz. lia.
  - intros Hpos.
    destruct results as [|p ps] eqn:E;
      [cbn in Hpos; by apply Qlt_irrefl in Hpos|].
    rewrite <- E. unfold TrainAllModels.calculate_wmape, TrainAllModels.np_div.
    rewrite <- E in Hpos. rewrite (Qpos_not_zero _ Hpos).
    eexists. split; [reflexivity|].
    apply ratio_nonneg; [apply TrainV4RunFacts.abs_errors_nonneg|exact Hpos].
  - intros Hzero Hne.
    destruct results as [|p ps] eqn:E; [done|].
    rewrite <- E. unfold TrainAllModels.calculate_wmape, TrainAllModels.np_div.
    rewrite <- E in Hzero. rewrite (proj2 (Qeq_bool_iff _ _) Hzero).
    destruct (Qeq_bool _ 0) eqn:Hz; [by right|].
    apply Qeq_bool_false_iff in Hz.
    destruct (Qltb 0 _) eqn:Hlt; [by left|]. exfalso.
    apply Qltb_nlt in Hlt.
    assert (0 <= 100 * Qsum (zip_with (fun a p => Qabs (a - p))
                               (actual <$> results) (predicted <$> results)))%Q
      as Hge.
    { rewrite <- (Qmult_0_r 100).
      apply Qmult_le_l; [done|apply TrainV4RunFacts.abs_errors_nonneg]. }
    apply Qle_lt_or_eq in Hge as [Hgt|Heq]; [by apply Hlt|].
    apply Hz. by symmetry.
Qed.

End TrainAllSkuFacts.

(** ** V4 price-change feature: range and saturation *)

Module V4FeaturesFacts.
Import V4Features.

Lemma clip_range lo hi x : (lo <= hi)%Q -> (lo <= clip lo hi x <= hi)%Q.
Proof.
  intros Hlh. unfold clip.
  destruct (Qltb x lo) eqn:E1; [split; [apply Qle_refl|exact Hlh]|].
  apply Qltb_nlt, Qnot_lt_le in E1.
  destruct (Qltb hi x) eqn:E2; [split; [exact Hlh|apply Qle_refl]|].
  apply Qltb_nlt, Qnot_lt_le in E2. by split.
Qed.

Lemma clip_inside lo hi x : (lo <= x)%Q -> (x <= hi)%Q -> clip lo hi x = x.
Proof.
  intros H1 H2. unfold clip.
  rewrite (proj2 (Qltb_nlt x lo)) by (by apply Qle_not_lt).
  by rewrite (proj2 (Qltb_nlt hi x)) by (by apply Qle_not_lt).
Qed.

Lemma clip_above lo hi x : (lo <= hi)%Q -> (hi <= x)%Q -> (clip lo hi x == hi)%Q.
Proof.
  intros Hlh Hx. unfold clip.
  rewrite (proj2 (Qltb_nlt x lo)).
  - destruct (Qltb hi x) eqn:E; [reflexivity|].
    apply Qltb_nlt, Qnot_lt_le in E. by apply Qle_antisym.
  - apply Qle_not_lt. by apply Qle_trans with (y := hi).
Qed.

Lemma raw_pct_priced (a l : Q) :
  (0 < l)%Q ->
  raw_price_change_pct (Some a) (Some l) = Some ((a - l) / l * 100)%Q.
Proof.
  intros Hl. unfold raw_price_change_pct. cbn.
  by rewrite (Qpos_not_zero _ Hl).
Qed.

(** X27. The price-change feature of the V4 trainer lies between -100
    and 100 in every row.  It is 0 in the first week of an SKU and
    after a week priced 0, as it is for an unchanged price.  Between
    two positive prices it has the sign of the change, it never
    reaches -100, and it is 100 for every price that at least
    doubled. *)
Theorem X27_price_change_pct (avg_unit_price price_lag1 : option Q) :
  (-100 <= price_change_pct avg_unit_price price_lag1 <= 100)%Q /\
  price_change_pct avg_unit_price None = 0%Q /\
  price_change_pct avg_unit_price (Some 0%Q) = 0%Q /\
  (forall a l, (0 < a)%Q -> (0 < l)%Q ->
     (-100 < price_change_pct (Some a) (Some l))%Q /\
     ((l < a)%Q <-> (0 < price_change_pct (Some a) (Some l))%Q) /\
     ((a == l)%Q -> (price_change_pct (Some a) (Some l) == 0)%Q) /\
     ((2 * l <= a)%Q -> (price_change_pct (Some a) (Some l) == 100)%Q)).
Proof.
  split; [by apply clip_range|].
  split; [by destruct avg_unit_price|].
  split; [by destruct avg_unit_price|].
  intros a l Ha Hl. unfold price_change_pct.
  rewrite (raw_pct_priced a l Hl). cbn [default from_option]. unfold id.
  set (x := ((a - l) / l * 100)%Q).
  assert (x == (a / l) * 100 - 100)%Q as Hx.
  { subst x. field. intros E. rewrite E in Hl. by apply Qlt_irrefl in Hl. }
  assert (0 < a / l)%Q as Hratio by (by apply Qdiv_pos).
  assert (-100 < x)%Q as Hlow.
  { rewrite Hx. apply Qlt_minus_iff.
    assert (a / l * 100 - 100 + - -100 == a / l * 100)%Q as -> by ring.
    rewrite <- (Qmult_0_l 100). by apply Qmult_lt_compat_r. }
  assert ((l < a)%Q <-> (0 < x)%Q) as Hsign.
  { subst x. split.
    - intros Hla. rewrite <- (Qmult_0_l 100). apply Qmult_lt_compat_r; [done|].
      apply Qdiv_pos; [|exact Hl]. apply Qlt_minus_iff in Hla.
      by rewrite <- (Qplus_0_l (a - l)), Qplus_0_l.
    - intros Hpos. apply Qlt_minus_iff.
      destruct (Qlt_le_dec 0 (a + - l)) as [Hgt|Hle]; [exact Hgt|].
      exfalso. apply (Qlt_not_le _ _ Hpos).
      rewrite <- (Qmult_0_l 100). apply Qmult_le_compat_r; [|done].
      apply Qle_shift_div_r; [exact Hl|]. by rewrite Qmult_0_l. }
  split; [|split; [|split]].
  - unfold clip. destruct (Qltb x (-100)) eqn:E1.
    { apply Qltb_lt in E1. exfalso. exact (Qlt_not_le _ _ E1 (Qlt_le_weak _ _ Hlow)). }
    destruct (Qltb 100 x); [reflexivity|exact Hlow].
  - rewrite Hsign. unfold clip.
    rewrite (proj2 (Qltb_nlt x (-100)))
      by (apply Qle_not_lt; by apply Qlt_le_weak).
    destruct (Qltb 100 x) eqn:E2; [|done].
    apply Qltb_lt in E2. split; [done|]. intros _.
    by apply Qlt_trans with (y := 100%Q).
  - intros Hal. assert (x == 0)%Q as Hz.
    { subst x. rewrite Hal. field. intros E. rewrite E in Hl.
      by apply Qlt_irrefl in Hl. }
    unfold clip.
    rewrite (proj2 (Qltb_nlt x (-100)))
      by (apply Qle_not_lt; by apply Qlt_le_weak).
    destruct (Qltb 100 x) eqn:E2; [|exact Hz].
    apply Qltb_lt in E2. rewrite Hz in E2. done.
  - intros Hdouble. apply clip_above; [done|].
    rewrite Hx. apply Qle_minus_iff.
    assert (a / l * 100 - 100 + - (100) == (a / l - 2) * 100)%Q as -> by ring.
    rewrite <- (Qmult_0_l 100). apply Qmult_le_compat_r; [|done].
    apply Qle_minus_iff in Hdouble.
    assert (a / l - 2 == (a + - (2 * l)) / l)%Q as ->.
    { field. intros E. rewrite E in Hl. by apply Qlt_irrefl in Hl. }
    apply Qle_shift_div_l; [exact Hl|]. by rewrite Qmult_0_l.
Qed.

End V4FeaturesFacts.
